(** * Fitness-tracker module [homework.py]: a shallow embedding and its properties

    The module computes, for three kinds of workout (running, race walking,
    swimming), the distance, the mean speed and the spent calories, checks a
    raw data package and renders a one-line summary.

    Python numbers are modelled as they are at run time: an [int] is an
    unbounded integer ([Z]), a [float] is an IEEE 754 binary64 value (Rocq's
    primitive [float]).  Exceptions are explicit: every operation that can
    raise returns a [result]. *)

From Stdlib Require Import ZArith Bool List String Ascii Lia.
From Stdlib Require Import Reals Lra Floats DecimalString DecimalN.
Import ListNotations.

Set Warnings "-inexact-float".

Local Open Scope string_scope.
Local Open Scope Z_scope.

(** ** Exceptions and the error monad *)

Inductive exn : Type :=
| ZeroDivisionError
| OverflowError
| IndexError
| KeyError
| TypeError
| NotImplementedError (msg : string).

Inductive result (A : Type) : Type :=
| Ok (a : A)
| Raise (e : exn).

Arguments Ok {A} a.
Arguments Raise {A} e.

Definition bind {A B : Type} (m : result A) (k : A -> result B) : result B :=
  match m with
  | Ok a => k a
  | Raise e => Raise e
  end.

Notation "x <- m ;; k" := (bind m (fun x => k))
  (at level 61, m at next level, right associativity).

(** ** Python numbers *)

Inductive num : Type :=
| PyInt (z : Z)
| PyFloat (f : float).

(** [float(n)] for an int: correctly rounded (half to even); an int that
    rounds beyond the largest double raises [OverflowError]. *)
Definition float_of_int (z : Z) : result float :=
  match binary_normalize prec emax z 0 false with
  | S754_infinity _ => Raise OverflowError
  | sf => Ok (SF2Prim sf)
  end.

Definition to_float (n : num) : result float :=
  match n with
  | PyInt z => float_of_int z
  | PyFloat f => Ok f
  end.

(** [a / b] on two ints ([long_true_divide]): the correctly rounded quotient. *)
Definition int_true_divide (a b : Z) : result float :=
  if b =? 0 then Raise ZeroDivisionError
  else
    let negate := xorb (a <? 0) (b <? 0) in
    if a =? 0 then Ok (SF2Prim (S754_zero negate))
    else
      let '(q, e, l) := SFdiv_core_binary prec emax (Z.abs a) 0 (Z.abs b) 0 in
      match binary_round_aux prec emax negate q e l with
      | S754_infinity _ => Raise OverflowError
      | sf => Ok (SF2Prim sf)
      end.

Definition num_add (a b : num) : result num :=
  match a, b with
  | PyInt x, PyInt y => Ok (PyInt (x + y))
  | _, _ =>
      x <- to_float a ;;
      y <- to_float b ;;
      Ok (PyFloat (x + y)%float)
  end.

Definition num_mul (a b : num) : result num :=
  match a, b with
  | PyInt x, PyInt y => Ok (PyInt (x * y))
  | _, _ =>
      x <- to_float a ;;
      y <- to_float b ;;
      Ok (PyFloat (x * y)%float)
  end.

(** True division [/]: both operands are converted first, then a zero
    divisor raises [ZeroDivisionError]. *)
Definition num_truediv (a b : num) : result num :=
  match a, b with
  | PyInt x, PyInt y => f <- int_true_divide x y ;; Ok (PyFloat f)
  | _, _ =>
      x <- to_float a ;;
      y <- to_float b ;;
      if (y =? 0)%float then Raise ZeroDivisionError
      else Ok (PyFloat (x / y)%float)
  end.

Section Power.

(** The C library's [pow], which CPython calls for the general case. *)
Variable libm_pow : float -> float -> float.

(** [float_pow(v, 2)]: the branches of CPython's [float_pow] that an
    exponent equal to [2] can reach.  NaN is returned as it is, an
    infinity gives [+inf], a zero gives [0.0], a negative base is replaced
    by its absolute value (the exponent is even), [1.0] gives [1.0]; every
    other base goes to [pow], and an infinite result there raises
    [OverflowError]. *)
Definition float_pow_two (iv : float) : result float :=
  if is_nan iv then Ok iv
  else if is_infinity iv then Ok (abs iv)
  else if (iv =? 0)%float then Ok 0%float
  else
    let iv := if (iv <? 0)%float then (- iv)%float else iv in
    if (iv =? 1)%float then Ok 1%float
    else
      let ix := libm_pow iv 2%float in
      if is_infinity ix then Raise OverflowError else Ok ix.

(** [x ** 2] *)
Definition num_pow_two (x : num) : result num :=
  match x with
  | PyInt z => Ok (PyInt (z * z))
  | PyFloat f => r <- float_pow_two f ;; Ok (PyFloat r)
  end.

End Power.

(** *** Comparison

    Python compares an int with a float exactly (no conversion of the
    int), and every comparison with NaN is false. *)

Definition Z_compare_SF (z : Z) (x : spec_float) : option comparison :=
  match x with
  | S754_nan => None
  | S754_infinity s => Some (if s then Gt else Lt)
  | S754_zero _ => Some (z ?= 0)
  | S754_finite s m e =>
      let sm := cond_Zopp s (Zpos m) in
      Some (if 0 <=? e then z ?= sm * 2 ^ e else z * 2 ^ (- e) ?= sm)
  end.

Definition Z_lt_float (z : Z) (y : float) : bool :=
  match Z_compare_SF z (Prim2SF y) with
  | Some Lt => true
  | _ => false
  end.

Definition float_lt_Z (x : float) (z : Z) : bool :=
  match Z_compare_SF z (Prim2SF x) with
  | Some Gt => true
  | _ => false
  end.

(** [a < b] *)
Definition num_lt (a b : num) : bool :=
  match a, b with
  | PyInt x, PyInt y => x <? y
  | PyFloat x, PyFloat y => (x <? y)%float
  | PyInt x, PyFloat y => Z_lt_float x y
  | PyFloat x, PyInt y => float_lt_Z x y
  end.

(** The chained comparison [lo < x < hi]; [x] is evaluated once. *)
Definition chain_lt (lo x hi : num) : bool := num_lt lo x && num_lt x hi.

(** ** The training classes *)

(** An instance of [Training] or of one of its subclasses, with the
    attributes its [__init__] stores. *)
Inductive training : Type :=
| Training (action duration weight : num)
| Running (action duration weight : num)
| SportsWalking (action duration weight height : num)
| Swimming (action duration weight length_pool count_pool : num).

Definition action (self : training) : num :=
  match self with
  | Training a _ _ | Running a _ _ | SportsWalking a _ _ _
  | Swimming a _ _ _ _ => a
  end.

Definition duration (self : training) : num :=
  match self with
  | Training _ d _ | Running _ d _ | SportsWalking _ d _ _
  | Swimming _ d _ _ _ => d
  end.

Definition weight (self : training) : num :=
  match self with
  | Training _ _ w | Running _ _ w | SportsWalking _ _ w _
  | Swimming _ _ w _ _ => w
  end.

(** [type(self).__name__] *)
Definition class_name (self : training) : string :=
  match self with
  | Training _ _ _ => "Training"
  | Running _ _ _ => "Running"
  | SportsWalking _ _ _ _ => "SportsWalking"
  | Swimming _ _ _ _ _ => "Swimming"
  end.

(** Class attributes, looked up through the instance: [Swimming] overrides
    [LEN_STEP]. *)
Definition LEN_STEP (self : training) : num :=
  match self with
  | Swimming _ _ _ _ _ => PyFloat 1.38
  | _ => PyFloat 0.65
  end.

Definition M_IN_KM : num := PyInt 1000.
Definition H_IN_M : num := PyInt 60.

Module RunningConst.
Definition CALORIES_MEAN_SPEED_MULTIPLIER : num := PyInt 18.
Definition CALORIES_MEAN_SPEED_SHIFT : num := PyFloat 1.79.
End RunningConst.

Module SportsWalkingConst.
Definition CALORIES_WEIGHT_MULTIPLIER_1 : num := PyFloat 0.035.
Definition CALORIES_WEIGHT_MULTIPLIER_2 : num := PyFloat 0.029.
Definition KM_PER_H_IN_M_PER_S : num := PyFloat 0.278.
Definition CM_IN_M : num := PyInt 100.
End SportsWalkingConst.

Module SwimmingConst.
Definition CALORIES_MEAN_SPEED_ADDITION : num := PyFloat 1.1.
Definition CALORIES_MEAN_SPEED_MULTIPLIER : num := PyInt 2.
End SwimmingConst.

(** [Training.get_distance]; no subclass overrides it. *)
Definition get_distance (self : training) : result num :=
  x <- num_mul (action self) (LEN_STEP self) ;;
  num_truediv x M_IN_KM.

(** [get_mean_speed]: [Swimming] overrides the method of [Training]. *)
Definition get_mean_speed (self : training) : result num :=
  match self with
  | Swimming _ d _ length_pool count_pool =>
      x <- num_mul length_pool count_pool ;;
      y <- num_truediv x M_IN_KM ;;
      num_truediv y d
  | _ =>
      dist <- get_distance self ;;
      num_truediv dist (duration self)
  end.

Section Calories.

Variable libm_pow : float -> float -> float.

(** [get_spent_calories]: the base class raises, every subclass has its
    own formula.  Operands are evaluated left to right. *)
Definition get_spent_calories (self : training) : result num :=
  match self with
  | Training _ _ _ =>
      Raise (NotImplementedError
               ("Define get_spent_calories() in " ++ class_name self))
  | Running _ d w =>
      speed <- get_mean_speed self ;;
      x <- num_mul RunningConst.CALORIES_MEAN_SPEED_MULTIPLIER speed ;;
      x <- num_add x RunningConst.CALORIES_MEAN_SPEED_SHIFT ;;
      x <- num_mul x w ;;
      x <- num_truediv x M_IN_KM ;;
      x <- num_mul x d ;;
      num_mul x H_IN_M
  | SportsWalking _ d w h =>
      l <- num_mul SportsWalkingConst.CALORIES_WEIGHT_MULTIPLIER_1 w ;;
      speed <- get_mean_speed self ;;
      v <- num_mul speed SportsWalkingConst.KM_PER_H_IN_M_PER_S ;;
      v2 <- num_pow_two libm_pow v ;;
      hm <- num_truediv h SportsWalkingConst.CM_IN_M ;;
      r <- num_truediv v2 hm ;;
      r <- num_mul r SportsWalkingConst.CALORIES_WEIGHT_MULTIPLIER_2 ;;
      r <- num_mul r w ;;
      x <- num_add l r ;;
      x <- num_mul x d ;;
      num_mul x H_IN_M
  | Swimming _ d w _ _ =>
      speed <- get_mean_speed self ;;
      x <- num_add speed SwimmingConst.CALORIES_MEAN_SPEED_ADDITION ;;
      x <- num_mul x SwimmingConst.CALORIES_MEAN_SPEED_MULTIPLIER ;;
      x <- num_mul x w ;;
      num_mul x d
  end.

End Calories.

(** ** The info message *)

(** Rendering with the format specification [.3f]: the decimal expansion of
    the exact binary value, rounded to three places, ties to even. *)

Definition round_half_even_div (n d : Z) : Z :=
  let q := n / d in
  let r := n mod d in
  match 2 * r ?= d with
  | Lt => q
  | Gt => q + 1
  | Eq => if Z.even q then q else q + 1
  end.

(** The number of thousandths nearest to [m * 2 ^ e]. *)
Definition thousandths (m : positive) (e : Z) : Z :=
  if 0 <=? e then Zpos m * 2 ^ e * 1000
  else round_half_even_div (Zpos m * 1000) (2 ^ (- e)).

Definition digit_char (d : Z) : ascii := ascii_of_N (48 + Z.to_N d).

(** The last decimal digit of [z]. *)
Definition digit (z : Z) : string :=
  String (digit_char (z mod 10)) EmptyString.

Definition string_of_nonneg (z : Z) : string :=
  NilZero.string_of_uint (N.to_uint (Z.to_N z)).

Definition fixed3 (n : Z) : string :=
  string_of_nonneg (n / 1000) ++ "."
    ++ digit (n / 100) ++ digit (n / 10) ++ digit n.

Definition sign_string (s : bool) : string := if s then "-" else "".

Definition format_3f_float (f : float) : string :=
  match Prim2SF f with
  | S754_nan => "nan"
  | S754_infinity s => sign_string s ++ "inf"
  | S754_zero s => sign_string s ++ "0.000"
  | S754_finite s m e => sign_string s ++ fixed3 (thousandths m e)
  end.

(** [format(x, '.3f')]: an int is converted to a float first. *)
Definition format_3f (x : num) : result string :=
  f <- to_float x ;;
  Ok (format_3f_float f).

Module InfoMessage.

Record t : Type := Build {
  training_type : string;
  duration : num;
  distance : num;
  speed : num;
  calories : num
}.

Definition get_message (self : t) : result string :=
  duration <- format_3f (duration self) ;;
  distance <- format_3f (distance self) ;;
  speed <- format_3f (speed self) ;;
  calories <- format_3f (calories self) ;;
  Ok ("Тип тренировки: " ++ training_type self ++ "; "
      ++ "Длительность: " ++ duration ++ " ч.; "
      ++ "Дистанция: " ++ distance ++ " км; "
      ++ "Ср. скорость: " ++ speed ++ " км/ч; "
      ++ "Потрачено ккал: " ++ calories ++ ".").

End InfoMessage.

(** ** Checking and reading a package *)

Definition index (data : list num) (i : nat) : result num :=
  match nth_error data i with
  | Some x => Ok x
  | None => Raise IndexError
  end.

(** Calling a class with the unpacked list [*data]. *)
Definition new_Swimming (data : list num) : result training :=
  match data with
  | [a; d; w; l; c] => Ok (Swimming a d w l c)
  | _ => Raise TypeError
  end.

Definition new_Running (data : list num) : result training :=
  match data with
  | [a; d; w] => Ok (Running a d w)
  | _ => Raise TypeError
  end.

Definition new_SportsWalking (data : list num) : result training :=
  match data with
  | [a; d; w; h] => Ok (SportsWalking a d w h)
  | _ => Raise TypeError
  end.

Definition workouts : list (string * (list num -> result training)) :=
  [("SWM", new_Swimming); ("RUN", new_Running); ("WLK", new_SportsWalking)].

Fixpoint lookup {A : Type} (k : string) (d : list (string * A)) : option A :=
  match d with
  | [] => None
  | (k', v) :: d' => if (k =? k')%string then Some v else lookup k d'
  end.

(** [k in d] *)
Definition contains {A : Type} (k : string) (d : list (string * A)) : bool :=
  match lookup k d with
  | Some _ => true
  | None => false
  end.

(** [a and b], where [b] is evaluated only when [a] holds. *)
Definition and_then (a : bool) (b : result bool) : result bool :=
  if a then b else Ok false.

Definition MSG_ARGS : string := "Некорректное количество аргументов.".
Definition MSG_WEIGHT : string := "Неверно указанный вес.".
Definition MSG_POOL : string :=
  "Неверно указана длина бассейна. " ++ "Необходимо указать длину в м.".
Definition MSG_HEIGHT : string :=
  "Неверно указан рост. Необходимо указать рост в см.".
Definition MSG_CODE : string := "Неверно указан шифр тренировки.".

Definition check_data (workout_type : string) (data : list num)
  : result (option string) :=
  if (workout_type =? "SWM")%string && negb (List.length data =? 5)%nat then
    Ok (Some MSG_ARGS)
  else if (workout_type =? "RUN")%string && negb (List.length data =? 3)%nat then
    Ok (Some MSG_ARGS)
  else if (workout_type =? "WLK")%string && negb (List.length data =? 4)%nat then
    Ok (Some MSG_ARGS)
  else
    w <- index data 2 ;;
    if negb (chain_lt (PyInt 35) w (PyInt 610)) then Ok (Some MSG_WEIGHT)
    else
      c <- and_then (workout_type =? "SWM")%string
             (x <- index data 3 ;;
              Ok (negb (chain_lt (PyInt 1) x (PyInt 1013)))) ;;
      if c then Ok (Some MSG_POOL)
      else
        c <- and_then (workout_type =? "WLK")%string
               (x <- index data 3 ;;
                Ok (negb (chain_lt (PyInt 50) x (PyInt 251)))) ;;
        if c then Ok (Some MSG_HEIGHT)
        else if negb (contains workout_type workouts) then Ok (Some MSG_CODE)
        else Ok None.

Definition read_package (workout_type : string) (data : list num)
  : result training :=
  match lookup workout_type workouts with
  | Some cls => cls data
  | None => Raise KeyError
  end.

Section Main.

Variable libm_pow : float -> float -> float.

(** [Training.show_training_info] *)
Definition show_training_info (self : training) : result InfoMessage.t :=
  dist <- get_distance self ;;
  speed <- get_mean_speed self ;;
  cal <- get_spent_calories libm_pow self ;;
  Ok (InfoMessage.Build (class_name self) (duration self) dist speed cal).

(** [main]: the line it prints. *)
Definition main (t : training) : result string :=
  info <- show_training_info t ;;
  InfoMessage.get_message info.

End Main.

(** A [pow] that is correctly rounded at exponent [2]. *)
Definition pow_rn (x y : float) : float := (x * x)%float.

(** ** The demo run ([__main__]) *)

Definition packages : list (string * list num) :=
  [ ("SWM", [PyInt 720; PyInt 1; PyInt 80; PyInt 25; PyInt 40]);
    ("RUN", [PyInt 15000; PyInt 1; PyInt 75]);
    ("WLK", [PyInt 9000; PyInt 1; PyInt 75; PyInt 180]);
    ("PLT", [PyInt 12000; PyInt 1; PyInt 60]);
    ("SWM", [PyInt 230; PyInt 1; PyInt 70; PyFloat 0.25; PyInt 38]);
    ("RUN", [PyInt 23000; PyFloat 1.15; PyInt 655]);
    ("WLK", [PyInt 4000; PyInt 2; PyInt 60; PyFloat 1.65]);
    ("SWM", [PyInt 340; PyInt 4; PyInt 60; PyInt 3000]) ].

(** How the loop ends: every package was processed, the loop raised
    [ValueError(check_data_result)] itself, or an exception of a callee
    went through. *)
Inductive outcome : Type :=
| Finished
| ValueError (arg : option string)
| Uncaught (e : exn).

(** The truth value of an [Optional[str]]: [None] and the empty string
    are false. *)
Definition truthy (r : option string) : bool :=
  match r with
  | Some s => negb (s =? "")%string
  | None => false
  end.

Section Driver.

Variable libm_pow : float -> float -> float.

(** The loop over the packages: the lines printed so far and how the loop
    ended. *)
Fixpoint run (ps : list (string * list num)) : list string * outcome :=
  match ps with
  | [] => ([], Finished)
  | (workout_type, data) :: ps' =>
      match check_data workout_type data with
      | Raise e => ([], Uncaught e)
      | Ok check_data_result =>
          if truthy check_data_result then ([], ValueError check_data_result)
          else
            match read_package workout_type data with
            | Raise e => ([], Uncaught e)
            | Ok training =>
                match main libm_pow training with
                | Raise e => ([], Uncaught e)
                | Ok line =>
                    let '(lines, o) := run ps' in (line :: lines, o)
                end
            end
      end
  end.

End Driver.


(** * Definitions for the statements

    What the properties below talk about: the reading of the validator as
    an ordered list of checks, the template of the specification, and the
    vocabulary of rounding in binary64 (values of floats as real numbers,
    positions of a real between two consecutive mantissas, the rounded
    result). *)

(** [2 ^ e] as a real number, for an exponent of either sign. *)
Definition bpow (e : Z) : R := powerRZ 2 e.

(** [inbetween x m l]: the real [x] lies in the interval from [m] to
    [m + 1] (excluded), at the place the location [l] tells: on [m], below
    the middle, on the middle, above the middle. *)
Definition inbetween (x : R) (m : Z) (l : location) : Prop :=
  match l with
  | loc_Exact => x = IZR m
  | loc_Inexact Lt => (IZR m < x < IZR m + / 2)%R
  | loc_Inexact Eq => x = (IZR m + / 2)%R
  | loc_Inexact Gt => (IZR m + / 2 < x < IZR m + 1)%R
  end.

(** The same for a value [v] read at the scale [2 ^ e]. *)
Definition located (v : R) (m e : Z) (l : location) : Prop :=
  inbetween (v * bpow (- e)) m l.

(** The binary64 instances of the format parameters. *)
Abbreviation fexp := (SpecFloat.fexp prec emax).
Abbreviation BR := (binary_round_aux prec emax).
Abbreviation bounded := (SpecFloat.bounded prec emax).

(** The last step of [binary_round_aux]: the rounded mantissa is shifted
    once more when the rounding carried into a new digit, and the exponent
    is tested against the largest one. *)
Definition finish (s : bool) (m2 E : Z) : spec_float :=
  let '(mrs'', e'') := shr_fexp prec emax m2 E loc_Exact in
  match shr_m mrs'' with
  | Z0 => S754_zero s
  | Zpos m => if e'' <=? emax - prec then S754_finite s m e'' else S754_infinity s
  | _ => S754_nan
  end.

(** [repr s rho r]: the float [r], of sign [s], stands for the magnitude
    [rho]: a zero for 0, an infinity from [2 ^ emax] on, and otherwise a
    bounded mantissa and exponent whose value is [rho]. *)
Definition repr (s : bool) (rho : R) (r : spec_float) : Prop :=
  (rho = 0%R /\ r = S754_zero s) \/
  ((bpow emax <= rho)%R /\ r = S754_infinity s) \/
  (exists p e, r = S754_finite s p e /\ bounded p e = true /\
               rho = (IZR (Zpos p) * bpow e)%R /\ (rho < bpow emax)%R).

(** [rnd_spec v rho]: [rho] is [v] rounded to nearest, ties to even, at
    the canonical exponent of its binade. *)
Definition rnd_spec (v rho : R) : Prop :=
  exists m1 l1 E,
    0 <= m1 /\ fexp (Zdigits2 m1 + E) = E /\ located v m1 E l1 /\
    rho = (IZR (round_nearest_even m1 l1) * bpow E)%R.

(** The order of two reals read off a [comparison]. *)
Definition Rcmp (c : comparison) (x y : R) : Prop :=
  match c with
  | Lt => (x < y)%R
  | Eq => x = y
  | Gt => (y < x)%R
  end.

(** The comparison [SFcompare] makes on two positive finite floats:
    exponents first, then mantissas. *)
Definition lex_compare (p1 : positive) (e1 : Z) (p2 : positive) (e2 : Z) :=
  match e1 ?= e2 with
  | Lt => Lt
  | Gt => Gt
  | Eq => Pos.compare_cont Eq p1 p2
  end.

(** The real value of a finite float ([0] for the others). *)
Definition SF2R (x : spec_float) : R :=
  match x with
  | S754_finite s m e => (IZR (cond_Zopp s (Zpos m)) * bpow e)%R
  | _ => 0%R
  end.

(** A zero or a finite number. *)
Definition SFfinite (x : spec_float) : bool :=
  match x with
  | S754_zero _ | S754_finite _ _ _ => true
  | _ => false
  end.

(** [rounds v r]: the float [r] is the real [v] rounded to binary64, with
    overflow to an infinity and underflow to a zero of the sign of [v]. *)
Definition rounds (v : R) (r : spec_float) : Prop :=
  (v = 0%R /\ exists s, r = S754_zero s) \/
  ((0 < v)%R /\ exists rho, rnd_spec v rho /\ repr false rho r) \/
  ((v < 0)%R /\ exists rho, rnd_spec (- v) rho /\ repr true rho r).

(** The real [v] with the sign [s]. *)
Definition cond_Ropp (s : bool) (v : R) : R := if s then (- v)%R else v.

(** [not_gt x y]: [x] does not compare greater than [y]; it is less, equal,
    or one of the two is NaN. *)
Definition not_gt (x y : spec_float) : Prop := SFcompare x y <> Some Gt.

(** A NaN, a zero of either sign, a positive number or [+inf]. *)
Definition SFnonneg (c : spec_float) : Prop :=
  match c with
  | S754_infinity s | S754_finite s _ _ => s = false
  | _ => True
  end.

(** The same two predicates on primitive floats. *)
Definition f_not_gt (x y : float) : Prop := not_gt (Prim2SF x) (Prim2SF y).
Definition f_nonneg (x : float) : Prop := SFnonneg (Prim2SF x).

(** A positive number or [+inf]. *)
Definition SFpos (x : spec_float) : Prop :=
  match x with
  | S754_infinity false | S754_finite false _ _ => True
  | _ => False
  end.

(** ** Statements about the program *)

(** [x >= 0] in the sense that [x < 0] is false, and [0 < x]. *)
Definition num_nonneg (x : num) : Prop := num_lt x (PyInt 0) = false.
Definition num_pos (x : num) : Prop := num_lt (PyInt 0) x = true.

(** The computation does not raise [ZeroDivisionError]. *)
Definition no_zero_division {A : Type} (r : result A) : Prop :=
  r <> Raise ZeroDivisionError.

(** The classes that keep the mean speed of [Training]. *)
Definition step_based (self : training) : bool :=
  match self with
  | Running _ _ _ | SportsWalking _ _ _ _ => true
  | _ => false
  end.

(** The base that [float_pow] hands to the C library: the absolute value
    of a base that is neither a zero nor a NaN. *)
Definition pow_base (v : float) : float :=
  if (v <? 0)%float then (- v)%float else v.

(** A height whose hundredth is not zero in binary64: a positive int, or
    a float that is [+inf] or at least [2 ^ -1067]. *)
Definition height_above_underflow (h : num) : Prop :=
  match h with
  | PyInt z => 0 < z
  | PyFloat f =>
      Prim2SF f = S754_infinity false \/ (bpow (-1067) <= SF2R (Prim2SF f))%R
  end.

(** The claim for every positive height, in the reading that asks least:
    whenever the operands convert and the square is computed, the result
    is the value of the formula. *)
Definition walking_formula_for_every_positive_height : Prop :=
  forall libm_pow a d w h fa fd fw fh v2,
    num_pos d -> num_pos h ->
    to_float a = Ok fa -> to_float d = Ok fd -> to_float w = Ok fw ->
    to_float h = Ok fh ->
    float_pow_two libm_pow (fa * 0.65 / 1000 / fd * 0.278) = Ok v2 ->
    get_spent_calories libm_pow (SportsWalking a d w h)
    = Ok (PyFloat ((0.035 * fw + v2 / (fh / 100) * 0.029 * fw) * fd * 60)).

(** The five checks in the order of the specification: for each, the
    computation of "this check fails" and its message. *)
Definition arity (code : string) : option nat :=
  if (code =? "SWM")%string then Some 5%nat
  else if (code =? "RUN")%string then Some 3%nat
  else if (code =? "WLK")%string then Some 4%nat
  else None.








(** The meaning of the range checks. *)
Definition in_open_interval (lo hi : Z) (x : num) : Prop :=
  match x with
  | PyInt z => lo < z < hi
  | PyFloat f =>
      SFfinite (Prim2SF f) = true
      /\ (IZR lo < SF2R (Prim2SF f) < IZR hi)%R
  end.

(** The template as the specification words it. *)
Definition spec_get_message (self : InfoMessage.t) : result string :=
  duration <- format_3f (InfoMessage.duration self) ;;
  distance <- format_3f (InfoMessage.distance self) ;;
  speed <- format_3f (InfoMessage.speed self) ;;
  calories <- format_3f (InfoMessage.calories self) ;;
  Ok ("Workout type: " ++ InfoMessage.training_type self ++ "; "
      ++ "Duration: " ++ duration ++ " h; "
      ++ "Distance: " ++ distance ++ " km; "
      ++ "Mean speed: " ++ speed ++ " km/h; "
      ++ "Calories spent: " ++ calories ++ ".").

(** The record of the package [("RUN", [15000, 1, 75])]. *)
Definition run_record : InfoMessage.t :=
  InfoMessage.Build "Running" (PyInt 1) (PyFloat 9.75) (PyFloat 9.75)
    (PyFloat ((18 * 9.75 + 1.79) * 75 / 1000 * 1 * 60)).

(** The instance built with another weight and the same other arguments. *)
Definition set_weight (t : training) (w : num) : training :=
  match t with
  | Training a d _ => Training a d w
  | Running a d _ => Running a d w
  | SportsWalking a d _ h => SportsWalking a d w h
  | Swimming a d _ l c => Swimming a d w l c
  end.

(** A [Running] or [Swimming] instance with a positive duration and
    non-negative action, pool length and pool count. *)
Definition monotone_inputs (t : training) : Prop :=
  match t with
  | Running a d _ => num_pos d /\ num_nonneg a
  | Swimming _ d _ l c => num_pos d /\ num_nonneg l /\ num_nonneg c
  | _ => False
  end.

(** A positive finite number. *)
Definition SFposfin (x : spec_float) : Prop :=
  match x with
  | S754_finite false _ _ => True
  | _ => False
  end.

(** Strict monotonicity in the weight, as the specification words it. *)
Definition strictly_increasing_in_weight : Prop :=
  forall t w1 w2 c1 c2,
    monotone_inputs t -> num_lt w1 w2 = true ->
    get_spent_calories pow_rn (set_weight t w1) = Ok c1 ->
    get_spent_calories pow_rn (set_weight t w2) = Ok c2 ->
    num_lt c1 c2 = true.

(** ** Statements about the validator, the factory and the run *)

(** The packages that the validator lets through, with the instance that
    the factory builds from each. *)
Inductive accepted : string -> list num -> training -> Prop :=
| accepted_run a d w :
    in_open_interval 35 610 w ->
    accepted "RUN" [a; d; w] (Running a d w)
| accepted_walk a d w h :
    in_open_interval 35 610 w -> in_open_interval 50 251 h ->
    accepted "WLK" [a; d; w; h] (SportsWalking a d w h)
| accepted_swim a d w l c :
    in_open_interval 35 610 w -> in_open_interval 1 1013 l ->
    accepted "SWM" [a; d; w; l; c] (Swimming a d w l c).

(** The name of the class that a code stands for. *)
Definition class_of_code (code : string) : option string :=
  if (code =? "SWM")%string then Some "Swimming"
  else if (code =? "RUN")%string then Some "Running"
  else if (code =? "WLK")%string then Some "SportsWalking"
  else None.

(** The computation returns, or raises [ZeroDivisionError] or
    [OverflowError]. *)
Definition arithmetic_only {A : Type} (r : result A) : Prop :=
  match r with
  | Ok _ | Raise ZeroDivisionError | Raise OverflowError => True
  | Raise _ => False
  end.

(** The computation returns or raises [OverflowError]. *)
Definition overflow_only {A : Type} (r : result A) : Prop :=
  match r with
  | Ok _ | Raise OverflowError => True
  | Raise _ => False
  end.

(** The computation does not return. *)
Definition fails {A : Type} (r : result A) : Prop :=
  match r with Ok _ => False | Raise _ => True end.

(** Zero, of either type and either sign. *)
Definition num_is_zero (x : num) : bool :=
  match x with
  | PyInt z => z =? 0
  | PyFloat f => (f =? 0)%float
  end.

(** Every field is zero or more. *)
Definition fields_nonneg (t : training) : Prop :=
  num_nonneg (action t) /\ num_nonneg (duration t) /\ num_nonneg (weight t)
  /\ match t with
     | SportsWalking _ _ _ h => num_nonneg h
     | Swimming _ _ _ l c => num_nonneg l /\ num_nonneg c
     | _ => True
     end.

(** An int of at most a thousand bits, or any float. *)
Definition int_bounded (x : num) : Prop :=
  match x with
  | PyInt z => Z.abs z <= 2 ^ 1000
  | PyFloat _ => True
  end.

(** The instance with another number of steps or strokes. *)
Definition set_action (t : training) (a : num) : training :=
  match t with
  | Training _ d w => Training a d w
  | Running _ d w => Running a d w
  | SportsWalking _ d w h => SportsWalking a d w h
  | Swimming _ d w l c => Swimming a d w l c
  end.

(** * Rounding to nearest in binary64

    The operations of [SpecFloat] round a positive real, given by a
    mantissa, an exponent and a location, to the nearest float, ties to
    even.  The lemmas follow the algorithm ([shr], [round_nearest_even],
    the overflow test) and end with the monotonicity of rounding. *)

Lemma bpow_gt_0 e : (0 < bpow e)%R.
Proof. apply powerRZ_lt; lra. Qed.

Lemma bpow_add a b : bpow (a + b) = (bpow a * bpow b)%R.
Proof. apply powerRZ_add; lra. Qed.

Lemma bpow_0 : bpow 0 = 1%R.
Proof. reflexivity. Qed.

Lemma bpow_1 : bpow 1 = 2%R.
Proof. unfold bpow; simpl; lra. Qed.

Lemma bpow_succ e : bpow (e + 1) = (2 * bpow e)%R.
Proof. rewrite bpow_add, bpow_1; lra. Qed.

Lemma bpow_IZR k : 0 <= k -> IZR (2 ^ k) = bpow k.
Proof.
  intros Hk. unfold bpow. destruct k as [|p|p]; try lia.
  - reflexivity.
  - change (2 ^ Z.pos p) with (Z.pow_pos 2 p).
    apply Zpower_pos_powerRZ.
Qed.

Lemma bpow_ge_1 k : 0 <= k -> (1 <= bpow k)%R.
Proof.
  intros Hk. rewrite <- bpow_IZR by assumption.
  apply IZR_le. pose proof (Z.pow_pos_nonneg 2 k). lia.
Qed.

Lemma bpow_le a b : a <= b -> (bpow a <= bpow b)%R.
Proof.
  intros H. replace b with (a + (b - a)) by ring.
  rewrite bpow_add.
  pose proof (bpow_ge_1 (b - a)). pose proof (bpow_gt_0 a). 
  assert (1 <= bpow (b - a))%R by (apply H0; lia). nra.
Qed.

Lemma bpow_lt a b : a < b -> (bpow a < bpow b)%R.
Proof.
  intros H. replace b with (a + 1 + (b - a - 1)) by ring.
  rewrite bpow_add, bpow_succ.
  assert (H1 : (1 <= bpow (b - a - 1))%R) by (apply bpow_ge_1; lia).
  pose proof (bpow_gt_0 a). nra.
Qed.

Lemma bpow_sub a b : bpow (a - b) = (bpow a / bpow b)%R.
Proof.
  replace a with ((a - b) + b) at 2 by ring. rewrite bpow_add.
  field. pose proof (bpow_gt_0 b); lra.
Qed.

(** ** The number of binary digits *)
Lemma digits2_pos_size p : digits2_pos p = Pos.size p.
Proof. induction p; simpl; congruence. Qed.

Lemma digits2_pos_bounds p :
  2 ^ (Zpos (digits2_pos p) - 1) <= Zpos p < 2 ^ Zpos (digits2_pos p).
Proof.
  rewrite digits2_pos_size.
  pose proof (Pos.size_gt p) as Hgt. pose proof (Pos.size_le p) as Hle.
  split.
  - assert (2 ^ Zpos (Pos.size p) <= 2 * Zpos p).
    { change (2 * Zpos p) with (Zpos p~0). rewrite <- Pos2Z.inj_pow. 
      apply Pos2Z.pos_le_pos. exact Hle. }
    replace (Zpos (Pos.size p)) with ((Zpos (Pos.size p) - 1) + 1) in H by ring.
    rewrite Z.pow_add_r in H by lia. lia.
  - rewrite <- Pos2Z.inj_pow. apply Pos2Z.pos_lt_pos. exact Hgt.
Qed.

Lemma Zdigits2_bounds m : 0 < m ->
  2 ^ (Zdigits2 m - 1) <= m < 2 ^ Zdigits2 m.
Proof. destruct m; try lia. intros _. apply digits2_pos_bounds. Qed.

Lemma Zdigits2_nonneg m : 0 <= Zdigits2 m.
Proof. destruct m; simpl; lia. Qed.

Lemma Zdigits2_pos m : 0 < m -> 0 < Zdigits2 m.
Proof. destruct m; simpl; lia. Qed.

Lemma Zdigits2_unique m k : 2 ^ (k - 1) <= m < 2 ^ k -> 0 < m -> Zdigits2 m = k.
Proof.
  intros [H1 H2] Hm. pose proof (Zdigits2_bounds m Hm) as [H3 H4].
  pose proof (Zdigits2_pos m Hm).
  assert (0 < k).
  { destruct (Z_lt_le_dec 0 k) as [|Hk]; auto.
    destruct (Z.eq_dec k 0) as [->|Hk0]; [simpl in H2; lia|].
    rewrite (Z.pow_neg_r 2 k) in H2 by lia. lia. }
  assert (~ Zdigits2 m < k).
  { intro. assert (2 ^ Zdigits2 m <= 2 ^ (k - 1)) by (apply Z.pow_le_mono_r; lia). lia. }
  assert (~ k < Zdigits2 m).
  { intro. assert (2 ^ k <= 2 ^ (Zdigits2 m - 1)) by (apply Z.pow_le_mono_r; lia). lia. }
  lia.
Qed.

Lemma Zdigits2_le m1 m2 : 0 <= m1 <= m2 -> Zdigits2 m1 <= Zdigits2 m2.
Proof.
  intros [H1 H2]. destruct (Z.eq_dec m1 0) as [->|Hn].
  - apply Zdigits2_nonneg.
  - pose proof (Zdigits2_bounds m1 ltac:(lia)) as [H3 H4].
    pose proof (Zdigits2_bounds m2 ltac:(lia)) as [H5 H6].
    destruct (Z_lt_le_dec (Zdigits2 m2) (Zdigits2 m1)); [|assumption].
    assert (2 ^ Zdigits2 m2 <= 2 ^ (Zdigits2 m1 - 1)).
    { apply Z.pow_le_mono_r; lia. } lia.
Qed.

Lemma inbetween_bounds x m l : inbetween x m l -> (IZR m <= x < IZR m + 1)%R.
Proof. destruct l as [|[ | | ]]; simpl; intros; lra. Qed.

Lemma loc_of_shr_record_of_loc m l :
  loc_of_shr_record (shr_record_of_loc m l) = l.
Proof. destruct l as [|[ | | ]]; reflexivity. Qed.

Lemma shr_m_shr_record_of_loc m l : shr_m (shr_record_of_loc m l) = m.
Proof. destruct l as [|[ | | ]]; reflexivity. Qed.

Lemma shr_1_m mrs : 0 <= shr_m mrs -> shr_m (shr_1 mrs) = shr_m mrs / 2.
Proof.
  destruct mrs as [m r s]; simpl. intros Hm.
  destruct m as [|p|p]; try lia; [reflexivity|].
  destruct p; simpl.
  - rewrite Pos2Z.inj_xI. apply Z.div_unique with 1; lia.
  - rewrite Pos2Z.inj_xO. apply Z.div_unique with 0; lia.
  - reflexivity.
Qed.

Lemma IZR_xI p : IZR (Zpos p~1) = (2 * IZR (Zpos p) + 1)%R.
Proof. rewrite Pos2Z.inj_xI, plus_IZR, mult_IZR. reflexivity. Qed.

Lemma IZR_xO p : IZR (Zpos p~0) = (2 * IZR (Zpos p))%R.
Proof. rewrite Pos2Z.inj_xO, mult_IZR. reflexivity. Qed.

Lemma shr_1_inbetween mrs x :
  0 <= shr_m mrs ->
  inbetween x (shr_m mrs) (loc_of_shr_record mrs) ->
  inbetween (x / 2) (shr_m (shr_1 mrs)) (loc_of_shr_record (shr_1 mrs)).
Proof.
  destruct mrs as [m r s]. cbn [shr_m]. intros Hm.
  destruct m as [|p|p]; try lia.
  - destruct r, s; cbn -[IZR]; intros; lra.
  - destruct p.
    + pose proof (IZR_xI p).
      destruct r, s; cbn -[IZR]; intros; lra.
    + pose proof (IZR_xO p).
      destruct r, s; cbn -[IZR]; intros; lra.
    + destruct r, s; cbn -[IZR]; intros; lra.
Qed.

Lemma iter_pos_nat {A} (f : A -> A) p x :
  iter_pos f p x = Nat.iter (Pos.to_nat p) f x.
Proof.
  revert x. induction p as [p IH|p IH|]; intros x; cbn [iter_pos].
  - rewrite !IH, Pos2Nat.inj_xI.
    rewrite <- Nat.iter_add, <- Nat.iter_succ_r.
    f_equal. lia.
  - rewrite !IH, Pos2Nat.inj_xO. rewrite <- Nat.iter_add. f_equal. lia.
  - reflexivity.
Qed.

Lemma shr_iter_spec n mrs v e :
  0 <= shr_m mrs ->
  located v (shr_m mrs) e (loc_of_shr_record mrs) ->
  let mrs' := Nat.iter n shr_1 mrs in
  shr_m mrs' = shr_m mrs / 2 ^ Z.of_nat n /\
  located v (shr_m mrs') (e + Z.of_nat n) (loc_of_shr_record mrs').
Proof.
  intros Hm Hl. induction n as [|n [IH1 IH2]].
  - simpl. rewrite Z.div_1_r, Z.add_0_r. auto.
  - cbn zeta. rewrite Nat.iter_succ.
    assert (H0 : 0 <= shr_m (Nat.iter n shr_1 mrs)).
    { rewrite IH1. apply Z.div_pos; [assumption|]. apply Z.pow_pos_nonneg; lia. }
    split.
    + rewrite shr_1_m by assumption. rewrite IH1.
      rewrite Nat2Z.inj_succ, Z.pow_succ_r by lia.
      assert (0 < 2 ^ Z.of_nat n) by (apply Z.pow_pos_nonneg; lia).
      rewrite Z.div_div by lia.
      f_equal; ring.
    + unfold located in *.
      replace (- (e + Z.of_nat (S n))) with (- (e + Z.of_nat n) + (- 1)) by lia.
      rewrite bpow_add.
      replace (bpow (-1)) with (/ 2)%R by (unfold bpow; simpl; lra).
      rewrite <- Rmult_assoc.
      apply (shr_1_inbetween _ _ H0 IH2).
Qed.

Lemma shr_spec mrs e n v :
  0 <= shr_m mrs ->
  located v (shr_m mrs) e (loc_of_shr_record mrs) ->
  let '(mrs', e') := shr mrs e n in
  e' = e + Z.max 0 n /\
  shr_m mrs' = shr_m mrs / 2 ^ Z.max 0 n /\
  located v (shr_m mrs') e' (loc_of_shr_record mrs').
Proof.
  intros Hm Hl. unfold shr. destruct n as [|p|p].
  - simpl. rewrite Z.add_0_r, Z.div_1_r. auto.
  - rewrite iter_pos_nat.
    destruct (shr_iter_spec (Pos.to_nat p) mrs v e Hm Hl) as [H1 H2].
    rewrite positive_nat_Z in *.
    rewrite Z.max_r by lia. auto.
  - rewrite Z.max_l by lia. simpl. rewrite Z.add_0_r, Z.div_1_r. auto.
Qed.

(** ** Rounding a located mantissa *)
Lemma rne_bounds m l :
  m <= round_nearest_even m l <= m + 1.
Proof. destruct l as [|[ | | ]]; simpl; try lia. destruct (Z.even m); lia. Qed.

Lemma rne_mono x1 m1 l1 x2 m2 l2 :
  inbetween x1 m1 l1 -> inbetween x2 m2 l2 -> (x1 <= x2)%R ->
  round_nearest_even m1 l1 <= round_nearest_even m2 l2.
Proof.
  intros H1 H2 Hx.
  pose proof (inbetween_bounds _ _ _ H1) as B1.
  pose proof (inbetween_bounds _ _ _ H2) as B2.
  assert (Hm : m1 <= m2).
  { apply Z.lt_succ_r. apply lt_IZR. rewrite succ_IZR. lra. }
  destruct (Z.eq_dec m1 m2) as [->|Hne].
  - destruct l1 as [|[ | | ]], l2 as [|[ | | ]]; simpl in *;
      try destruct (Z.even m2); try lia; exfalso; lra.
  - pose proof (rne_bounds m1 l1). pose proof (rne_bounds m2 l2). lia.
Qed.

Ltac xf := unfold SpecFloat.fexp, SpecFloat.emin, prec, emax in *.

Lemma BR_unfold s m e l :
  BR s m e l =
  let '(mrs', e') := shr_fexp prec emax m e l in
  finish s (round_nearest_even (shr_m mrs') (loc_of_shr_record mrs')) e'.
Proof. reflexivity. Qed.

Lemma Zdigits2_shift m n :
  0 < m -> 0 <= n < Zdigits2 m -> Zdigits2 (m / 2 ^ n) = Zdigits2 m - n.
Proof.
  intros Hm Hn. pose proof (Zdigits2_bounds m Hm) as [H1 H2].
  assert (Hp : 0 < 2 ^ n) by (apply Z.pow_pos_nonneg; lia).
  assert (Hlo : 2 ^ (Zdigits2 m - n - 1) <= m / 2 ^ n).
  { apply Z.div_le_lower_bound; [assumption|].
    rewrite <- Z.pow_add_r by lia.
    replace (n + (Zdigits2 m - n - 1)) with (Zdigits2 m - 1) by ring. assumption. }
  assert (Hhi : m / 2 ^ n < 2 ^ (Zdigits2 m - n)).
  { apply Z.div_lt_upper_bound; [assumption|].
    rewrite <- Z.pow_add_r by lia.
    replace (n + (Zdigits2 m - n)) with (Zdigits2 m) by ring. assumption. }
  apply Zdigits2_unique; [split; assumption|].
  assert (0 < 2 ^ (Zdigits2 m - n - 1)) by (apply Z.pow_pos_nonneg; lia). lia.
Qed.

Lemma shr_fexp_spec m e l v :
  0 <= m -> e <= fexp (Zdigits2 m + e) -> located v m e l ->
  let '(mrs', e') := shr_fexp prec emax m e l in
  e' = fexp (Zdigits2 m + e) /\
  0 <= shr_m mrs' /\
  fexp (Zdigits2 (shr_m mrs') + e') = e' /\
  located v (shr_m mrs') e' (loc_of_shr_record mrs') /\
  shr_m mrs' = m / 2 ^ (e' - e).
Proof.
  intros Hm He Hl. unfold shr_fexp.
  set (n := fexp (Zdigits2 m + e) - e).
  pose proof (shr_spec (shr_record_of_loc m l) e n v) as H.
  rewrite shr_m_shr_record_of_loc, loc_of_shr_record_of_loc in H.
  specialize (H Hm Hl).
  destruct (shr (shr_record_of_loc m l) e n) as [mrs' e'].
  destruct H as (H1 & H2 & H3).
  assert (Hn : 0 <= n) by (unfold n; lia).
  rewrite Z.max_r in H1, H2 by assumption.
  assert (He' : e' = fexp (Zdigits2 m + e)) by (unfold n in H1; lia).
  assert (Hp : 0 < 2 ^ n) by (apply Z.pow_pos_nonneg; lia).
  split; [assumption|]. split.
  { rewrite H2. apply Z.div_pos; lia. }
  split; [|split; [assumption|rewrite H2; f_equal; f_equal; lia]].
  rewrite H2. clear H3 H2 Hl.
  destruct (Z.eq_dec m 0) as [->|Hm0].
  - rewrite Z.div_0_l by lia. simpl in *. xf. lia.
  - destruct (Z_lt_le_dec n (Zdigits2 m)) as [Hlt|Hge].
    + rewrite Zdigits2_shift by lia.
      replace (Zdigits2 m - n + e') with (Zdigits2 m + e) by lia. lia.
    + assert (m / 2 ^ n = 0) as ->.
      { apply Z.div_small. split; [lia|].
        pose proof (Zdigits2_bounds m ltac:(lia)) as [_ Hb].
        assert (2 ^ Zdigits2 m <= 2 ^ n) by (apply Z.pow_le_mono_r; lia). lia. }
      simpl. unfold n in *. xf. lia.
Qed.

Lemma canonical_digits m E :
  0 <= m -> fexp (Zdigits2 m + E) = E ->
  Zdigits2 m <= 53 /\ m < 2 ^ 53 /\ -1074 <= E /\ (-1074 < E -> Zdigits2 m = 53 /\ 2 ^ 52 <= m).
Proof.
  intros Hm Hc.
  assert (Hd : Zdigits2 m <= 53) by (xf; lia).
  split; [assumption|]. split.
  { destruct (Z.eq_dec m 0) as [->|]; [reflexivity|].
    pose proof (Zdigits2_bounds m ltac:(lia)) as [_ H].
    assert (2 ^ Zdigits2 m <= 2 ^ 53) by (apply Z.pow_le_mono_r; lia). lia. }
  split; [xf; lia|].
  intros HE. assert (Hd53 : Zdigits2 m = 53) by (xf; lia).
  split; [assumption|].
  destruct (Z.eq_dec m 0) as [->|]; [simpl in Hd53; lia|].
  pose proof (Zdigits2_bounds m ltac:(lia)) as [H _].
  rewrite Hd53 in H. exact H.
Qed.

Lemma IZR_bpow_lt m k e : m < 2 ^ k -> 0 <= k -> (IZR m * bpow e < bpow (k + e))%R.
Proof.
  intros H Hk. rewrite bpow_add, <- (bpow_IZR k) by assumption.
  apply Rmult_lt_compat_r; [apply bpow_gt_0|]. apply IZR_lt; assumption.
Qed.

Lemma IZR_bpow_le m k e : m <= 2 ^ k -> 0 <= k -> (IZR m * bpow e <= bpow (k + e))%R.
Proof.
  intros H Hk. rewrite bpow_add, <- (bpow_IZR k) by assumption.
  apply Rmult_le_compat_r; [left; apply bpow_gt_0|]. apply IZR_le; assumption.
Qed.

Lemma IZR_bpow_ge m k e : 2 ^ k <= m -> 0 <= k -> (bpow (k + e) <= IZR m * bpow e)%R.
Proof.
  intros H Hk. rewrite bpow_add, <- (bpow_IZR k) by assumption.
  apply Rmult_le_compat_r; [left; apply bpow_gt_0|]. apply IZR_le; assumption.
Qed.

Lemma finish_repr s m1 m2 E :
  0 <= m1 -> fexp (Zdigits2 m1 + E) = E -> m1 <= m2 <= m1 + 1 ->
  repr s (IZR m2 * bpow E) (finish s m2 E).
Proof.
  intros Hm1 Hc Hm2.
  destruct (canonical_digits m1 E Hm1 Hc) as (Hd1 & Hlt1 & HE & Hn1).
  assert (Hd2 : Zdigits2 m1 <= Zdigits2 m2 <= Zdigits2 m1 + 1).
  { split; [apply Zdigits2_le; lia|].
    destruct (Z.eq_dec m2 0) as [->|]; [simpl; pose proof (Zdigits2_nonneg m1); lia|].
    pose proof (Zdigits2_bounds m2 ltac:(lia)) as [Hb _].
    assert (Hb1 : m1 + 1 <= 2 ^ Zdigits2 m1).
    { destruct (Z.eq_dec m1 0) as [->|]; [simpl; lia|].
      pose proof (Zdigits2_bounds m1 ltac:(lia)). lia. }
    destruct (Z_lt_le_dec (Zdigits2 m1 + 1) (Zdigits2 m2)); [|lia].
    assert (2 ^ (Zdigits2 m1 + 1) <= 2 ^ (Zdigits2 m2 - 1)).
    { apply Z.pow_le_mono_r; lia. }
    assert (2 ^ Zdigits2 m1 < 2 ^ (Zdigits2 m1 + 1)).
    { apply Z.pow_lt_mono_r; pose proof (Zdigits2_nonneg m1); lia. }
    lia. }
  assert (Hpre : E <= fexp (Zdigits2 m2 + E)) by (xf; lia).
  assert (Hloc : located (IZR m2 * bpow E) m2 E loc_Exact).
  { unfold located, inbetween. rewrite Rmult_assoc, <- bpow_add.
    replace (E + - E) with 0 by ring. rewrite bpow_0. ring. }
  pose proof (shr_fexp_spec m2 E loc_Exact _ ltac:(lia) Hpre Hloc) as H.
  unfold finish.
  destruct (shr_fexp prec emax m2 E loc_Exact) as [mrs e3].
  destruct H as (He3 & Hm3 & Hc3 & _ & Hdiv).
  destruct (canonical_digits _ _ Hm3 Hc3) as (Hd3 & Hlt3 & HE3 & Hn3).
  (* the value is preserved *)
  assert (Hval : (IZR (shr_m mrs) * bpow e3 = IZR m2 * bpow E)%R).
  { assert (Hn : e3 - E = 0 \/ e3 - E = 1) by (xf; lia).
    destruct Hn as [Hn|Hn]; rewrite Hn in Hdiv.
    - rewrite Z.pow_0_r, Z.div_1_r in Hdiv. rewrite Hdiv.
      replace e3 with E by lia. reflexivity.
    - assert (Hd54 : Zdigits2 m2 = 54) by (xf; lia).
      assert (m2 = 2 ^ 53).
      { destruct (Z.eq_dec m2 0) as [->|]; [simpl in Hd54; lia|].
        pose proof (Zdigits2_bounds m2 ltac:(lia)) as [Hb _].
        rewrite Hd54 in Hb. simpl Z.sub in Hb. lia. }
      subst m2. rewrite Hdiv.
      replace e3 with (E + 1) by lia. rewrite bpow_succ.
      change (2 ^ 53 / 2 ^ 1) with (2 ^ 52).
      replace (IZR (2 ^ 53)) with (2 * IZR (2 ^ 52))%R.
      + ring.
      + rewrite <- mult_IZR. reflexivity. }
  rewrite <- Hval.
  destruct (shr_m mrs) as [|p|p] eqn:Hp; try lia.
  - left. split; [simpl; ring|reflexivity].
  - right. destruct (Z.leb_spec e3 (emax - prec)) as [Hle|Hgt].
    + right. exists p, e3. split; [reflexivity|]. split; [|split; [reflexivity|]].
      * unfold SpecFloat.bounded, canonical_mantissa.
        apply andb_true_intro. split.
        -- apply Z.eqb_eq. exact Hc3.
        -- apply Z.leb_le. exact Hle.
      * pose proof (IZR_bpow_lt (Zpos p) 53 e3 Hlt3 ltac:(lia)).
        assert (bpow (53 + e3) <= bpow emax)%R by (apply bpow_le; xf; lia).
        lra.
    + left. split; [|reflexivity].
      destruct (Hn3 ltac:(xf; lia)) as [_ Hge].
      pose proof (IZR_bpow_ge (Zpos p) 52 e3 Hge ltac:(lia)).
      assert (bpow emax <= bpow (52 + e3))%R by (apply bpow_le; xf; lia).
      lra.
Qed.

Lemma located_bounds v m E l :
  located v m E l -> (IZR m * bpow E <= v < (IZR m + 1) * bpow E)%R.
Proof.
  intros H. apply inbetween_bounds in H.
  pose proof (bpow_gt_0 E) as HE.
  assert (Hv : (v * bpow (- E) * bpow E = v)%R).
  { rewrite Rmult_assoc, <- bpow_add. replace (- E + E) with 0 by ring.
    rewrite bpow_0. ring. }
  split.
  - rewrite <- Hv. apply Rmult_le_compat_r; lra.
  - rewrite <- Hv. apply Rmult_lt_compat_r; lra.
Qed.

Lemma BR_repr s m e l v :
  0 <= m -> e <= fexp (Zdigits2 m + e) -> located v m e l ->
  exists rho, rnd_spec v rho /\ repr s rho (BR s m e l).
Proof.
  intros Hm He Hl. rewrite BR_unfold.
  pose proof (shr_fexp_spec m e l v Hm He Hl) as H.
  destruct (shr_fexp prec emax m e l) as [mrs E].
  destruct H as (_ & Hm1 & Hc & Hloc & _).
  exists (IZR (round_nearest_even (shr_m mrs) (loc_of_shr_record mrs)) * bpow E)%R.
  split.
  - exists (shr_m mrs), (loc_of_shr_record mrs), E. auto.
  - apply finish_repr with (m1 := shr_m mrs); auto using rne_bounds.
Qed.

Lemma rnd_spec_mono v1 r1 v2 r2 :
  rnd_spec v1 r1 -> rnd_spec v2 r2 -> (v1 <= v2)%R -> (r1 <= r2)%R.
Proof.
  intros (m1 & l1 & E1 & Hm1 & Hc1 & Hl1 & ->) (m2 & l2 & E2 & Hm2 & Hc2 & Hl2 & ->) Hv.
  destruct (canonical_digits _ _ Hm1 Hc1) as (Hd1 & Hlt1 & HE1 & Hn1).
  destruct (canonical_digits _ _ Hm2 Hc2) as (Hd2 & Hlt2 & HE2 & Hn2).
  pose proof (located_bounds _ _ _ _ Hl1) as B1.
  pose proof (located_bounds _ _ _ _ Hl2) as B2.
  pose proof (rne_bounds m1 l1) as R1. pose proof (rne_bounds m2 l2) as R2.
  destruct (Z.lt_trichotomy E1 E2) as [Hlt|[Heq|Hgt]].
  - destruct (Hn2 ltac:(lia)) as [_ Hge2].
    pose proof (IZR_bpow_le (round_nearest_even m1 l1) 53 E1 ltac:(lia) ltac:(lia)).
    pose proof (IZR_bpow_ge (round_nearest_even m2 l2) 52 E2 ltac:(lia) ltac:(lia)).
    assert (bpow (53 + E1) <= bpow (52 + E2))%R by (apply bpow_le; lia).
    lra.
  - subst E2. apply Rmult_le_compat_r; [left; apply bpow_gt_0|].
    apply IZR_le. eapply rne_mono; [exact Hl1|exact Hl2|].
    apply Rmult_le_compat_r; [left; apply bpow_gt_0|assumption].
  - exfalso. destruct (Hn1 ltac:(lia)) as [_ Hge1].
    pose proof (IZR_bpow_ge m1 52 E1 ltac:(lia) ltac:(lia)).
    pose proof (IZR_bpow_le (m2 + 1) 53 E2 ltac:(lia) ltac:(lia)) as Hu.
    rewrite plus_IZR in Hu.
    assert (bpow (53 + E2) <= bpow (52 + E1))%R by (apply bpow_le; lia).
    lra.
Qed.

(** ** Comparison of canonical floats *)
Lemma bounded_canonical p e :
  bounded p e = true -> fexp (Zdigits2 (Zpos p) + e) = e /\ e <= emax - prec.
Proof.
  unfold SpecFloat.bounded, canonical_mantissa. intros H.
  apply andb_prop in H. destruct H as [H1 H2].
  apply Z.eqb_eq in H1. apply Z.leb_le in H2. auto.
Qed.

Lemma Rcmp_opp c x y : Rcmp c x y -> Rcmp (CompOpp c) y x.
Proof. destruct c; simpl; auto. Qed.

Lemma lex_compare_spec p1 e1 p2 e2 :
  bounded p1 e1 = true -> bounded p2 e2 = true ->
  Rcmp (lex_compare p1 e1 p2 e2)
       (IZR (Zpos p1) * bpow e1) (IZR (Zpos p2) * bpow e2).
Proof.
  intros H1 H2.
  destruct (bounded_canonical _ _ H1) as [Hc1 _].
  destruct (bounded_canonical _ _ H2) as [Hc2 _].
  destruct (canonical_digits (Zpos p1) e1 ltac:(lia) Hc1) as (Hd1 & Hlt1 & HE1 & Hn1).
  destruct (canonical_digits (Zpos p2) e2 ltac:(lia) Hc2) as (Hd2 & Hlt2 & HE2 & Hn2).
  unfold lex_compare.
  destruct (Z.compare_spec e1 e2) as [Heq|Hlt|Hgt].
  - subst e2. change (Pos.compare_cont Eq p1 p2) with (Pos.compare p1 p2).
    pose proof (bpow_gt_0 e1).
    destruct (Pos.compare_spec p1 p2) as [->|Hp|Hp]; simpl.
    + reflexivity.
    + apply Rmult_lt_compat_r; [assumption|]. apply IZR_lt. lia.
    + apply Rmult_lt_compat_r; [assumption|]. apply IZR_lt. lia.
  - simpl. destruct (Hn2 ltac:(lia)) as [_ Hge].
    pose proof (IZR_bpow_lt (Zpos p1) 53 e1 Hlt1 ltac:(lia)).
    pose proof (IZR_bpow_ge (Zpos p2) 52 e2 Hge ltac:(lia)).
    assert (bpow (53 + e1) <= bpow (52 + e2))%R by (apply bpow_le; lia).
    lra.
  - simpl. destruct (Hn1 ltac:(lia)) as [_ Hge].
    pose proof (IZR_bpow_lt (Zpos p2) 53 e2 Hlt2 ltac:(lia)).
    pose proof (IZR_bpow_ge (Zpos p1) 52 e1 Hge ltac:(lia)).
    assert (bpow (53 + e2) <= bpow (52 + e1))%R by (apply bpow_le; lia).
    lra.
Qed.

Lemma rnd_spec_nonneg v rho : rnd_spec v rho -> (0 <= rho)%R.
Proof.
  intros (m1 & l1 & E & Hm & _ & _ & ->).
  pose proof (rne_bounds m1 l1). pose proof (bpow_gt_0 E).
  apply Rmult_le_pos; [|lra]. apply IZR_le. lia.
Qed.

Lemma repr_le r1 rho1 r2 rho2 :
  repr false rho1 r1 -> repr false rho2 r2 ->
  (0 <= rho1)%R -> (rho1 <= rho2)%R -> SFleb r1 r2 = true.
Proof.
  intros H1 H2 H0 Hle. pose proof (bpow_gt_0 emax) as Hmax.
  destruct H1 as [[E1 ->]|[[E1 ->]|(p1 & e1 & -> & Hb1 & E1 & L1)]];
  destruct H2 as [[E2 ->]|[[E2 ->]|(p2 & e2 & -> & Hb2 & E2 & L2)]];
    try reflexivity; try (exfalso; lra).
  - exfalso. pose proof (bpow_gt_0 e1).
    assert (0 < IZR (Zpos p1))%R by (apply IZR_lt; lia). nra.
  - pose proof (lex_compare_spec p1 e1 p2 e2 Hb1 Hb2) as Hc.
    unfold SFleb, SFcompare. fold (lex_compare p1 e1 p2 e2).
    destruct (lex_compare p1 e1 p2 e2); simpl in Hc; try reflexivity.
    exfalso; lra.
Qed.

Lemma SFcompare_neg_finite p1 e1 p2 e2 :
  SFcompare (S754_finite true p1 e1) (S754_finite true p2 e2)
  = Some (CompOpp (lex_compare p1 e1 p2 e2)).
Proof.
  unfold SFcompare, lex_compare. destruct (e1 ?= e2); reflexivity.
Qed.

Lemma repr_le_neg r1 rho1 r2 rho2 :
  repr true rho1 r1 -> repr true rho2 r2 ->
  (0 <= rho2)%R -> (rho2 <= rho1)%R -> SFleb r1 r2 = true.
Proof.
  intros H1 H2 H0 Hle. pose proof (bpow_gt_0 emax) as Hmax.
  destruct H1 as [[E1 ->]|[[E1 ->]|(p1 & e1 & -> & Hb1 & E1 & L1)]];
  destruct H2 as [[E2 ->]|[[E2 ->]|(p2 & e2 & -> & Hb2 & E2 & L2)]];
    try reflexivity; try (exfalso; lra).
  - exfalso. pose proof (bpow_gt_0 e2).
    assert (0 < IZR (Zpos p2))%R by (apply IZR_lt; lia). nra.
  - pose proof (lex_compare_spec p1 e1 p2 e2 Hb1 Hb2) as Hc.
    unfold SFleb. rewrite SFcompare_neg_finite.
    destruct (lex_compare p1 e1 p2 e2); simpl in Hc; try reflexivity.
    exfalso; lra.
Qed.

Lemma repr_forms s rho r :
  repr s rho r ->
  r = S754_zero s \/ r = S754_infinity s \/ exists p e, r = S754_finite s p e.
Proof.
  intros [[_ ->]|[[_ ->]|(p & e & -> & _)]]; eauto.
Qed.

Lemma rounds_mono v1 r1 v2 r2 :
  rounds v1 r1 -> rounds v2 r2 -> (v1 <= v2)%R -> SFleb r1 r2 = true.
Proof.
  intros H1 H2 Hv.
  destruct H1 as [[E1 [s1 ->]]|[[E1 (rho1 & S1 & P1)]|[E1 (rho1 & S1 & P1)]]];
  destruct H2 as [[E2 [s2 ->]]|[[E2 (rho2 & S2 & P2)]|[E2 (rho2 & S2 & P2)]]];
    try (exfalso; lra).
  - reflexivity.
  - destruct (repr_forms _ _ _ P2) as [->|[->|(p & e & ->)]]; reflexivity.
  - eapply repr_le; eauto using rnd_spec_nonneg, rnd_spec_mono.
  - destruct (repr_forms _ _ _ P1) as [->|[->|(p & e & ->)]]; reflexivity.
  - destruct (repr_forms _ _ _ P1) as [->|[->|(p & e & ->)]];
    destruct (repr_forms _ _ _ P2) as [->|[->|(p' & e' & ->)]]; reflexivity.
  - eapply repr_le_neg; eauto using rnd_spec_nonneg.
    eapply rnd_spec_mono; eauto. lra.
Qed.

Lemma rounds_forms v r :
  rounds v r ->
  exists s, r = S754_zero s \/ r = S754_infinity s \/ exists p e, r = S754_finite s p e.
Proof.
  intros [[_ [s ->]]|[[_ (rho & _ & P)]|[_ (rho & _ & P)]]]; eauto.
  - exists false. apply (repr_forms _ _ _ P).
  - exists true. apply (repr_forms _ _ _ P).
Qed.

Lemma BR_rounds s m e l v :
  0 <= m -> (0 < v)%R -> e <= fexp (Zdigits2 m + e) -> located v m e l ->
  rounds (cond_Ropp s v) (BR s m e l).
Proof.
  intros Hm Hv He Hl.
  destruct (BR_repr s m e l v Hm He Hl) as (rho & Hs & Hr).
  destruct s; simpl.
  - right; right. split; [lra|]. exists rho. rewrite Ropp_involutive. auto.
  - right; left. split; [lra|]. exists rho. auto.
Qed.

Lemma located_exact m e : located (IZR m * bpow e) m e loc_Exact.
Proof.
  unfold located, inbetween. rewrite Rmult_assoc, <- bpow_add.
  replace (e + - e) with 0 by ring. rewrite bpow_0. ring.
Qed.

Lemma Zdigits2_ge m k : 0 < m -> 2 ^ (k - 1) <= m -> k <= Zdigits2 m.
Proof.
  intros Hm Hk. pose proof (Zdigits2_bounds m Hm) as [_ H].
  pose proof (Zdigits2_pos m Hm).
  destruct (Z_lt_le_dec (Zdigits2 m) k) as [Hlt|]; [|assumption].
  assert (2 ^ Zdigits2 m <= 2 ^ (k - 1)) by (apply Z.pow_le_mono_r; lia). lia.
Qed.

Lemma SF2R_finite s m e :
  SF2R (S754_finite s m e) = cond_Ropp s (IZR (Zpos m) * bpow e).
Proof. destruct s; simpl; [|reflexivity]. rewrite <- Pos2Z.opp_pos, opp_IZR. ring. Qed.

Lemma pos_value_gt_0 m e : (0 < IZR (Zpos m) * bpow e)%R.
Proof.
  apply Rmult_lt_0_compat; [apply IZR_lt; lia|apply bpow_gt_0].
Qed.

Lemma rounds_self x :
  valid_binary x = true -> SFfinite x = true -> rounds (SF2R x) x.
Proof.
  destruct x as [s|s| |s m e]; try discriminate; intros Hv _.
  - left. split; [reflexivity|eauto].
  - simpl in Hv. destruct (bounded_canonical _ _ Hv) as [Hc Hb].
    destruct (canonical_digits (Zpos m) e ltac:(lia) Hc) as (_ & Hlt & _ & _).
    pose proof (pos_value_gt_0 m e) as Hpos.
    assert (Hs : rnd_spec (IZR (Zpos m) * bpow e) (IZR (Zpos m) * bpow e)).
    { exists (Zpos m), loc_Exact, e. repeat split; try lia; auto using located_exact. }
    assert (Hr : forall s, repr s (IZR (Zpos m) * bpow e) (S754_finite s m e)).
    { intros s'. right; right. exists m, e. repeat split; auto.
      pose proof (IZR_bpow_lt (Zpos m) 53 e Hlt ltac:(lia)).
      assert (bpow (53 + e) <= bpow emax)%R by (apply bpow_le; xf; lia). lra. }
    rewrite SF2R_finite. destruct s; simpl.
    + right; right. split; [lra|]. rewrite Ropp_involutive. eauto.
    + right; left. split; [lra|]. eauto.
Qed.

Lemma rounds_mul x y :
  valid_binary x = true -> valid_binary y = true ->
  SFfinite x = true -> SFfinite y = true ->
  rounds (SF2R x * SF2R y) (SFmul prec emax x y).
Proof.
  destruct x as [sx|sx| |sx mx ex]; try discriminate;
  destruct y as [sy|sy| |sy my ey]; try discriminate; intros Hx Hy _ _;
    try (left; split; [simpl; ring|simpl; eauto]).
  simpl in Hx, Hy.
  destruct (bounded_canonical _ _ Hx) as [Hcx _].
  destruct (bounded_canonical _ _ Hy) as [Hcy _].
  cbn [SFmul].
  replace (SF2R (S754_finite sx mx ex) * SF2R (S754_finite sy my ey))%R
    with (cond_Ropp (xorb sx sy) (IZR (Zpos (mx * my)) * bpow (ex + ey))).
  2:{ rewrite !SF2R_finite, Pos2Z.inj_mul, mult_IZR, bpow_add.
      destruct sx, sy; simpl; ring. }
  apply BR_rounds.
  - lia.
  - apply pos_value_gt_0.
  - pose proof (Zdigits2_bounds (Zpos mx) ltac:(lia)) as [Bx _].
    pose proof (Zdigits2_bounds (Zpos my) ltac:(lia)) as [By _].
    pose proof (Zdigits2_pos (Zpos mx) ltac:(lia)).
    pose proof (Zdigits2_pos (Zpos my) ltac:(lia)).
    assert (Hd : Zdigits2 (Zpos mx) + Zdigits2 (Zpos my) - 1 <= Zdigits2 (Zpos (mx * my))).
    { apply Zdigits2_ge; [lia|].
      replace (Zdigits2 (Z.pos mx) + Zdigits2 (Z.pos my) - 1 - 1)
        with ((Zdigits2 (Z.pos mx) - 1) + (Zdigits2 (Z.pos my) - 1)) by ring.
      rewrite Z.pow_add_r by lia. rewrite Pos2Z.inj_mul.
      apply Z.mul_le_mono_nonneg; try lia; apply Z.pow_nonneg; lia. }
    xf. lia.
  - apply located_exact.
Qed.

(** ** Division *)
Lemma new_location_spec n q k :
  0 < n -> 0 <= k < n ->
  inbetween (IZR q + IZR k / IZR n) q (new_location n k).
Proof.
  intros Hn Hk.
  assert (Hn' : (0 < IZR n)%R) by (apply IZR_lt; lia).
  assert (Hkn : (IZR k < IZR n)%R) by (apply IZR_lt; lia).
  set (t := (IZR k / IZR n)%R).
  assert (Ht : (t * IZR n = IZR k)%R) by (unfold t; field; lra).
  unfold new_location.
  destruct (Z.even n) eqn:Hev;
    [unfold new_location_even|unfold new_location_odd];
    (destruct (Z.eqb_spec k 0) as [->|Hk0];
     [assert (t = 0%R) as -> by (unfold t; field; lra); simpl; ring|]).
  - assert (Hkpos : (0 < IZR k)%R) by (apply IZR_lt; lia).
    assert (Ht0 : (0 < t)%R) by (unfold t; apply Rdiv_lt_0_compat; assumption).
    destruct (Z.compare_spec (2 * k) n) as [He|Hl|Hg]; simpl.
    + apply (f_equal IZR) in He. rewrite mult_IZR in He.
      unfold t. rewrite <- He. field. lra.
    + apply IZR_lt in Hl. rewrite mult_IZR in Hl. nra.
    + apply IZR_lt in Hg. rewrite mult_IZR in Hg. nra.
  - assert (Hkpos : (0 < IZR k)%R) by (apply IZR_lt; lia).
    assert (Ht0 : (0 < t)%R) by (unfold t; apply Rdiv_lt_0_compat; assumption).
    assert (Hodd : Z.odd n = true) by (rewrite <- Z.negb_even, Hev; reflexivity).
    apply Z.odd_spec in Hodd. destruct Hodd as [j Hj].
    destruct (Z.compare_spec (2 * k + 1) n) as [He|Hl|Hg]; simpl.
    + assert (Hl : 2 * k < n) by lia.
      apply IZR_lt in Hl. rewrite mult_IZR in Hl. nra.
    + assert (Hl' : 2 * k < n) by lia.
      apply IZR_lt in Hl'. rewrite mult_IZR in Hl'. nra.
    + assert (Hg' : n < 2 * k) by lia.
      apply IZR_lt in Hg'. rewrite mult_IZR in Hg'. nra.
Qed.

Lemma SFdiv_core_spec m1 e1 m2 e2 :
  let '(q, e', l) := SFdiv_core_binary prec emax (Zpos m1) e1 (Zpos m2) e2 in
  0 <= q /\ e' <= fexp (Zdigits2 q + e') /\
  located (IZR (Zpos m1) * bpow e1 / (IZR (Zpos m2) * bpow e2)) q e' l.
Proof.
  unfold SFdiv_core_binary.
  set (d1 := Zdigits2 (Zpos m1)). set (d2 := Zdigits2 (Zpos m2)).
  set (e' := Z.min (fexp (d1 + e1 - (d2 + e2))) (e1 - e2)).
  set (s := e1 - e2 - e').
  assert (Hs : 0 <= s) by (unfold s, e'; lia).
  set (m' := match s with Zpos _ => Z.shiftl (Zpos m1) s | Z0 => Zpos m1 | Zneg _ => 0 end).
  assert (Hm' : m' = Zpos m1 * 2 ^ s).
  { unfold m'. generalize s Hs. intros [|p|p] Hp; try lia.
    apply Z.shiftl_mul_pow2. lia. }
  clearbody m'.
  pose proof (Z_div_mod m' (Zpos m2) ltac:(lia)) as Hdm.
  destruct (Z.div_eucl m' (Zpos m2)) as [q r]. destruct Hdm as [Hq Hr].
  assert (Hp : 0 < 2 ^ s) by (apply Z.pow_pos_nonneg; lia).
  assert (Hq0 : 0 <= q) by nia.
  split; [assumption|]. split.
  - (* enough digits *)
    pose proof (Zdigits2_bounds (Zpos m1) ltac:(lia)) as [B1 _].
    pose proof (Zdigits2_bounds (Zpos m2) ltac:(lia)) as [_ B2].
    fold d1 in B1. fold d2 in B2.
    pose proof (Zdigits2_pos (Zpos m1) ltac:(lia)) as P1. fold d1 in P1.
    pose proof (Zdigits2_pos (Zpos m2) ltac:(lia)) as P2. fold d2 in P2.
    destruct (Z_lt_le_dec (d1 - 1 + s - d2) 0) as [Hneg|Hpos].
    + pose proof (Zdigits2_nonneg q). unfold s, e' in *. xf. lia.
    + assert (Hge : 2 ^ (d1 - 1 + s - d2) <= q).
      { assert (2 ^ (d1 - 1 + s - d2) * 2 ^ d2 <= m').
        { rewrite <- Z.pow_add_r by lia.
          replace (d1 - 1 + s - d2 + d2) with ((d1 - 1) + s) by ring.
          rewrite Z.pow_add_r by lia. rewrite Hm'.
          apply Z.mul_le_mono_nonneg_r; lia. }
        assert (0 < 2 ^ (d1 - 1 + s - d2)) by (apply Z.pow_pos_nonneg; lia).
        nia. }
      assert (0 < q).
      { assert (0 < 2 ^ (d1 - 1 + s - d2)) by (apply Z.pow_pos_nonneg; lia). lia. }
      pose proof (Zdigits2_ge q (d1 + s - d2) ltac:(lia)) as Hd.
      replace (d1 + s - d2 - 1) with (d1 - 1 + s - d2) in Hd by ring.
      specialize (Hd Hge). unfold s, e' in *. xf. lia.
  - unfold located.
    pose proof (new_location_spec (Zpos m2) q r ltac:(lia) Hr) as Hloc.
    replace (IZR (Z.pos m1) * bpow e1 / (IZR (Z.pos m2) * bpow e2) * bpow (- e'))%R
      with (IZR q + IZR r / IZR (Zpos m2))%R; [exact Hloc|].
    assert (Hm2 : (0 < IZR (Zpos m2))%R) by (apply IZR_lt; lia).
    pose proof (bpow_gt_0 e2).
    assert (Hb : bpow e1 = (bpow s * bpow e2 * bpow e')%R).
    { rewrite <- !bpow_add. f_equal. unfold s. ring. }
    assert (Hbe : (bpow e' * bpow (- e') = 1)%R).
    { rewrite <- bpow_add. replace (e' + - e') with 0 by ring. apply bpow_0. }
    assert (HR : (IZR (Zpos m1) * bpow s = IZR (Zpos m2) * IZR q + IZR r)%R).
    { rewrite <- bpow_IZR by assumption. rewrite <- !mult_IZR, <- plus_IZR.
      f_equal. lia. }
    rewrite Hb.
    transitivity ((IZR (Z.pos m1) * bpow s) / IZR (Zpos m2) * (bpow e' * bpow (- e')))%R.
    + rewrite Hbe, HR. field. lra.
    + field. split; lra.
Qed.

Lemma rounds_div_core s m1 e1 m2 e2 :
  let '(q, e', l) := SFdiv_core_binary prec emax (Zpos m1) e1 (Zpos m2) e2 in
  rounds (cond_Ropp s (IZR (Zpos m1) * bpow e1 / (IZR (Zpos m2) * bpow e2)))
         (BR s q e' l).
Proof.
  pose proof (SFdiv_core_spec m1 e1 m2 e2) as H.
  destruct (SFdiv_core_binary prec emax (Zpos m1) e1 (Zpos m2) e2) as [[q e'] l].
  destruct H as (Hq & He & Hl).
  apply BR_rounds; auto.
  apply Rdiv_lt_0_compat; apply pos_value_gt_0.
Qed.

Lemma rounds_div x y :
  SFfinite x = true ->
  match y with S754_finite _ _ _ => True | _ => False end ->
  rounds (SF2R x / SF2R y) (SFdiv prec emax x y).
Proof.
  destruct y as [sy|sy| |sy my ey]; try contradiction. intros Hx _.
  destruct x as [sx|sx| |sx mx ex]; try discriminate.
  - left. split; [simpl; unfold Rdiv; ring|simpl; eauto].
  - cbn [SFdiv].
    pose proof (rounds_div_core (xorb sx sy) mx ex my ey) as H.
    destruct (SFdiv_core_binary prec emax (Zpos mx) ex (Zpos my) ey) as [[q e'] l].
    replace (SF2R (S754_finite sx mx ex) / SF2R (S754_finite sy my ey))%R
      with (cond_Ropp (xorb sx sy)
              (IZR (Zpos mx) * bpow ex / (IZR (Zpos my) * bpow ey))); [exact H|].
    rewrite !SF2R_finite.
    pose proof (bpow_gt_0 ey).
    assert (0 < IZR (Zpos my))%R by (apply IZR_lt; lia).
    destruct sx, sy; simpl; field; split; lra.
Qed.

(** ** Conversion of integers *)
Lemma iter_xO_spec m d : Zpos (Pos.iter xO m d) = Zpos m * 2 ^ Zpos d.
Proof.
  change (Pos.iter xO m d) with (shift_pos d m).
  rewrite shift_pos_correct. rewrite Zpower_pos_nat, Zpower_nat_Z, positive_nat_Z. ring.
Qed.

Lemma shl_align_spec mx ex ex' :
  let '(mz, ez) := shl_align mx ex ex' in
  ez = Z.min ex ex' /\ Zpos mz = Zpos mx * 2 ^ (ex - ez).
Proof.
  unfold shl_align. destruct (ex' - ex) as [|d|d] eqn:Hd.
  - split; [lia|]. replace (ex - ex) with 0 by ring. simpl. lia.
  - split; [lia|]. replace (ex - ex) with 0 by ring. simpl. lia.
  - split; [lia|]. rewrite iter_xO_spec. f_equal. f_equal. lia.
Qed.

Lemma rounds_binary_round s m e :
  rounds (cond_Ropp s (IZR (Zpos m) * bpow e)) (binary_round prec emax s m e).
Proof.
  unfold binary_round.
  pose proof (shl_align_spec m e (fexp (Zpos (digits2_pos m) + e))) as H.
  destruct (shl_align m e (fexp (Zpos (digits2_pos m) + e))) as [mz ez].
  destruct H as [Hez Hmz].
  change (Zpos (digits2_pos m)) with (Zdigits2 (Zpos m)) in *.
  assert (Hs : 0 <= e - ez) by lia.
  assert (Hval : (IZR (Zpos m) * bpow e = IZR (Zpos mz) * bpow ez)%R).
  { rewrite Hmz, mult_IZR, bpow_IZR by assumption.
    rewrite Rmult_assoc, <- bpow_add. f_equal. f_equal. ring. }
  rewrite Hval.
  apply BR_rounds.
  - lia.
  - apply pos_value_gt_0.
  - destruct (Z_le_gt_dec e (fexp (Zdigits2 (Zpos m) + e))) as [Hle|Hgt].
    + assert (Hmz' : Zpos mz = Zpos m).
      { rewrite Hmz. replace (e - ez) with 0 by lia. rewrite Z.pow_0_r. lia. }
      assert (Heq : ez = e) by lia.
      rewrite Hmz', Heq. exact Hle.
    + assert (ez = fexp (Zdigits2 (Zpos m) + e)) by lia.
      assert (Hd : Zdigits2 (Zpos mz) = Zdigits2 (Zpos m) + (e - ez)).
      { pose proof (Zdigits2_bounds (Zpos m) ltac:(lia)) as [B1 B2].
        pose proof (Zdigits2_pos (Zpos m) ltac:(lia)).
        assert (0 < 2 ^ (e - ez)) by (apply Z.pow_pos_nonneg; lia).
        apply Zdigits2_unique; [|lia]. rewrite Hmz. split.
        - replace (Zdigits2 (Z.pos m) + (e - ez) - 1)
            with ((Zdigits2 (Z.pos m) - 1) + (e - ez)) by ring.
          rewrite Z.pow_add_r by lia. apply Z.mul_le_mono_nonneg_r; lia.
        - rewrite Z.pow_add_r by lia. apply Z.mul_lt_mono_pos_r; lia. }
      rewrite Hd. replace (Zdigits2 (Z.pos m) + (e - ez) + ez)
        with (Zdigits2 (Zpos m) + e) by ring. lia.
  - apply located_exact.
Qed.

Lemma rounds_binary_normalize z e :
  rounds (IZR z * bpow e) (binary_normalize prec emax z e false).
Proof.
  destruct z as [|p|p]; simpl binary_normalize.
  - left. split; [ring|eauto].
  - apply (rounds_binary_round false).
  - replace (IZR (Zneg p) * bpow e)%R with (cond_Ropp true (IZR (Zpos p) * bpow e)).
    + apply rounds_binary_round.
    + simpl. rewrite <- Pos2Z.opp_pos, opp_IZR. ring.
Qed.

Lemma rounds_valid v r : rounds v r -> valid_binary r = true.
Proof.
  intros [[_ [s ->]]|[[_ (rho & _ & P)]|[_ (rho & _ & P)]]]; try reflexivity;
    destruct P as [[_ ->]|[[_ ->]|(p & e & -> & Hb & _)]]; auto.
Qed.

Lemma SFleb_not_gt x y : SFleb x y = true -> not_gt x y.
Proof.
  unfold SFleb, not_gt. destruct (SFcompare x y) as [[ | | ]|]; congruence.
Qed.

Lemma not_gt_SF2R x y :
  valid_binary x = true -> valid_binary y = true ->
  SFfinite x = true -> SFfinite y = true ->
  not_gt x y -> (SF2R x <= SF2R y)%R.
Proof.
  unfold not_gt.
  destruct x as [sx|sx| |sx mx ex]; try discriminate;
  destruct y as [sy|sy| |sy my ey]; try discriminate; intros Hx Hy _ _ H.
  - simpl; lra.
  - rewrite SF2R_finite. pose proof (pos_value_gt_0 my ey).
    destruct sy; simpl in *; [congruence|lra].
  - rewrite SF2R_finite. pose proof (pos_value_gt_0 mx ex).
    destruct sx; simpl in *; [lra|congruence].
  - rewrite !SF2R_finite.
    pose proof (pos_value_gt_0 mx ex). pose proof (pos_value_gt_0 my ey).
    pose proof (lex_compare_spec mx ex my ey Hx Hy) as Hc.
    destruct sx, sy; cbn [cond_Ropp].
    + rewrite SFcompare_neg_finite in H.
      destruct (lex_compare mx ex my ey); simpl in *; try lra. congruence.
    + lra.
    + simpl in H. congruence.
    + unfold SFcompare in H. fold (lex_compare mx ex my ey) in H.
      destruct (lex_compare mx ex my ey); simpl in *; try lra. congruence.
Qed.

Lemma not_gt_of_rounds v1 r1 v2 r2 :
  rounds v1 r1 -> rounds v2 r2 -> (v1 <= v2)%R -> not_gt r1 r2.
Proof. intros. apply SFleb_not_gt. eapply rounds_mono; eauto. Qed.

Ltac forms H :=
  let s := fresh "s" in let p := fresh "p" in let e := fresh "e" in
  destruct (rounds_forms _ _ H) as [s [->|[->|(p & e & ->)]]].

Lemma SFmul_not_gt_r c x y :
  valid_binary c = true -> valid_binary x = true -> valid_binary y = true ->
  SFnonneg c -> not_gt x y ->
  not_gt (SFmul prec emax c x) (SFmul prec emax c y).
Proof.
  intros Hc Hx Hy Hn Hxy.
  destruct (SFfinite c) eqn:Fc.
  - destruct (SFfinite x) eqn:Fx; [destruct (SFfinite y) eqn:Fy|].
    + (* all finite *)
      pose proof (rounds_mul c x Hc Hx Fc Fx) as R1.
      pose proof (rounds_mul c y Hc Hy Fc Fy) as R2.
      eapply not_gt_of_rounds; eauto.
      pose proof (not_gt_SF2R x y Hx Hy Fx Fy Hxy).
      assert (0 <= SF2R c)%R.
      { destruct c as [s|s| |s m e]; try discriminate; simpl in *; try lra.
        subst s. left. apply pos_value_gt_0. }
      nra.
    + (* y infinite or nan *)
      destruct y as [sy|sy| |sy my ey]; try discriminate.
      * destruct x as [sx|sx| |sx mx ex]; try discriminate;
        destruct c as [s|s| |s m e]; try discriminate; simpl in Hn; subst;
        unfold not_gt in *; destruct sy; try destruct sx; simpl in *; try congruence.
        -- pose proof (rounds_mul (S754_finite false m e) (S754_finite true mx ex) Hc Hx eq_refl eq_refl) as R.
           cbn [SFmul xorb] in R. forms R; destruct s; simpl; congruence.
        -- pose proof (rounds_mul (S754_finite false m e) (S754_finite false mx ex) Hc Hx eq_refl eq_refl) as R.
           cbn [SFmul xorb] in R. forms R; destruct s; simpl; congruence.
      * destruct c as [s|s| |s m e]; try discriminate;
        destruct x as [sx|sx| |sx mx ex]; unfold not_gt; simpl; try congruence.
        -- destruct (binary_round_aux _ _ _ _ _ _); simpl; congruence.
    + (* x infinite or nan *)
      destruct x as [sx|sx| |sx mx ex]; try discriminate.
      * destruct y as [sy|sy| |sy my ey];
        destruct c as [s|s| |s m e]; try discriminate; simpl in Hn; subst;
        unfold not_gt in *; destruct sx; try destruct sy; simpl in *; try congruence.
        -- pose proof (rounds_mul (S754_finite false m e) (S754_finite true my ey) Hc Hy eq_refl eq_refl) as R.
           cbn [SFmul xorb] in R. forms R; destruct s; simpl; congruence.
        -- pose proof (rounds_mul (S754_finite false m e) (S754_finite false my ey) Hc Hy eq_refl eq_refl) as R.
           cbn [SFmul xorb] in R. forms R; destruct s; simpl; congruence.
      * destruct c as [s|s| |s m e]; try discriminate; unfold not_gt; simpl; congruence.
  - destruct c as [s|s| |s m e]; try discriminate.
    + simpl in Hn. subst s.
      destruct x as [sx|sx| |sx mx ex]; destruct y as [sy|sy| |sy my ey];
        unfold not_gt in *; try destruct sx; try destruct sy; simpl in *; congruence.
Qed.

Lemma SFmul_comm x y : SFmul prec emax x y = SFmul prec emax y x.
Proof.
  destruct x as [sx|sx| |sx mx ex], y as [sy|sy| |sy my ey]; simpl;
    try rewrite (xorb_comm sx sy); try reflexivity.
  rewrite (Pos.mul_comm mx my), (Z.add_comm ex ey). reflexivity.
Qed.

Lemma SFmul_not_gt_l c x y :
  valid_binary c = true -> valid_binary x = true -> valid_binary y = true ->
  SFnonneg c -> not_gt x y ->
  not_gt (SFmul prec emax x c) (SFmul prec emax y c).
Proof.
  intros. rewrite (SFmul_comm x c), (SFmul_comm y c).
  apply SFmul_not_gt_r; assumption.
Qed.

Lemma not_gt_nan_r x : not_gt x S754_nan.
Proof. unfold not_gt. destruct x; simpl; congruence. Qed.

Lemma not_gt_nan_l y : not_gt S754_nan y.
Proof. unfold not_gt. simpl; congruence. Qed.

Lemma not_gt_pinf x : not_gt x (S754_infinity false).
Proof. unfold not_gt. destruct x as [s|s| |s m e]; try destruct s; simpl; congruence. Qed.

Lemma not_gt_ninf y : not_gt (S754_infinity true) y.
Proof. unfold not_gt. destruct y as [s|s| |s m e]; try destruct s; simpl; congruence. Qed.

Lemma not_gt_pinf_inv y :
  not_gt (S754_infinity false) y -> y = S754_infinity false \/ y = S754_nan.
Proof.
  unfold not_gt. destruct y as [s|s| |s m e]; try destruct s; simpl; auto; congruence.
Qed.

Lemma not_gt_ninf_inv x :
  not_gt x (S754_infinity true) -> x = S754_infinity true \/ x = S754_nan.
Proof.
  unfold not_gt. destruct x as [s|s| |s m e]; try destruct s; simpl; auto; congruence.
Qed.

Lemma SFdiv_inf s mk ek :
  SFdiv prec emax (S754_infinity s) (S754_finite false mk ek) = S754_infinity s.
Proof. simpl. rewrite xorb_false_r. reflexivity. Qed.

Lemma SFdiv_not_gt mk ek x y :
  valid_binary x = true -> valid_binary y = true ->
  not_gt x y ->
  not_gt (SFdiv prec emax x (S754_finite false mk ek))
         (SFdiv prec emax y (S754_finite false mk ek)).
Proof.
  intros Hx Hy Hxy. set (k := S754_finite false mk ek).
  assert (Hk : (0 < SF2R k)%R) by apply pos_value_gt_0.
  destruct (SFfinite x) eqn:Fx; [destruct (SFfinite y) eqn:Fy|].
  - pose proof (rounds_div x k Fx I) as R1.
    pose proof (rounds_div y k Fy I) as R2.
    eapply not_gt_of_rounds; eauto.
    pose proof (not_gt_SF2R x y Hx Hy Fx Fy Hxy).
    unfold Rdiv. apply Rmult_le_compat_r; [|assumption].
    left. apply Rinv_0_lt_compat. assumption.
  - destruct y as [sy|[|]| |sy my ey]; try discriminate.
    + apply not_gt_ninf_inv in Hxy. destruct Hxy; subst x; discriminate.
    + unfold k. rewrite SFdiv_inf. apply not_gt_pinf.
    + apply not_gt_nan_r.
  - destruct x as [sx|[|]| |sx mx ex]; try discriminate.
    + unfold k. rewrite SFdiv_inf. apply not_gt_ninf.
    + apply not_gt_pinf_inv in Hxy. destruct Hxy; subst y.
      * unfold k. rewrite !SFdiv_inf. apply not_gt_pinf.
      * apply not_gt_nan_r.
Qed.

(** ** Signs *)
Lemma BR_nonneg m e l : SFnonneg (BR false m e l).
Proof.
  unfold binary_round_aux.
  destruct (shr_fexp prec emax m e l) as [mrs' e'].
  destruct (shr_fexp prec emax _ e' loc_Exact) as [mrs'' e''].
  destruct (shr_m mrs''); [exact I| |exact I].
  destruct (e'' <=? emax - prec); reflexivity.
Qed.

Lemma SFmul_nonneg x y :
  SFnonneg x -> SFnonneg y -> SFnonneg (SFmul prec emax x y).
Proof.
  destruct x as [sx|sx| |sx mx ex], y as [sy|sy| |sy my ey]; simpl; intros; subst; auto.
  apply BR_nonneg.
Qed.

Lemma SFdiv_nonneg x y :
  SFnonneg x -> SFnonneg y ->
  match y with S754_zero _ => False | _ => True end ->
  SFnonneg (SFdiv prec emax x y).
Proof.
  destruct x as [sx|sx| |sx mx ex], y as [sy|sy| |sy my ey]; simpl; intros; subst;
    auto; try contradiction.
  destruct (SFdiv_core_binary _ _ _ _ _ _) as [[q e'] l]. apply BR_nonneg.
Qed.

Lemma binary_round_nonneg m e : SFnonneg (binary_round prec emax false m e).
Proof.
  unfold binary_round. destruct (shl_align _ _ _). apply BR_nonneg.
Qed.

Lemma SFadd_nonneg x my ey :
  SFnonneg x -> SFnonneg (SFadd prec emax x (S754_finite false my ey)).
Proof.
  destruct x as [sx|sx| |sx mx ex]; simpl; intros; subst; auto.
  unfold binary_normalize.
  destruct (shl_align mx ex (Z.min ex ey)) as [m1 e1].
  destruct (shl_align my ey (Z.min ex ey)) as [m2 e2].
  simpl. apply binary_round_nonneg.
Qed.

Lemma SFcompare_antisym x y :
  SFcompare y x = option_map CompOpp (SFcompare x y).
Proof.
  destruct x as [sx|sx| |sx mx ex], y as [sy|sy| |sy my ey];
    try destruct sx; try destruct sy; simpl; try reflexivity;
    rewrite (Z.compare_antisym ex ey); destruct (ex ?= ey); simpl; try reflexivity;
    change (Pos.compare_cont Eq my mx) with (Pos.compare my mx);
    change (Pos.compare_cont Eq mx my) with (Pos.compare mx my);
    rewrite (Pos.compare_antisym mx my);
    try rewrite CompOpp_involutive; reflexivity.
Qed.

Lemma not_gt_SFltb x y : not_gt x y -> SFltb y x = false.
Proof.
  unfold not_gt, SFltb. rewrite (SFcompare_antisym x y).
  destruct (SFcompare x y) as [[ | | ]|]; simpl; congruence.
Qed.

Lemma SFltb_not_gt x y : SFltb x y = true -> not_gt x y.
Proof.
  unfold not_gt, SFltb. destruct (SFcompare x y) as [[ | | ]|]; congruence.
Qed.

Lemma f_not_gt_ltb x y : f_not_gt x y -> (y <? x)%float = false.
Proof. intros H. rewrite ltb_spec. apply not_gt_SFltb. exact H. Qed.

Lemma ltb_f_not_gt x y : (x <? y)%float = true -> f_not_gt x y.
Proof. rewrite ltb_spec. apply SFltb_not_gt. Qed.

Lemma f_mul_mono_r c x y :
  f_nonneg c -> f_not_gt x y -> f_not_gt (c * x) (c * y).
Proof.
  unfold f_nonneg, f_not_gt. intros. rewrite !mul_spec.
  apply SFmul_not_gt_r; auto using Prim2SF_valid.
Qed.

Lemma f_mul_mono_l c x y :
  f_nonneg c -> f_not_gt x y -> f_not_gt (x * c) (y * c).
Proof.
  unfold f_nonneg, f_not_gt. intros. rewrite !mul_spec.
  apply SFmul_not_gt_l; auto using Prim2SF_valid.
Qed.

Lemma f_div_mono k mk ek x y :
  Prim2SF k = S754_finite false mk ek ->
  f_not_gt x y -> f_not_gt (x / k) (y / k).
Proof.
  unfold f_not_gt. intros Hk H. rewrite !div_spec, Hk.
  apply SFdiv_not_gt; auto using Prim2SF_valid.
Qed.

Lemma f_mul_nonneg x y : f_nonneg x -> f_nonneg y -> f_nonneg (x * y).
Proof. unfold f_nonneg. rewrite mul_spec. apply SFmul_nonneg. Qed.

Lemma SFpos_nonneg x : SFpos x -> SFnonneg x.
Proof. destruct x as [s|[|]| |[|] m e]; simpl; auto; contradiction. Qed.

Lemma f_div_nonneg x y :
  f_nonneg x -> SFpos (Prim2SF y) -> f_nonneg (x / y).
Proof.
  unfold f_nonneg. rewrite div_spec. intros Hx Hy.
  apply SFdiv_nonneg; auto using SFpos_nonneg.
  destruct (Prim2SF y); auto.
Qed.

Lemma f_add_nonneg x y my ey :
  Prim2SF y = S754_finite false my ey -> f_nonneg x -> f_nonneg (x + y).
Proof.
  unfold f_nonneg. rewrite add_spec. intros -> Hx. apply SFadd_nonneg. exact Hx.
Qed.

Lemma SFpos_eqb_zero y : SFpos (Prim2SF y) -> (y =? 0)%float = false.
Proof.
  rewrite eqb_spec. change (Prim2SF 0) with (S754_zero false).
  destruct (Prim2SF y) as [s|[|]| |[|] m e]; simpl; auto; contradiction.
Qed.

(** * The program *)

Lemma Zcompare_Rcmp a b : Rcmp (a ?= b) (IZR a) (IZR b).
Proof.
  destruct (Z.compare_spec a b) as [->|H|H]; simpl; auto using IZR_lt.
Qed.

Lemma Z_compare_SF_spec z s m e c :
  Z_compare_SF z (S754_finite s m e) = Some c ->
  Rcmp c (IZR z) (SF2R (S754_finite s m e)).
Proof.
  unfold Z_compare_SF. intros H. injection H as <-.
  cbn [SF2R].
  destruct (Z.leb_spec 0 e) as [He|He].
  - rewrite <- bpow_IZR, <- mult_IZR by assumption. apply Zcompare_Rcmp.
  - pose proof (Zcompare_Rcmp (z * 2 ^ (- e)) (cond_Zopp s (Zpos m))) as H.
    rewrite mult_IZR, bpow_IZR in H by lia.
    pose proof (bpow_gt_0 e) as Hp.
    assert (Hb : (bpow (- e) * bpow e = 1)%R).
    { rewrite <- bpow_add. replace (- e + e) with 0 by ring. apply bpow_0. }
    set (x := IZR z) in *. set (y := IZR (cond_Zopp s (Zpos m))) in *.
    assert (Hx : (x = x * bpow (- e) * bpow e)%R) by (rewrite Rmult_assoc, Hb; ring).
    destruct (z * 2 ^ (- e) ?= cond_Zopp s (Zpos m)); simpl in *.
    + rewrite Hx, H. reflexivity.
    + rewrite Hx. apply Rmult_lt_compat_r; assumption.
    + rewrite Hx. apply Rmult_lt_compat_r; assumption.
Qed.

Lemma float_of_int_spec z f :
  float_of_int z = Ok f ->
  Prim2SF f = binary_normalize prec emax z 0 false /\ rounds (IZR z) (Prim2SF f).
Proof.
  unfold float_of_int. intros H.
  pose proof (rounds_binary_normalize z 0) as R.
  rewrite bpow_0, Rmult_1_r in R.
  pose proof (rounds_valid _ _ R) as V.
  assert (f = SF2Prim (binary_normalize prec emax z 0 false)) as ->.
  { destruct (binary_normalize prec emax z 0 false); congruence. }
  rewrite Prim2SF_SF2Prim by assumption. auto.
Qed.

Lemma float_of_int_not_inf z f s :
  float_of_int z = Ok f -> Prim2SF f <> S754_infinity s.
Proof.
  intros H. destruct (float_of_int_spec z f H) as [E _]. rewrite E.
  unfold float_of_int in H.
  destruct (binary_normalize prec emax z 0 false); congruence.
Qed.

(** ** Conversions and comparisons of Python numbers *)
Lemma rounds_Prim2SF f :
  SFfinite (Prim2SF f) = true -> rounds (SF2R (Prim2SF f)) (Prim2SF f).
Proof. intros. apply rounds_self; auto using Prim2SF_valid. Qed.

Lemma num_lt_f_not_gt w1 w2 f1 f2 :
  num_lt w1 w2 = true -> to_float w1 = Ok f1 -> to_float w2 = Ok f2 ->
  f_not_gt f1 f2.
Proof.
  destruct w1 as [z1|x1], w2 as [z2|x2]; simpl; intros Hlt H1 H2.
  - destruct (float_of_int_spec _ _ H1) as [_ R1].
    destruct (float_of_int_spec _ _ H2) as [_ R2].
    eapply not_gt_of_rounds; eauto. apply IZR_le. lia.
  - injection H2 as <-.
    destruct (float_of_int_spec _ _ H1) as [_ R1].
    unfold Z_lt_float in Hlt. unfold f_not_gt.
    destruct (Z_compare_SF z1 (Prim2SF x2)) as [[ | | ]|] eqn:Hc; try discriminate.
    destruct (Prim2SF x2) as [s|[|]| |s m e] eqn:E2; simpl in Hc; try discriminate.
    + eapply not_gt_of_rounds; [exact R1| |].
      * left. split; [reflexivity|eauto].
      * injection Hc as Hc. change (z1 < 0) in Hc. apply IZR_le. lia.
    + apply not_gt_pinf.
    + pose proof (rounds_Prim2SF x2) as R2. rewrite E2 in R2.
      eapply not_gt_of_rounds; [exact R1|exact (R2 eq_refl)|].
      apply Z_compare_SF_spec in Hc. simpl in Hc. simpl. lra.
  - injection H1 as <-.
    destruct (float_of_int_spec _ _ H2) as [_ R2].
    unfold float_lt_Z in Hlt. unfold f_not_gt.
    destruct (Z_compare_SF z2 (Prim2SF x1)) as [[ | | ]|] eqn:Hc; try discriminate.
    destruct (Prim2SF x1) as [s|[|]| |s m e] eqn:E1; simpl in Hc; try discriminate.
    + eapply not_gt_of_rounds; [| exact R2 |].
      * left. split; [reflexivity|eauto].
      * injection Hc as Hc. change (z2 > 0) in Hc. apply IZR_le. lia.
    + apply not_gt_ninf.
    + pose proof (rounds_Prim2SF x1) as R1. rewrite E1 in R1.
      eapply not_gt_of_rounds; [exact (R1 eq_refl)|exact R2|].
      apply Z_compare_SF_spec in Hc. simpl in Hc. simpl. lra.
  - injection H1 as <-. injection H2 as <-. apply ltb_f_not_gt. exact Hlt.
Qed.

Lemma rnd_spec_pos v rho :
  rnd_spec v rho -> (bpow (-1074) <= v)%R -> (0 < rho)%R.
Proof.
  intros (m1 & l1 & E & Hm & Hc & Hl & ->) Hv.
  pose proof (rne_bounds m1 l1) as Hb. pose proof (bpow_gt_0 E).
  destruct (Z.eq_dec m1 0) as [->|Hne].
  - exfalso. simpl Zdigits2 in Hc.
    assert (E = -1074) by (xf; lia). subst E.
    apply located_bounds in Hl. lra.
  - apply Rmult_lt_0_compat; [|assumption]. apply IZR_lt. lia.
Qed.

Lemma float_of_int_pos z f :
  0 < z -> float_of_int z = Ok f -> SFpos (Prim2SF f).
Proof.
  intros Hz H. pose proof (float_of_int_not_inf z f false H) as Hni.
  destruct (float_of_int_spec z f H) as [_ R].
  assert (Hz1 : (1 <= IZR z)%R) by (apply IZR_le; lia).
  destruct R as [[E _]|[[_ (rho & S & P)]|[E _]]]; try lra.
  assert (Hrho : (0 < rho)%R).
  { apply (rnd_spec_pos _ _ S). pose proof (bpow_le (-1074) 0 ltac:(lia)) as Hb.
    rewrite bpow_0 in Hb. lra. }
  destruct P as [[E0 _]|[[_ E1]|(p & e & -> & _)]]; try lra; try congruence.
  exact I.
Qed.

Lemma Z_compare_SF_neg z m e :
  0 <= z -> Z_compare_SF z (S754_finite true m e) = Some Gt.
Proof.
  intros Hz.
  destruct (Z_compare_SF z (S754_finite true m e)) as [c|] eqn:Hc; [|discriminate].
  pose proof (Z_compare_SF_spec _ _ _ _ _ Hc) as H.
  rewrite SF2R_finite in H. pose proof (pos_value_gt_0 m e).
  assert (0 <= IZR z)%R by (apply IZR_le; lia).
  destruct c; simpl in H; try lra. reflexivity.
Qed.

Lemma to_float_nonneg x f : num_nonneg x -> to_float x = Ok f -> f_nonneg f.
Proof.
  unfold num_nonneg, f_nonneg. destruct x as [z|x]; simpl; intros Hn H.
  - destruct (float_of_int_spec z f H) as [E _]. rewrite E.
    destruct z as [|p|p]; simpl; try exact I; try discriminate.
    apply binary_round_nonneg.
  - injection H as <-. unfold float_lt_Z in Hn.
    destruct (Prim2SF x) as [s|[|]| |[|] m e]; try exact I; try reflexivity.
    + simpl in Hn. discriminate.
    + rewrite (Z_compare_SF_neg 0 m e) in Hn by lia. discriminate.
Qed.

Lemma to_float_pos x f : num_pos x -> to_float x = Ok f -> SFpos (Prim2SF f).
Proof.
  unfold num_pos. destruct x as [z|x]; simpl; intros Hn H.
  - apply (float_of_int_pos z); [lia|assumption].
  - injection H as <-. unfold Z_lt_float in Hn.
    destruct (Prim2SF x) as [s|[|]| |[|] m e]; try exact I;
      try (simpl in Hn; discriminate).
    rewrite (Z_compare_SF_neg 0 m e) in Hn by lia. discriminate.
Qed.

(** ** The arithmetic operators on converted operands *)
Lemma num_mul_float_r a y fa :
  to_float a = Ok fa -> num_mul a (PyFloat y) = Ok (PyFloat (fa * y)).
Proof. intros H. destruct a; unfold num_mul; cbv beta iota; rewrite H; reflexivity. Qed.

Lemma num_mul_float_l x b fb :
  to_float b = Ok fb -> num_mul (PyFloat x) b = Ok (PyFloat (x * fb)).
Proof. intros H. destruct b; unfold num_mul; cbv beta iota; rewrite H; reflexivity. Qed.

Lemma num_add_float_l x b fb :
  to_float b = Ok fb -> num_add (PyFloat x) b = Ok (PyFloat (x + fb)).
Proof. intros H. destruct b; unfold num_add; cbv beta iota; rewrite H; reflexivity. Qed.

Lemma num_truediv_float_l x b fb :
  to_float b = Ok fb -> (fb =? 0)%float = false ->
  num_truediv (PyFloat x) b = Ok (PyFloat (x / fb)).
Proof.
  intros H H0. destruct b; unfold num_truediv; cbv beta iota; rewrite H;
    cbn [to_float bind]; rewrite H0; reflexivity.
Qed.

Lemma to_float_1000 : to_float (PyInt 1000) = Ok 1000%float.
Proof. reflexivity. Qed.

Lemma to_float_60 : to_float (PyInt 60) = Ok 60%float.
Proof. reflexivity. Qed.

Lemma to_float_18 : to_float (PyInt 18) = Ok 18%float.
Proof. reflexivity. Qed.

Lemma to_float_2 : to_float (PyInt 2) = Ok 2%float.
Proof. reflexivity. Qed.

Lemma bind_no_zd {A B : Type} (m : result A) (k : A -> result B) :
  no_zero_division m -> (forall a, m = Ok a -> no_zero_division (k a)) ->
  no_zero_division (bind m k).
Proof.
  unfold no_zero_division. destruct m as [a|e]; simpl; intros Hm Hk.
  - apply Hk. reflexivity.
  - congruence.
Qed.

Lemma float_of_int_no_zd z : no_zero_division (float_of_int z).
Proof.
  unfold no_zero_division, float_of_int.
  destruct (binary_normalize prec emax z 0 false); congruence.
Qed.

Lemma to_float_no_zd x : no_zero_division (to_float x).
Proof.
  destruct x; simpl; [apply float_of_int_no_zd|unfold no_zero_division; congruence].
Qed.

Lemma Ok_no_zd {A : Type} (a : A) : no_zero_division (Ok a).
Proof. unfold no_zero_division; congruence. Qed.

Lemma float_binop_no_zd a b (op : float -> float -> float) :
  no_zero_division (x <- to_float a ;; y <- to_float b ;; Ok (PyFloat (op x y))).
Proof.
  apply bind_no_zd; [apply to_float_no_zd|intros x _].
  apply bind_no_zd; [apply to_float_no_zd|intros y _]. apply Ok_no_zd.
Qed.

Lemma num_mul_no_zd a b : no_zero_division (num_mul a b).
Proof.
  destruct a, b; unfold num_mul; try apply Ok_no_zd;
    apply (float_binop_no_zd _ _ PrimFloat.mul).
Qed.

Lemma num_add_no_zd a b : no_zero_division (num_add a b).
Proof.
  destruct a, b; unfold num_add; try apply Ok_no_zd;
    apply (float_binop_no_zd _ _ PrimFloat.add).
Qed.

Lemma int_true_divide_no_zd a b : b <> 0 -> no_zero_division (int_true_divide a b).
Proof.
  intros Hb. unfold int_true_divide, no_zero_division.
  destruct (Z.eqb_spec b 0); [contradiction|].
  destruct (a =? 0); [congruence|].
  destruct (SFdiv_core_binary prec emax (Z.abs a) 0 (Z.abs b) 0) as [[q e] l].
  destruct (binary_round_aux prec emax _ q e l); congruence.
Qed.

Lemma float_div_no_zd a b :
  num_pos b ->
  no_zero_division
    (x <- to_float a ;; y <- to_float b ;;
     if (y =? 0)%float then Raise ZeroDivisionError else Ok (PyFloat (x / y))).
Proof.
  intros Hb.
  apply bind_no_zd; [apply to_float_no_zd|intros x _].
  apply bind_no_zd; [apply to_float_no_zd|intros y Hy].
  rewrite (SFpos_eqb_zero y (to_float_pos b y Hb Hy)). apply Ok_no_zd.
Qed.

Lemma num_truediv_no_zd a b : num_pos b -> no_zero_division (num_truediv a b).
Proof.
  intros Hb. destruct a as [x|x], b as [y|y]; unfold num_truediv;
    try (apply float_div_no_zd; assumption).
  apply bind_no_zd; [|intros; apply Ok_no_zd].
  apply int_true_divide_no_zd. unfold num_pos in Hb. simpl in Hb. lia.
Qed.

Lemma num_pos_1000 : num_pos (PyInt 1000).
Proof. reflexivity. Qed.

(** ** Distance and mean speed *)

Lemma get_distance_value self fa ls :
  LEN_STEP self = PyFloat ls -> to_float (action self) = Ok fa ->
  get_distance self = Ok (PyFloat (fa * ls / 1000)).
Proof.
  intros Hl Ha. unfold get_distance. rewrite Hl.
  rewrite (num_mul_float_r _ _ _ Ha). cbn [bind].
  apply (num_truediv_float_l _ _ 1000%float to_float_1000 eq_refl).
Qed.

Lemma get_distance_no_zd self : no_zero_division (get_distance self).
Proof.
  unfold get_distance. apply bind_no_zd; [apply num_mul_no_zd|intros x _].
  apply num_truediv_no_zd, num_pos_1000.
Qed.

Lemma truediv_pos_value x d fd :
  num_pos d -> to_float d = Ok fd ->
  num_truediv (PyFloat x) d = Ok (PyFloat (x / fd)).
Proof.
  intros Hp Hd. apply num_truediv_float_l; [assumption|].
  apply SFpos_eqb_zero. eapply to_float_pos; eauto.
Qed.

Lemma base_mean_speed_value self fa fd :
  step_based self = true ->
  to_float (action self) = Ok fa -> to_float (duration self) = Ok fd ->
  num_pos (duration self) ->
  get_mean_speed self = Ok (PyFloat (fa * 0.65 / 1000 / fd)).
Proof.
  intros Hs Ha Hd Hp.
  assert (Hg : get_mean_speed self
               = (dist <- get_distance self ;; num_truediv dist (duration self))).
  { destruct self; try discriminate; reflexivity. }
  rewrite Hg, (get_distance_value self fa 0.65); [|destruct self; try discriminate; reflexivity|assumption].
  cbn [bind]. apply truediv_pos_value; assumption.
Qed.

Lemma get_mean_speed_no_zd self :
  num_pos (duration self) -> no_zero_division (get_mean_speed self).
Proof.
  intros Hp. destruct self as [a d w|a d w|a d w h|a d w L n]; cbn [duration] in Hp;
    unfold get_mean_speed.
  1-3: apply bind_no_zd; [apply get_distance_no_zd|intros x _; apply num_truediv_no_zd; assumption].
  apply bind_no_zd; [apply num_mul_no_zd|intros x _].
  apply bind_no_zd; [apply num_truediv_no_zd, num_pos_1000|intros y _].
  apply num_truediv_no_zd; assumption.
Qed.

(** C1.  For a [Running] or [SportsWalking] instance with a positive
    duration, [get_distance] is [action * 0.65 / 1000] and [get_mean_speed]
    is that distance divided by the duration: the two methods are the
    evaluation of these expressions, the mean speed never raises
    [ZeroDivisionError], and when the action and the duration convert to
    the floats [fa] and [fd] the results are the binary64 values
    [fa * 0.65 / 1000] and [fa * 0.65 / 1000 / fd]. *)
Theorem step_distance_and_mean_speed :
  forall self, step_based self = true -> num_pos (duration self) ->
    get_distance self
      = (x <- num_mul (action self) (PyFloat 0.65) ;; num_truediv x (PyInt 1000))
    /\ get_mean_speed self
      = (dist <- get_distance self ;; num_truediv dist (duration self))
    /\ no_zero_division (get_mean_speed self)
    /\ forall fa fd,
         to_float (action self) = Ok fa -> to_float (duration self) = Ok fd ->
         get_distance self = Ok (PyFloat (fa * 0.65 / 1000))
         /\ get_mean_speed self = Ok (PyFloat (fa * 0.65 / 1000 / fd)).
Proof.
  intros self Hs Hp. split; [|split; [|split]].
  - destruct self; try discriminate; reflexivity.
  - destruct self; try discriminate; reflexivity.
  - apply get_mean_speed_no_zd; assumption.
  - intros fa fd Ha Hd. split.
    + apply get_distance_value; [destruct self; try discriminate; reflexivity|assumption].
    + apply base_mean_speed_value; assumption.
Qed.

Lemma step_distance_and_mean_speed_witness :
  get_distance (Running (PyInt 15000) (PyInt 1) (PyInt 75)) = Ok (PyFloat 9.75)
  /\ get_mean_speed (SportsWalking (PyInt 9000) (PyFloat 1.5) (PyInt 75) (PyInt 180))
     = Ok (PyFloat (9000 * 0.65 / 1000 / 1.5)).
Proof.
  split.
  - apply (step_distance_and_mean_speed (Running (PyInt 15000) (PyInt 1) (PyInt 75))
             eq_refl eq_refl).
  - apply (step_distance_and_mean_speed
             (SportsWalking (PyInt 9000) (PyFloat 1.5) (PyInt 75) (PyInt 180))
             eq_refl eq_refl); reflexivity.
Defined.

(** ** Swimming: mean speed *)

(** C2.  For a [Swimming] instance with a positive duration,
    [get_mean_speed] is [length_pool * count_pool / 1000 / duration]; it
    does not depend on the number of strokes, never raises
    [ZeroDivisionError], and is the float quotient of
    [length_pool * count_pool / 1000] by the duration. *)
Theorem swimming_mean_speed :
  forall a d w L n, num_pos d ->
    get_mean_speed (Swimming a d w L n)
      = (x <- num_mul L n ;; y <- num_truediv x (PyInt 1000) ;; num_truediv y d)
    /\ (forall a', get_mean_speed (Swimming a' d w L n)
                   = get_mean_speed (Swimming a d w L n))
    /\ no_zero_division (get_mean_speed (Swimming a d w L n))
    /\ forall x q fd,
         num_mul L n = Ok x -> num_truediv x (PyInt 1000) = Ok (PyFloat q) ->
         to_float d = Ok fd ->
         get_mean_speed (Swimming a d w L n) = Ok (PyFloat (q / fd)).
Proof.
  intros a d w L n Hp. split; [reflexivity|]. split; [reflexivity|]. split.
  - apply get_mean_speed_no_zd. exact Hp.
  - intros x q fd Hx Hq Hd. unfold get_mean_speed.
    rewrite Hx. cbn [bind]. unfold M_IN_KM. rewrite Hq. cbn [bind].
    apply truediv_pos_value; assumption.
Qed.

Lemma swimming_mean_speed_witness :
  get_mean_speed (Swimming (PyInt 720) (PyInt 1) (PyInt 80) (PyInt 25) (PyInt 40))
  = Ok (PyFloat 1).
Proof.
  destruct (swimming_mean_speed (PyInt 720) (PyInt 1) (PyInt 80) (PyInt 25) (PyInt 40)
              eq_refl) as (_ & _ & _ & H).
  apply (H (PyInt 1000) 1%float 1%float); reflexivity.
Defined.

(** ** Spent calories *)

Section CaloriesFormulas.

Variable libm_pow : float -> float -> float.

Lemma running_calories_value a d w fa fd fw :
  num_pos d -> to_float a = Ok fa -> to_float d = Ok fd -> to_float w = Ok fw ->
  get_spent_calories libm_pow (Running a d w)
  = Ok (PyFloat ((18 * (fa * 0.65 / 1000 / fd) + 1.79) * fw / 1000 * fd * 60)).
Proof.
  intros Hp Ha Hd Hw. unfold get_spent_calories.
  rewrite (base_mean_speed_value (Running a d w) fa fd eq_refl Ha Hd Hp). cbn [bind].
  unfold RunningConst.CALORIES_MEAN_SPEED_MULTIPLIER, RunningConst.CALORIES_MEAN_SPEED_SHIFT,
    M_IN_KM, H_IN_M.
  rewrite (num_mul_float_r _ _ _ to_float_18). cbn [bind].
  rewrite (num_add_float_l _ (PyFloat 1.79) 1.79 eq_refl). cbn [bind].
  rewrite (num_mul_float_l _ _ _ Hw). cbn [bind].
  rewrite (num_truediv_float_l _ _ 1000%float to_float_1000 eq_refl). cbn [bind].
  rewrite (num_mul_float_l _ _ _ Hd). cbn [bind].
  apply (num_mul_float_l _ _ _ to_float_60).
Qed.

Lemma swimming_calories_value a d w L n v fd fw :
  get_mean_speed (Swimming a d w L n) = Ok (PyFloat v) ->
  to_float d = Ok fd -> to_float w = Ok fw ->
  get_spent_calories libm_pow (Swimming a d w L n)
  = Ok (PyFloat ((v + 1.1) * 2 * fw * fd)).
Proof.
  intros Hv Hd Hw. unfold get_spent_calories. rewrite Hv. cbn [bind].
  unfold SwimmingConst.CALORIES_MEAN_SPEED_ADDITION, SwimmingConst.CALORIES_MEAN_SPEED_MULTIPLIER.
  rewrite (num_add_float_l _ (PyFloat 1.1) 1.1 eq_refl). cbn [bind].
  rewrite (num_mul_float_l _ _ _ to_float_2). cbn [bind].
  rewrite (num_mul_float_l _ _ _ Hw). cbn [bind].
  apply (num_mul_float_l _ _ _ Hd).
Qed.

Lemma walking_calories_value a d w h fa fd fw v2 hm :
  num_pos d -> to_float a = Ok fa -> to_float d = Ok fd -> to_float w = Ok fw ->
  float_pow_two libm_pow (fa * 0.65 / 1000 / fd * 0.278) = Ok v2 ->
  num_truediv h (PyInt 100) = Ok (PyFloat hm) -> (hm =? 0)%float = false ->
  get_spent_calories libm_pow (SportsWalking a d w h)
  = Ok (PyFloat ((0.035 * fw + v2 / hm * 0.029 * fw) * fd * 60)).
Proof.
  intros Hp Ha Hd Hw Hv Hh Hz. unfold get_spent_calories.
  unfold SportsWalkingConst.CALORIES_WEIGHT_MULTIPLIER_1,
    SportsWalkingConst.CALORIES_WEIGHT_MULTIPLIER_2,
    SportsWalkingConst.KM_PER_H_IN_M_PER_S, SportsWalkingConst.CM_IN_M, H_IN_M.
  rewrite (num_mul_float_l _ _ _ Hw). cbn [bind].
  rewrite (base_mean_speed_value (SportsWalking a d w h) fa fd eq_refl Ha Hd Hp). cbn [bind].
  rewrite (num_mul_float_l _ (PyFloat 0.278) 0.278 eq_refl). cbn [bind num_pow_two].
  rewrite Hv. cbn [bind]. rewrite Hh. cbn [bind].
  rewrite (num_truediv_float_l _ (PyFloat hm) hm eq_refl Hz). cbn [bind].
  rewrite (num_mul_float_l _ (PyFloat 0.029) 0.029 eq_refl). cbn [bind].
  rewrite (num_mul_float_l _ _ _ Hw). cbn [bind].
  rewrite (num_add_float_l _ (PyFloat _) _ eq_refl). cbn [bind].
  rewrite (num_mul_float_l _ _ _ Hd). cbn [bind].
  apply (num_mul_float_l _ _ _ to_float_60).
Qed.

End CaloriesFormulas.

Lemma running_calories_no_zd libm_pow a d w :
  num_pos d -> no_zero_division (get_spent_calories libm_pow (Running a d w)).
Proof.
  intros Hp. unfold get_spent_calories.
  apply bind_no_zd; [apply get_mean_speed_no_zd; exact Hp|intros speed _].
  apply bind_no_zd; [apply num_mul_no_zd|intros x1 _].
  apply bind_no_zd; [apply num_add_no_zd|intros x2 _].
  apply bind_no_zd; [apply num_mul_no_zd|intros x3 _].
  apply bind_no_zd; [apply num_truediv_no_zd, num_pos_1000|intros x4 _].
  apply bind_no_zd; [apply num_mul_no_zd|intros x5 _].
  apply num_mul_no_zd.
Qed.

Lemma swimming_calories_no_zd libm_pow a d w L n :
  num_pos d -> no_zero_division (get_spent_calories libm_pow (Swimming a d w L n)).
Proof.
  intros Hp. unfold get_spent_calories.
  apply bind_no_zd; [apply get_mean_speed_no_zd; exact Hp|intros speed _].
  apply bind_no_zd; [apply num_add_no_zd|intros x1 _].
  apply bind_no_zd; [apply num_mul_no_zd|intros x2 _].
  apply bind_no_zd; [apply num_mul_no_zd|intros x3 _].
  apply num_mul_no_zd.
Qed.

(** C3.  For a [Running] instance with a positive duration,
    [get_spent_calories] is
    [(18 * mean_speed + 1.79) * weight / 1000 * duration * 60]; it never
    raises [ZeroDivisionError].  For the package [("RUN", [15000, 1, 75])]
    the distance is [9.75], the mean speed is [9.75] and the calories are
    [(18 * 9.75 + 1.79) * 75 / 1000 * 1 * 60]. *)
Theorem running_spent_calories :
  (forall libm_pow a d w, num_pos d ->
     get_spent_calories libm_pow (Running a d w)
       = (speed <- get_mean_speed (Running a d w) ;;
          x <- num_mul (PyInt 18) speed ;;
          x <- num_add x (PyFloat 1.79) ;;
          x <- num_mul x w ;;
          x <- num_truediv x (PyInt 1000) ;;
          x <- num_mul x d ;;
          num_mul x (PyInt 60))
     /\ no_zero_division (get_spent_calories libm_pow (Running a d w))
     /\ forall fa fd fw,
          to_float a = Ok fa -> to_float d = Ok fd -> to_float w = Ok fw ->
          get_spent_calories libm_pow (Running a d w)
          = Ok (PyFloat ((18 * (fa * 0.65 / 1000 / fd) + 1.79) * fw / 1000 * fd * 60)))
  /\ (forall libm_pow, exists t,
        read_package "RUN" [PyInt 15000; PyInt 1; PyInt 75] = Ok t
        /\ get_distance t = Ok (PyFloat 9.75)
        /\ get_mean_speed t = Ok (PyFloat 9.75)
        /\ get_spent_calories libm_pow t
           = Ok (PyFloat ((18 * 9.75 + 1.79) * 75 / 1000 * 1 * 60))).
Proof.
  split.
  - intros libm_pow a d w Hp. split; [reflexivity|]. split.
    + apply running_calories_no_zd; assumption.
    + intros fa fd fw Ha Hd Hw. apply running_calories_value; assumption.
  - intros libm_pow. exists (Running (PyInt 15000) (PyInt 1) (PyInt 75)).
    repeat split; reflexivity.
Qed.

Lemma running_spent_calories_witness :
  get_spent_calories pow_rn (Running (PyInt 23000) (PyFloat 1.15) (PyInt 72))
  = Ok (PyFloat ((18 * (23000 * 0.65 / 1000 / 1.15) + 1.79) * 72 / 1000 * 1.15 * 60)).
Proof.
  pose proof (proj1 running_spent_calories) as H.
  destruct (H pow_rn (PyInt 23000) (PyFloat 1.15) (PyInt 72) eq_refl) as (_ & _ & Hv).
  apply (Hv 23000%float 1.15%float 72%float); reflexivity.
Defined.

(** ** Division of two ints *)

Lemma int_true_divide_pos_spec a b f :
  0 < a -> 0 < b -> int_true_divide a b = Ok f ->
  rounds (IZR a / IZR b) (Prim2SF f) /\ SFnonneg (Prim2SF f)
  /\ forall s, Prim2SF f <> S754_infinity s.
Proof.
  intros Ha Hb H. unfold int_true_divide in H.
  destruct (Z.eqb_spec b 0); [lia|]. destruct (Z.eqb_spec a 0); [lia|].
  destruct a as [|pa|pa]; try lia. destruct b as [|pb|pb]; try lia.
  cbn [Z.abs Z.ltb Z.compare xorb] in H.
  pose proof (rounds_div_core false pa 0 pb 0) as R.
  destruct (SFdiv_core_binary prec emax (Zpos pa) 0 (Zpos pb) 0) as [[q e] l].
  pose proof (BR_nonneg q e l) as N.
  rewrite bpow_0, !Rmult_1_r in R. cbn [cond_Ropp] in R.
  pose proof (rounds_valid _ _ R) as V.
  assert (Hni : forall s, binary_round_aux prec emax false q e l <> S754_infinity s).
  { intros s E. rewrite E in H. discriminate. }
  assert (f = SF2Prim (binary_round_aux prec emax false q e l)) as ->.
  { destruct (binary_round_aux prec emax false q e l); congruence. }
  rewrite Prim2SF_SF2Prim by assumption. auto.
Qed.

Lemma int_true_divide_nonneg a b f :
  0 <= a -> 0 < b -> int_true_divide a b = Ok f -> SFnonneg (Prim2SF f).
Proof.
  intros Ha Hb H. destruct (Z.eq_dec a 0) as [->|Hne].
  - unfold int_true_divide in H. destruct (Z.eqb_spec b 0); [lia|].
    destruct b; try lia. simpl in H. injection H as <-. exact I.
  - apply (int_true_divide_pos_spec a b f); auto. lia.
Qed.

Lemma int_div_100_pos z f :
  0 < z -> int_true_divide z 100 = Ok f -> SFpos (Prim2SF f).
Proof.
  intros Hz H.
  destruct (int_true_divide_pos_spec z 100 f Hz ltac:(lia) H) as (R & N & Hni).
  assert (Hv : (bpow (-1074) <= IZR z / 100)%R).
  { assert (1 <= IZR z)%R by (apply IZR_le; lia).
    pose proof (bpow_le (-1074) (-7) ltac:(lia)) as Hb.
    assert (bpow (-7) = / 128)%R as E7 by (unfold bpow; simpl; f_equal; lra).
    lra. }
  assert (0 < IZR z / 100)%R by (pose proof (bpow_gt_0 (-1074)); lra).
  destruct R as [[E _]|[[_ (rho & S & P)]|[E _]]]; try lra.
  pose proof (rnd_spec_pos _ _ S Hv) as Hrho.
  destruct P as [[E0 _]|[[_ E1]|(p & e & E2 & _)]]; try lra.
  - exfalso. exact (Hni _ E1).
  - rewrite E2. exact I.
Qed.

Lemma float_pow_two_no_zd libm_pow x : no_zero_division (float_pow_two libm_pow x).
Proof.
  unfold float_pow_two, no_zero_division.
  repeat match goal with |- context [if ?b then _ else _] => destruct b end; congruence.
Qed.

Lemma num_pow_two_no_zd libm_pow x : no_zero_division (num_pow_two libm_pow x).
Proof.
  destruct x; unfold num_pow_two; [apply Ok_no_zd|].
  apply bind_no_zd; [apply float_pow_two_no_zd|intros; apply Ok_no_zd].
Qed.

Lemma num_truediv_SFpos_no_zd x f :
  SFpos (Prim2SF f) -> no_zero_division (num_truediv x (PyFloat f)).
Proof.
  intros Hf. destruct x; unfold num_truediv;
    (apply bind_no_zd; [apply to_float_no_zd|intros y _]); cbn [to_float bind];
    rewrite (SFpos_eqb_zero f Hf); apply Ok_no_zd.
Qed.

Lemma walking_calories_no_zd libm_pow a d w z :
  num_pos d -> 0 < z ->
  no_zero_division (get_spent_calories libm_pow (SportsWalking a d w (PyInt z))).
Proof.
  intros Hp Hz. unfold get_spent_calories.
  apply bind_no_zd; [apply num_mul_no_zd|intros l _].
  apply bind_no_zd; [apply get_mean_speed_no_zd; exact Hp|intros speed _].
  apply bind_no_zd; [apply num_mul_no_zd|intros v _].
  apply bind_no_zd; [apply num_pow_two_no_zd|intros v2 _].
  apply bind_no_zd.
  { apply num_truediv_no_zd. reflexivity. }
  intros hm Hhm.
  unfold SportsWalkingConst.CM_IN_M, num_truediv in Hhm.
  destruct (int_true_divide z 100) as [f|] eqn:Hf; [|discriminate].
  injection Hhm as <-.
  apply bind_no_zd; [apply num_truediv_SFpos_no_zd, (int_div_100_pos z f Hz Hf)|intros r _].
  apply bind_no_zd; [apply num_mul_no_zd|intros r1 _].
  apply bind_no_zd; [apply num_mul_no_zd|intros r2 _].
  apply bind_no_zd; [apply num_add_no_zd|intros r3 _].
  apply bind_no_zd; [apply num_mul_no_zd|intros r4 _].
  apply num_mul_no_zd.
Qed.

Lemma is_nan_spec f : is_nan f = true -> Prim2SF f = S754_nan.
Proof.
  unfold is_nan. rewrite eqb_spec.
  destruct (Prim2SF f) as [s|s| |s m e]; try reflexivity;
    unfold SFeqb, SFcompare; destruct s;
    rewrite ?Z.compare_refl, ?Pos.compare_cont_refl; discriminate.
Qed.

Lemma is_infinity_spec f :
  is_infinity f = true <-> exists s, Prim2SF f = S754_infinity s.
Proof.
  unfold is_infinity. rewrite eqb_spec, abs_spec.
  change (Prim2SF infinity) with (S754_infinity false).
  destruct (Prim2SF f) as [s|s| |s m e]; simpl; split;
    try discriminate; try (intros [s' H]; discriminate H); eauto.
Qed.

Lemma eqb_zero_spec f :
  (f =? 0)%float = true -> exists s, Prim2SF f = S754_zero s.
Proof.
  rewrite eqb_spec. change (Prim2SF 0) with (S754_zero false).
  destruct (Prim2SF f) as [s|[|]| |[|] m e]; simpl; try discriminate; eauto.
Qed.

Lemma SFeqb_finite_eq x s m e :
  SFeqb x (S754_finite s m e) = true -> x = S754_finite s m e.
Proof.
  unfold SFeqb, SFcompare.
  destruct x as [sx|[|]| |sx mx ex]; try discriminate;
    try (destruct s; discriminate).
  destruct sx, s; try discriminate;
    destruct (Z.compare_spec ex e) as [->|H|H]; try discriminate;
    destruct (Pos.compare_cont Eq mx m) eqn:Hc; try discriminate;
    intros _; apply Pos.compare_eq in Hc; subst; reflexivity.
Qed.

Lemma eqb_one_spec f : (f =? 1)%float = true -> f = 1%float.
Proof.
  rewrite eqb_spec. intros H. apply Prim2SF_inj.
  change (Prim2SF 1) with (S754_finite false 4503599627370496 (-52)) in *.
  apply SFeqb_finite_eq. exact H.
Qed.

Lemma SFmul_opp x : SFmul prec emax (SFopp x) (SFopp x) = SFmul prec emax x x.
Proof. destruct x as [[|]|[|]| |[|] m e]; reflexivity. Qed.

Lemma pow_base_square v : (pow_base v * pow_base v = v * v)%float.
Proof.
  unfold pow_base. destruct (v <? 0)%float; [|reflexivity].
  apply Prim2SF_inj. rewrite !mul_spec, opp_spec. apply SFmul_opp.
Qed.

(** [float_pow(v, 2)] when the C library's [pow] returns the correctly
    rounded square at this base and the square does not overflow. *)
Lemma float_pow_two_square libm_pow v :
  libm_pow (pow_base v) 2%float = (v * v)%float ->
  (is_infinity (v * v) = true -> is_infinity v = true) ->
  float_pow_two libm_pow v = Ok (v * v)%float.
Proof.
  intros Hp Hi. unfold float_pow_two.
  destruct (is_nan v) eqn:En.
  { f_equal. apply Prim2SF_inj. rewrite mul_spec, (is_nan_spec v En). reflexivity. }
  destruct (is_infinity v) eqn:Ei.
  { f_equal. apply Prim2SF_inj. rewrite mul_spec, abs_spec.
    apply is_infinity_spec in Ei. destruct Ei as [s ->]. destruct s; reflexivity. }
  destruct (v =? 0)%float eqn:Ez.
  { f_equal. apply Prim2SF_inj. rewrite mul_spec.
    destruct (eqb_zero_spec v Ez) as [s ->]. destruct s; reflexivity. }
  fold (pow_base v).
  destruct (pow_base v =? 1)%float eqn:E1.
  { f_equal. rewrite <- pow_base_square, (eqb_one_spec _ E1). reflexivity. }
  rewrite Hp. destruct (is_infinity (v * v)) eqn:Eo; [|reflexivity].
  discriminate (Hi eq_refl).
Qed.

(** [float_pow(v, 2)] for a base that is not special: the result of the
    C library's [pow], which must be finite. *)
Lemma float_pow_two_libm libm_pow v :
  is_nan v = false -> is_infinity v = false ->
  (v =? 0)%float = false -> (pow_base v =? 1)%float = false ->
  float_pow_two libm_pow v
  = if is_infinity (libm_pow (pow_base v) 2%float) then Raise OverflowError
    else Ok (libm_pow (pow_base v) 2%float).
Proof.
  intros En Ei Ez E1. unfold float_pow_two. rewrite En, Ei, Ez.
  fold (pow_base v). rewrite E1. reflexivity.
Qed.

Lemma bpow_1067 : bpow (-1067) = (128 * bpow (-1074))%R.
Proof.
  replace (-1067) with (7 + -1074) by lia. rewrite bpow_add, <- (bpow_IZR 7) by lia.
  reflexivity.
Qed.

Lemma SF2R_pos_forms x :
  (0 < SF2R x)%R -> exists m e, x = S754_finite false m e.
Proof.
  destruct x as [s|s| |[|] m e]; simpl; try lra; eauto.
  intros H. exfalso. pose proof (pos_value_gt_0 m e) as Hp.
  rewrite <- Pos2Z.opp_pos, opp_IZR in H. lra.
Qed.

Lemma float_div_100_above f :
  height_above_underflow (PyFloat f) -> SFpos (Prim2SF (f / 100)).
Proof.
  cbn [height_above_underflow]. rewrite div_spec. unfold SF64div.
  change (Prim2SF 100) with (S754_finite false 7036874417766400 (-46)).
  intros [->|Hv]; [exact I|].
  pose proof (bpow_gt_0 (-1074)) as H0. rewrite bpow_1067 in Hv.
  destruct (SF2R_pos_forms (Prim2SF f) ltac:(lra)) as (m & e & Ef).
  pose proof (rounds_div (Prim2SF f) (S754_finite false 7036874417766400 (-46))) as R.
  rewrite Ef in R. specialize (R eq_refl I). rewrite Ef in Hv. rewrite Ef.
  assert (E100 : SF2R (S754_finite false 7036874417766400 (-46)) = 100%R).
  { cbn [SF2R cond_Zopp]. change 7036874417766400 with (100 * 2 ^ 46).
    rewrite mult_IZR, (bpow_IZR 46) by lia. rewrite Rmult_assoc, <- bpow_add.
    change (46 + -46) with 0. rewrite bpow_0. ring. }
  rewrite E100 in R.
  set (x := SF2R (S754_finite false m e)) in *.
  assert (Hb : (bpow (-1074) <= x / 100)%R) by lra.
  destruct R as [[E _]|[[_ (rho & S & P)]|[E _]]]; try lra.
  pose proof (rnd_spec_pos _ _ S Hb) as Hrho.
  destruct P as [[E0 _]|[[_ ->]|(p & e' & -> & _)]]; try lra; exact I.
Qed.

Lemma height_div_100_pos h hm :
  height_above_underflow h ->
  num_truediv h (PyInt 100) = Ok (PyFloat hm) -> SFpos (Prim2SF hm).
Proof.
  destruct h as [z|f]; intros Hh H.
  - cbn [height_above_underflow] in Hh. unfold num_truediv in H.
    destruct (int_true_divide z 100) as [q|] eqn:Hq; [|discriminate].
    injection H as <-. exact (int_div_100_pos z q Hh Hq).
  - pose proof (float_div_100_above f Hh) as Hp.
    rewrite (num_truediv_float_l f (PyInt 100) 100%float eq_refl eq_refl) in H.
    injection H as <-. exact Hp.
Qed.

Lemma walking_calories_no_zd_height libm_pow a d w h :
  num_pos d -> height_above_underflow h ->
  no_zero_division (get_spent_calories libm_pow (SportsWalking a d w h)).
Proof.
  intros Hp Hh. unfold get_spent_calories.
  apply bind_no_zd; [apply num_mul_no_zd|intros l _].
  apply bind_no_zd; [apply get_mean_speed_no_zd; exact Hp|intros speed _].
  apply bind_no_zd; [apply num_mul_no_zd|intros v _].
  apply bind_no_zd; [apply num_pow_two_no_zd|intros v2 _].
  apply bind_no_zd.
  { apply num_truediv_no_zd. reflexivity. }
  intros hm Hhm. unfold SportsWalkingConst.CM_IN_M in Hhm.
  assert (Hq : exists q, hm = PyFloat q).
  { destruct h as [z|f].
    - unfold num_truediv in Hhm.
      destruct (int_true_divide z 100) as [q|]; [|discriminate].
      injection Hhm as <-. eauto.
    - rewrite (num_truediv_float_l f (PyInt 100) 100%float eq_refl eq_refl) in Hhm.
      injection Hhm as <-. eauto. }
  destruct Hq as [q ->].
  apply bind_no_zd;
    [apply num_truediv_SFpos_no_zd, (height_div_100_pos h q Hh Hhm)|intros r _].
  apply bind_no_zd; [apply num_mul_no_zd|intros r1 _].
  apply bind_no_zd; [apply num_mul_no_zd|intros r2 _].
  apply bind_no_zd; [apply num_add_no_zd|intros r3 _].
  apply bind_no_zd; [apply num_mul_no_zd|intros r4 _].
  apply num_mul_no_zd.
Qed.

Lemma walking_calories_pow_overflow libm_pow a d w h fa fd fw :
  num_pos d -> to_float a = Ok fa -> to_float d = Ok fd -> to_float w = Ok fw ->
  float_pow_two libm_pow (fa * 0.65 / 1000 / fd * 0.278) = Raise OverflowError ->
  get_spent_calories libm_pow (SportsWalking a d w h) = Raise OverflowError.
Proof.
  intros Hp Ha Hd Hw Hv. unfold get_spent_calories.
  unfold SportsWalkingConst.CALORIES_WEIGHT_MULTIPLIER_1,
    SportsWalkingConst.KM_PER_H_IN_M_PER_S.
  rewrite (num_mul_float_l _ _ _ Hw). cbn [bind].
  rewrite (base_mean_speed_value (SportsWalking a d w h) fa fd eq_refl Ha Hd Hp).
  cbn [bind].
  rewrite (num_mul_float_l _ (PyFloat 0.278) 0.278 eq_refl). cbn [bind num_pow_two].
  rewrite Hv. reflexivity.
Qed.

(** A float height whose hundredth rounds to zero: the division by it
    raises. *)
Lemma walking_calories_underflow libm_pow a d w f fa fd fw v2 :
  num_pos d -> to_float a = Ok fa -> to_float d = Ok fd -> to_float w = Ok fw ->
  float_pow_two libm_pow (fa * 0.65 / 1000 / fd * 0.278) = Ok v2 ->
  (f / 100 =? 0)%float = true ->
  get_spent_calories libm_pow (SportsWalking a d w (PyFloat f))
  = Raise ZeroDivisionError.
Proof.
  intros Hp Ha Hd Hw Hv Hz. unfold get_spent_calories.
  unfold SportsWalkingConst.CALORIES_WEIGHT_MULTIPLIER_1,
    SportsWalkingConst.KM_PER_H_IN_M_PER_S, SportsWalkingConst.CM_IN_M.
  rewrite (num_mul_float_l _ _ _ Hw). cbn [bind].
  rewrite (base_mean_speed_value (SportsWalking a d w (PyFloat f)) fa fd eq_refl Ha Hd Hp).
  cbn [bind].
  rewrite (num_mul_float_l _ (PyFloat 0.278) 0.278 eq_refl). cbn [bind num_pow_two].
  rewrite Hv. cbn [bind].
  rewrite (num_truediv_float_l f (PyInt 100) 100%float eq_refl eq_refl). cbn [bind].
  unfold num_truediv. cbn [to_float bind]. rewrite Hz. reflexivity.
Qed.

(** C4, as stated, fails: the height [0x1p-1074] (5e-324) is positive,
    its hundredth rounds to [0.0], and the computation for
    [SportsWalking(9000, 1, 75, 5e-324)] raises [ZeroDivisionError]
    instead of returning the value of the formula. *)
Lemma walking_height_underflow : ~ walking_formula_for_every_positive_height.
Proof.
  intros H.
  specialize (H pow_rn (PyInt 9000) (PyInt 1) (PyInt 75) (PyFloat 0x1p-1074)
                9000%float 1%float 75%float 0x1p-1074%float _
                eq_refl eq_refl eq_refl eq_refl eq_refl eq_refl eq_refl).
  rewrite (walking_calories_underflow pow_rn (PyInt 9000) (PyInt 1) (PyInt 75)
             0x1p-1074 9000 1 75 _ eq_refl eq_refl eq_refl eq_refl eq_refl eq_refl)
    in H.
  discriminate H.
Qed.

(** C4, amended.  For a [SportsWalking] instance with a positive duration,
    [get_spent_calories] is the evaluation of
    [(0.035 * weight + (mean_speed * 0.278) ** 2 / (height / 100) * 0.029 * weight) * duration * 60],
    where the mean speed is the one of the base class,
    [action * 0.65 / 1000 / duration].  When the hundredth of the height
    is not zero in binary64 (every positive int, every float that is at
    least [2 ^ -1067]) the computation never raises [ZeroDivisionError],
    and its value is the formula in which the square of
    [v = mean_speed * 0.278] is what the C library's [pow] returns for the
    base [|v|] and the exponent [2]: the float product [v * v] when [pow]
    is correctly rounded there, [OverflowError] when [pow] overflows.  For
    a float height whose hundredth rounds to zero the computation raises
    [ZeroDivisionError]. *)
Theorem walking_spent_calories :
  forall libm_pow a d w h, num_pos d ->
    get_spent_calories libm_pow (SportsWalking a d w h)
      = (l <- num_mul (PyFloat 0.035) w ;;
         speed <- get_mean_speed (SportsWalking a d w h) ;;
         v <- num_mul speed (PyFloat 0.278) ;;
         v2 <- num_pow_two libm_pow v ;;
         hm <- num_truediv h (PyInt 100) ;;
         r <- num_truediv v2 hm ;;
         r <- num_mul r (PyFloat 0.029) ;;
         r <- num_mul r w ;;
         x <- num_add l r ;;
         x <- num_mul x d ;;
         num_mul x (PyInt 60))
    /\ get_mean_speed (SportsWalking a d w h)
      = (x <- num_mul a (PyFloat 0.65) ;;
         dist <- num_truediv x (PyInt 1000) ;;
         num_truediv dist d)
    /\ (height_above_underflow h ->
        no_zero_division (get_spent_calories libm_pow (SportsWalking a d w h)))
    /\ (forall fa fd fw hm v,
         height_above_underflow h ->
         to_float a = Ok fa -> to_float d = Ok fd -> to_float w = Ok fw ->
         num_truediv h (PyInt 100) = Ok (PyFloat hm) ->
         v = (fa * 0.65 / 1000 / fd * 0.278)%float ->
         libm_pow (pow_base v) 2%float = (v * v)%float ->
         (is_infinity (v * v) = true -> is_infinity v = true) ->
         get_spent_calories libm_pow (SportsWalking a d w h)
         = Ok (PyFloat ((0.035 * fw + v * v / hm * 0.029 * fw) * fd * 60)))
    /\ (forall fa fd fw hm v,
         height_above_underflow h ->
         to_float a = Ok fa -> to_float d = Ok fd -> to_float w = Ok fw ->
         num_truediv h (PyInt 100) = Ok (PyFloat hm) ->
         v = (fa * 0.65 / 1000 / fd * 0.278)%float ->
         is_nan v = false -> is_infinity v = false ->
         (v =? 0)%float = false -> (pow_base v =? 1)%float = false ->
         get_spent_calories libm_pow (SportsWalking a d w h)
         = if is_infinity (libm_pow (pow_base v) 2%float) then Raise OverflowError
           else Ok (PyFloat ((0.035 * fw + libm_pow (pow_base v) 2%float / hm
                                           * 0.029 * fw) * fd * 60)))
    /\ (forall f fa fd fw v2,
         h = PyFloat f ->
         to_float a = Ok fa -> to_float d = Ok fd -> to_float w = Ok fw ->
         float_pow_two libm_pow (fa * 0.65 / 1000 / fd * 0.278) = Ok v2 ->
         (f / 100 =? 0)%float = true ->
         get_spent_calories libm_pow (SportsWalking a d w h)
         = Raise ZeroDivisionError).
Proof.
  intros libm_pow a d w h Hd. split; [reflexivity|].
  split; [|split; [|split; [|split]]].
  - unfold get_mean_speed, get_distance. cbn [action LEN_STEP duration M_IN_KM].
    destruct (num_mul a (PyFloat 0.65)); reflexivity.
  - intros Hh. apply walking_calories_no_zd_height; assumption.
  - intros fa fd fw hm v Hh Ha Hfd Hw Hm -> Hp Hi.
    apply (walking_calories_value libm_pow a d w h fa fd fw _ hm); try assumption.
    + apply float_pow_two_square; assumption.
    + apply SFpos_eqb_zero. exact (height_div_100_pos h hm Hh Hm).
  - intros fa fd fw hm v Hh Ha Hfd Hw Hm -> En Ei Ez E1.
    pose proof (float_pow_two_libm libm_pow _ En Ei Ez E1) as Hv.
    destruct (is_infinity (libm_pow _ 2%float)).
    + apply (walking_calories_pow_overflow libm_pow a d w h fa fd fw); assumption.
    + apply (walking_calories_value libm_pow a d w h fa fd fw _ hm); try assumption.
      apply SFpos_eqb_zero. exact (height_div_100_pos h hm Hh Hm).
  - intros f fa fd fw v2 -> Ha Hfd Hw Hv Hz.
    apply (walking_calories_underflow libm_pow a d w f fa fd fw v2); assumption.
Qed.

Lemma walking_spent_calories_witness :
  get_spent_calories pow_rn
    (SportsWalking (PyInt 9000) (PyInt 1) (PyInt 75) (PyInt 180))
  = Ok (PyFloat ((0.035 * 75 + (5.85 * 0.278) * (5.85 * 0.278) / 1.8 * 0.029 * 75)
                 * 1 * 60)).
Proof.
  destruct (walking_spent_calories pow_rn (PyInt 9000) (PyInt 1) (PyInt 75) (PyInt 180)
              eq_refl) as (_ & _ & _ & H & _).
  apply (H 9000%float 1%float 75%float 1.8%float (5.85 * 0.278)%float);
    try reflexivity.
  intros Hi. vm_compute in Hi. discriminate Hi.
Defined.

(** C5.  For a [Swimming] instance with a positive duration,
    [get_spent_calories] is [(mean_speed + 1.1) * 2 * weight * duration];
    it never raises [ZeroDivisionError].  For the package
    [("SWM", [720, 1, 80, 25, 40])] the mean speed is [1.0] and the
    calories are [336.0]. *)
Theorem swimming_spent_calories :
  (forall libm_pow a d w L n, num_pos d ->
     get_spent_calories libm_pow (Swimming a d w L n)
       = (speed <- get_mean_speed (Swimming a d w L n) ;;
          x <- num_add speed (PyFloat 1.1) ;;
          x <- num_mul x (PyInt 2) ;;
          x <- num_mul x w ;;
          num_mul x d)
     /\ no_zero_division (get_spent_calories libm_pow (Swimming a d w L n))
     /\ forall v fd fw,
          get_mean_speed (Swimming a d w L n) = Ok (PyFloat v) ->
          to_float d = Ok fd -> to_float w = Ok fw ->
          get_spent_calories libm_pow (Swimming a d w L n)
          = Ok (PyFloat ((v + 1.1) * 2 * fw * fd)))
  /\ (forall libm_pow, exists t,
        read_package "SWM" [PyInt 720; PyInt 1; PyInt 80; PyInt 25; PyInt 40] = Ok t
        /\ get_mean_speed t = Ok (PyFloat 1)
        /\ get_spent_calories libm_pow t = Ok (PyFloat 336)).
Proof.
  split.
  - intros libm_pow a d w L n Hp. split; [reflexivity|]. split.
    + apply swimming_calories_no_zd; assumption.
    + intros v fd fw Hv Hd Hw. apply swimming_calories_value; assumption.
  - intros libm_pow.
    exists (Swimming (PyInt 720) (PyInt 1) (PyInt 80) (PyInt 25) (PyInt 40)).
    repeat split; reflexivity.
Qed.

Lemma swimming_spent_calories_witness :
  get_spent_calories pow_rn
    (Swimming (PyInt 230) (PyFloat 0.5) (PyFloat 70.5) (PyInt 50) (PyInt 38))
  = Ok (PyFloat ((3.8 + 1.1) * 2 * 70.5 * 0.5)).
Proof.
  pose proof (proj1 swimming_spent_calories) as H.
  destruct (H pow_rn (PyInt 230) (PyFloat 0.5) (PyFloat 70.5) (PyInt 50) (PyInt 38) eq_refl)
    as (_ & _ & Hv).
  apply (Hv 3.8%float 0.5%float 70.5%float); reflexivity.
Defined.

(** ** The validator *)


Lemma Z_compare_SF_finite z x :
  SFfinite x = true ->
  exists c, Z_compare_SF z x = Some c /\ Rcmp c (IZR z) (SF2R x).
Proof.
  destruct x as [s|s| |s m e]; try discriminate; intros _.
  - exists (z ?= 0). split; [reflexivity|]. apply (Zcompare_Rcmp z 0).
  - eexists. split; [reflexivity|]. apply Z_compare_SF_spec. reflexivity.
Qed.

Lemma Z_lt_float_spec z f :
  Z_lt_float z f = true <->
  Prim2SF f = S754_infinity false
  \/ (SFfinite (Prim2SF f) = true /\ (IZR z < SF2R (Prim2SF f))%R).
Proof.
  unfold Z_lt_float.
  destruct (SFfinite (Prim2SF f)) eqn:F.
  - destruct (Z_compare_SF_finite z _ F) as (c & -> & Hc).
    split.
    + destruct c; try discriminate. intros _. right. auto.
    + intros [H|[_ H]]; [rewrite H in F; discriminate|].
      destruct c; simpl in Hc; try reflexivity; exfalso; lra.
  - destruct (Prim2SF f) as [s|[|]| |s m e]; try discriminate; simpl;
      split; auto; try discriminate; intros [H|[H _]]; discriminate.
Qed.

Lemma float_lt_Z_spec f z :
  float_lt_Z f z = true <->
  Prim2SF f = S754_infinity true
  \/ (SFfinite (Prim2SF f) = true /\ (SF2R (Prim2SF f) < IZR z)%R).
Proof.
  unfold float_lt_Z.
  destruct (SFfinite (Prim2SF f)) eqn:F.
  - destruct (Z_compare_SF_finite z _ F) as (c & -> & Hc).
    split.
    + destruct c; try discriminate. intros _. right. auto.
    + intros [H|[_ H]]; [rewrite H in F; discriminate|].
      destruct c; simpl in Hc; try reflexivity; exfalso; lra.
  - destruct (Prim2SF f) as [s|[|]| |s m e]; try discriminate; simpl;
      split; auto; try discriminate; intros [H|[H _]]; discriminate.
Qed.

Lemma chain_lt_spec lo hi x :
  chain_lt (PyInt lo) x (PyInt hi) = true <-> in_open_interval lo hi x.
Proof.
  unfold chain_lt. rewrite andb_true_iff.
  destruct x as [z|f]; simpl.
  - rewrite !Z.ltb_lt. reflexivity.
  - rewrite Z_lt_float_spec, float_lt_Z_spec. split.
    + intros [[H1|[F1 H1]] [H2|[F2 H2]]]; try congruence.
      * rewrite H1 in F2. discriminate.
      * rewrite H2 in F1. discriminate.
      * auto.
    + intros [F [H1 H2]]. auto.
Qed.

Ltac msg_neq := let H := fresh in intro H; vm_compute in H; discriminate H.

Lemma contains_workouts code :
  contains code workouts = true <->
  code = "SWM" \/ code = "RUN" \/ code = "WLK".
Proof.
  unfold contains, workouts, lookup.
  destruct (String.eqb_spec code "SWM"); [tauto|].
  destruct (String.eqb_spec code "RUN"); [tauto|].
  destruct (String.eqb_spec code "WLK"); [tauto|].
  split; [discriminate|tauto].
Qed.

Lemma index_nth data i x : nth_error data i = Some x -> index data i = Ok x.
Proof. unfold index. intros ->. reflexivity. Qed.

Lemma index_short data i : (List.length data <= i)%nat -> index data i = Raise IndexError.
Proof.
  unfold index. intros H. apply nth_error_None in H. rewrite H. reflexivity.
Qed.

Lemma arity_cases code n :
  arity code = Some n ->
  (code = "SWM" /\ n = 5%nat) \/ (code = "RUN" /\ n = 3%nat) \/ (code = "WLK" /\ n = 4%nat).
Proof.
  unfold arity.
  destruct (String.eqb_spec code "SWM"); [intros [= <-]; auto|].
  destruct (String.eqb_spec code "RUN"); [intros [= <-]; auto|].
  destruct (String.eqb_spec code "WLK"); [intros [= <-]; auto|].
  discriminate.
Qed.

Lemma check_data_wrong_arity code n data :
  arity code = Some n -> List.length data <> n ->
  check_data code data = Ok (Some MSG_ARGS).
Proof.
  intros Ha Hl. apply Nat.eqb_neq in Hl.
  destruct (arity_cases code n Ha) as [[-> ->]|[[-> ->]|[-> ->]]];
    unfold check_data; cbn [String.eqb Ascii.eqb Bool.eqb andb]; rewrite Hl; reflexivity.
Qed.

Lemma check_data_weight_ok code n data w :
  arity code = Some n -> List.length data = n -> nth_error data 2 = Some w ->
  chain_lt (PyInt 35) w (PyInt 610) = true ->
  check_data code data = Ok None
  \/ check_data code data = Ok (Some MSG_POOL)
  \/ check_data code data = Ok (Some MSG_HEIGHT).
Proof.
  intros Ha Hl Hn Hw.
  destruct (arity_cases code n Ha) as [[-> ->]|[[-> ->]|[-> ->]]].
  - destruct data as [|a [|b [|c [|d [|e [|]]]]]]; try discriminate.
    injection Hn as ->. unfold check_data.
    cbn [String.eqb Ascii.eqb Bool.eqb andb List.length Nat.eqb negb index nth_error bind and_then].
    rewrite Hw. cbn [negb].
    destruct (chain_lt (PyInt 1) d (PyInt 1013)); cbn [negb]; auto.
  - destruct data as [|a [|b [|c [|]]]]; try discriminate.
    injection Hn as ->. unfold check_data.
    cbn [String.eqb Ascii.eqb Bool.eqb andb List.length Nat.eqb negb index nth_error bind and_then].
    rewrite Hw. cbn [negb]. auto.
  - destruct data as [|a [|b [|c [|d [|]]]]]; try discriminate.
    injection Hn as ->. unfold check_data.
    cbn [String.eqb Ascii.eqb Bool.eqb andb List.length Nat.eqb negb index nth_error bind and_then].
    rewrite Hw. cbn [negb].
    destruct (chain_lt (PyInt 50) d (PyInt 251)); cbn [negb]; auto.
Qed.

Lemma check_data_weight_bad code n data w :
  arity code = Some n -> List.length data = n -> nth_error data 2 = Some w ->
  chain_lt (PyInt 35) w (PyInt 610) = false ->
  check_data code data = Ok (Some MSG_WEIGHT).
Proof.
  intros Ha Hl Hn Hw. apply Nat.eqb_eq in Hl.
  destruct (arity_cases code n Ha) as [[-> ->]|[[-> ->]|[-> ->]]];
    unfold check_data; cbn [String.eqb Ascii.eqb Bool.eqb andb]; rewrite Hl;
    cbn [negb]; rewrite (index_nth _ _ _ Hn); cbn [bind]; rewrite Hw; reflexivity.
Qed.




(** C7.  For a known code with the right number of arguments, [check_data]
    returns the weight message exactly when [data[2]] is not strictly
    between 35 and 610; 35 and 610 are rejected, 35.01 and 609.99 are
    accepted. *)
Theorem check_data_weight :
  (forall code n data w,
     arity code = Some n -> List.length data = n -> nth_error data 2 = Some w ->
     (check_data code data = Ok (Some MSG_WEIGHT) <-> ~ in_open_interval 35 610 w))
  /\ (forall a d,
        check_data "RUN" [a; d; PyInt 35] = Ok (Some MSG_WEIGHT)
        /\ check_data "RUN" [a; d; PyInt 610] = Ok (Some MSG_WEIGHT)
        /\ check_data "RUN" [a; d; PyFloat 35] = Ok (Some MSG_WEIGHT)
        /\ check_data "RUN" [a; d; PyFloat 610] = Ok (Some MSG_WEIGHT)
        /\ check_data "RUN" [a; d; PyFloat 35.01] = Ok None
        /\ check_data "RUN" [a; d; PyFloat 609.99] = Ok None).
Proof.
  split.
  - intros code n data w Ha Hl Hn. rewrite <- chain_lt_spec. split.
    + intros H Hw.
      destruct (check_data_weight_ok code n data w Ha Hl Hn Hw) as [E|[E|E]];
        rewrite E in H; try discriminate; injection H as H; revert H; msg_neq.
    + intros H. apply (check_data_weight_bad code n data w Ha Hl Hn).
      destruct (chain_lt (PyInt 35) w (PyInt 610)); [contradiction H; reflexivity|reflexivity].
  - intros a d. repeat split; reflexivity.
Qed.

Lemma check_data_weight_witness :
  check_data "WLK" [PyInt 9000; PyInt 1; PyInt 655; PyInt 180] = Ok (Some MSG_WEIGHT).
Proof.
  apply (proj1 check_data_weight "WLK" 4%nat
           [PyInt 9000; PyInt 1; PyInt 655; PyInt 180] (PyInt 655)
           eq_refl eq_refl eq_refl).
  simpl. lia.
Defined.

(** C8.  For an unknown code the weight check on [data[2]] comes before
    the unknown-code check: with fewer than three arguments [check_data]
    raises [IndexError]; with a third argument it returns the weight
    message when that argument is out of range and the unknown-code
    message only otherwise. *)
Theorem check_data_unknown_code :
  forall code data, contains code workouts = false ->
    ((List.length data < 3)%nat -> check_data code data = Raise IndexError)
    /\ (forall w, nth_error data 2 = Some w ->
          check_data code data
          = Ok (Some (if chain_lt (PyInt 35) w (PyInt 610) then MSG_CODE else MSG_WEIGHT))).
Proof.
  intros code data Hc.
  assert (H1 : (code =? "SWM")%string = false).
  { apply String.eqb_neq. intros ->. discriminate. }
  assert (H2 : (code =? "RUN")%string = false).
  { apply String.eqb_neq. intros ->. discriminate. }
  assert (H3 : (code =? "WLK")%string = false).
  { apply String.eqb_neq. intros ->. discriminate. }
  unfold check_data. rewrite H1, H2, H3, Hc. cbn [andb and_then negb bind].
  split.
  - intros Hl. rewrite index_short by lia. reflexivity.
  - intros w Hw. rewrite (index_nth _ _ _ Hw). cbn [bind].
    destruct (chain_lt (PyInt 35) w (PyInt 610)); reflexivity.
Qed.

Lemma check_data_unknown_code_witness :
  check_data "PLT" [PyInt 12000; PyInt 1] = Raise IndexError
  /\ check_data "PLT" [PyInt 12000; PyInt 1; PyInt 60] = Ok (Some MSG_CODE)
  /\ check_data "PLT" [PyInt 12000; PyInt 1; PyInt 20] = Ok (Some MSG_WEIGHT).
Proof.
  split; [|split].
  - apply (check_data_unknown_code "PLT" _ eq_refl). simpl. lia.
  - apply (proj2 (check_data_unknown_code "PLT" _ eq_refl) (PyInt 60)). reflexivity.
  - apply (proj2 (check_data_unknown_code "PLT" _ eq_refl) (PyInt 20)). reflexivity.
Defined.

(** ** The info message *)

Lemma round_half_even_div_spec N D :
  0 < D ->
  2 * Z.abs (N - round_half_even_div N D * D) <= D
  /\ (2 * Z.abs (N - round_half_even_div N D * D) = D ->
      Z.even (round_half_even_div N D) = true)
  /\ (0 <= N -> 0 <= round_half_even_div N D).
Proof.
  intros HD. unfold round_half_even_div.
  pose proof (Z.div_mod N D ltac:(lia)) as Hdm.
  pose proof (Z.mod_pos_bound N D HD) as Hr.
  assert (Hq : 0 <= N -> 0 <= N / D) by (intros; apply Z.div_pos; lia).
  set (q := N / D) in *. set (r := N mod D) in *.
  destruct (Z.compare_spec (2 * r) D) as [He|Hl|Hg].
  - destruct (Z.even q) eqn:Ev.
    + repeat split; [nia|auto|auto].
    + repeat split; [nia| |lia].
      intros _. replace (q + 1) with (Z.succ q) by lia.
      rewrite Z.even_succ, <- Z.negb_even, Ev. reflexivity.
  - repeat split; [nia|nia|auto].
  - repeat split; [nia|nia|lia].
Qed.

Lemma thousandths_spec m e :
  0 <= thousandths m e
  /\ (IZR (thousandths m e) - / 2 <= 1000 * (IZR (Zpos m) * bpow e)
      <= IZR (thousandths m e) + / 2)%R.
Proof.
  unfold thousandths. destruct (Z.leb_spec 0 e) as [He|He].
  - assert (0 < 2 ^ e) by (apply Z.pow_pos_nonneg; lia).
    split; [nia|]. rewrite !mult_IZR, bpow_IZR by assumption. lra.
  - assert (HD : 0 < 2 ^ (- e)) by (apply Z.pow_pos_nonneg; lia).
    destruct (round_half_even_div_spec (Zpos m * 1000) (2 ^ (- e)) HD) as (H1 & _ & H3).
    split; [apply H3; lia|].
    set (n := round_half_even_div (Zpos m * 1000) (2 ^ (- e))) in *.
    set (D := 2 ^ (- e)) in *.
    assert (HDr : (0 < IZR D)%R) by (apply IZR_lt; assumption).
    assert (Hb : bpow e = (/ IZR D)%R).
    { unfold D. rewrite bpow_IZR by lia.
      replace e with (- - e) at 1 by ring. unfold bpow. apply powerRZ_neg'. }
    rewrite Hb.
    assert (Habs : (2 * Rabs (IZR (Zpos m * 1000) - IZR n * IZR D) <= IZR D)%R).
    { rewrite <- mult_IZR, <- minus_IZR, <- abs_IZR.
      change 2%R with (IZR 2). rewrite <- mult_IZR. apply IZR_le. exact H1. }
    rewrite mult_IZR in Habs.
    set (x := IZR (Zpos m)) in *. set (y := IZR n) in *.
    assert (Hx : (1000 * (x * / IZR D) = y + (x * 1000 - y * IZR D) / IZR D)%R)
      by (field; lra).
    rewrite Hx.
    assert (Hq : (Rabs ((x * 1000 - y * IZR D) / IZR D) <= / 2)%R).
    { unfold Rdiv. rewrite Rabs_mult, (Rabs_right (/ IZR D)).
      - apply Rmult_le_reg_r with (IZR D); [assumption|].
        rewrite Rmult_assoc, Rinv_l by lra. lra.
      - left. apply Rinv_0_lt_compat. assumption. }
    unfold Rabs in Hq. destruct (Rcase_abs _) in Hq; lra.
Qed.

Lemma fixed3_digits n :
  0 <= n ->
  exists k a b c,
    0 <= k /\ 0 <= a <= 9 /\ 0 <= b <= 9 /\ 0 <= c <= 9
    /\ n = 1000 * k + 100 * a + 10 * b + c
    /\ fixed3 n
       = string_of_nonneg k ++ "."
           ++ String (digit_char a) (String (digit_char b) (String (digit_char c) "")).
Proof.
  intros Hn.
  exists (n / 1000), ((n / 100) mod 10), ((n / 10) mod 10), (n mod 10).
  repeat split; try reflexivity; Z.div_mod_to_equations; lia.
Qed.

Lemma digit_char_decimal a :
  0 <= a <= 9 -> In (digit_char a) (list_ascii_of_string "0123456789").
Proof.
  intros H.
  assert (a = 0 \/ a = 1 \/ a = 2 \/ a = 3 \/ a = 4 \/ a = 5 \/ a = 6 \/ a = 7
          \/ a = 8 \/ a = 9) as E by lia.
  repeat (destruct E as [->|E]; [simpl; auto 12|]). subst. simpl; auto 12.
Qed.

Lemma thousandths_tie m e :
  (Rabs (1000 * (IZR (Zpos m) * bpow e) - IZR (thousandths m e)) = / 2)%R ->
  Z.even (thousandths m e) = true.
Proof.
  unfold thousandths. destruct (Z.leb_spec 0 e) as [He|He]; intros H.
  - exfalso. rewrite !mult_IZR, bpow_IZR in H by assumption.
    replace (1000 * (IZR (Zpos m) * bpow e) - IZR (Zpos m) * bpow e * 1000)%R
      with 0%R in H by ring.
    rewrite Rabs_R0 in H. lra.
  - assert (HD : 0 < 2 ^ (- e)) by (apply Z.pow_pos_nonneg; lia).
    destruct (round_half_even_div_spec (Zpos m * 1000) (2 ^ (- e)) HD) as (_ & H2 & _).
    apply H2. clear H2.
    set (n := round_half_even_div (Zpos m * 1000) (2 ^ (- e))) in *.
    set (D := 2 ^ (- e)) in *.
    assert (HDr : (0 < IZR D)%R) by (apply IZR_lt; assumption).
    assert (Hb : bpow e = (/ IZR D)%R).
    { unfold D. rewrite bpow_IZR by lia.
      replace e with (- - e) at 1 by ring. unfold bpow. apply powerRZ_neg'. }
    rewrite Hb in H.
    assert (Hx : (1000 * (IZR (Zpos m) * / IZR D) - IZR n
                  = IZR (Zpos m * 1000 - n * D) / IZR D)%R).
    { rewrite minus_IZR, !mult_IZR. field. lra. }
    rewrite Hx in H. clear Hx.
    set (y := Zpos m * 1000 - n * D) in *.
    assert (Hy : (2 * Rabs (IZR y) = IZR D)%R).
    { unfold Rdiv in H. rewrite Rabs_mult, (Rabs_right (/ IZR D)) in H.
      - apply (f_equal (fun t => (2 * (t * IZR D))%R)) in H.
        rewrite Rmult_assoc, Rinv_l, Rmult_1_r in H by lra. lra.
      - left. apply Rinv_0_lt_compat. assumption. }
    rewrite <- abs_IZR in Hy. change 2%R with (IZR 2) in Hy.
    rewrite <- mult_IZR in Hy. apply eq_IZR in Hy. exact Hy.
Qed.

Lemma digit_char_nth a :
  0 <= a <= 9 ->
  digit_char a = nth (Z.to_nat a) (list_ascii_of_string "0123456789") "0"%char.
Proof.
  intros H.
  assert (a = 0 \/ a = 1 \/ a = 2 \/ a = 3 \/ a = 4 \/ a = 5 \/ a = 6 \/ a = 7
          \/ a = 8 \/ a = 9) as E by lia.
  repeat (destruct E as [->|E]; [reflexivity|]). subst. reflexivity.
Qed.

(** Reading the integer part back gives the number. *)
Lemma string_of_nonneg_reads_back k :
  0 <= k ->
  option_map (fun u => Z.of_N (N.of_uint u))
             (NilZero.uint_of_string (string_of_nonneg k)) = Some k.
Proof.
  intros Hk. unfold string_of_nonneg.
  pose proof (DecimalN.Unsigned.of_to (Z.to_N k)) as Hn.
  destruct (N.to_uint (Z.to_N k)) as [|u|u|u|u|u|u|u|u|u|u] eqn:E;
    [simpl in Hn|rewrite NilZero.usu by discriminate; cbn [option_map];
                  rewrite Hn, Z2N.id by assumption; reflexivity ..].
  cbn. rewrite <- (Z2N.id k) by assumption. rewrite <- Hn. reflexivity.
Qed.

(** C9, as stated, fails: the line that [get_message] produces for the
    running record is not the line of the English template. *)
Lemma get_message_not_english :
  InfoMessage.get_message run_record <> spec_get_message run_record.
Proof. intro H. vm_compute in H. discriminate H. Qed.

(** C9, amended.  [get_message] produces the fixed line
    ["Тип тренировки: {training_type}; Длительность: {duration:.3f} ч.; Дистанция: {distance:.3f} км; Ср. скорость: {speed:.3f} км/ч; Потрачено ккал: {calories:.3f}."]
    from the renderings of its four numeric fields.  A finite non-zero
    float is rendered as a sign, the decimal numeral of an integer part
    [k], a point and the three decimal digits [a], [b], [c] (each between
    0 and 9), where [1000 * k + 100 * a + 10 * b + c] is the number of
    thousandths nearest to the exact value, the even one when the value
    is half way between two; a zero is rendered [0.000]; an infinity and a
    NaN are rendered [inf] and [nan]; an int is rendered as its float. *)
Theorem get_message_template :
  (forall self sd sx ss sc,
     format_3f (InfoMessage.duration self) = Ok sd ->
     format_3f (InfoMessage.distance self) = Ok sx ->
     format_3f (InfoMessage.speed self) = Ok ss ->
     format_3f (InfoMessage.calories self) = Ok sc ->
     InfoMessage.get_message self
     = Ok ("Тип тренировки: " ++ InfoMessage.training_type self
           ++ "; Длительность: " ++ sd ++ " ч.; Дистанция: " ++ sx
           ++ " км; Ср. скорость: " ++ ss ++ " км/ч; Потрачено ккал: " ++ sc ++ "."))
  /\ (forall f s m e,
        Prim2SF f = S754_finite s m e ->
        exists k a b c,
          0 <= k /\ 0 <= a <= 9 /\ 0 <= b <= 9 /\ 0 <= c <= 9
          /\ format_3f (PyFloat f)
             = Ok (sign_string s ++ string_of_nonneg k ++ "."
                   ++ String (digit_char a) (String (digit_char b)
                        (String (digit_char c) "")))
          /\ option_map (fun u => Z.of_N (N.of_uint u))
                        (NilZero.uint_of_string (string_of_nonneg k)) = Some k
          /\ map digit_char [a; b; c]
             = map (fun d => nth (Z.to_nat d)
                               (list_ascii_of_string "0123456789") "0"%char)
                   [a; b; c]
          /\ (IZR (1000 * k + 100 * a + 10 * b + c) - / 2
              <= 1000 * (IZR (Zpos m) * bpow e)
              <= IZR (1000 * k + 100 * a + 10 * b + c) + / 2)%R
          /\ ((Rabs (1000 * (IZR (Zpos m) * bpow e)
                     - IZR (1000 * k + 100 * a + 10 * b + c)) = / 2)%R ->
              Z.even (1000 * k + 100 * a + 10 * b + c) = true))
  /\ (forall f s, Prim2SF f = S754_zero s ->
        format_3f (PyFloat f) = Ok (sign_string s ++ "0.000"))
  /\ (forall f s, Prim2SF f = S754_infinity s ->
        format_3f (PyFloat f) = Ok (sign_string s ++ "inf"))
  /\ (forall f, Prim2SF f = S754_nan -> format_3f (PyFloat f) = Ok "nan")
  /\ (forall z f, to_float (PyInt z) = Ok f ->
        format_3f (PyInt z) = format_3f (PyFloat f))
  /\ InfoMessage.get_message run_record
     = Ok "Тип тренировки: Running; Длительность: 1.000 ч.; Дистанция: 9.750 км; Ср. скорость: 9.750 км/ч; Потрачено ккал: 797.805.".
Proof.
  split; [|split; [|split; [|split; [|split; [|split]]]]].
  - intros self sd sx ss sc Hd Hx Hs Hc. unfold InfoMessage.get_message.
    rewrite Hd, Hx, Hs, Hc. cbn [bind].
    reflexivity.
  - intros f s m e Hf.
    destruct (thousandths_spec m e) as [Hn Hr].
    pose proof (thousandths_tie m e) as Ht.
    destruct (fixed3_digits (thousandths m e) Hn)
      as (k & a & b & c & Hk & Ha & Hb & Hc & En & Ef).
    exists k, a, b, c. repeat (split; [assumption|]).
    split.
    { unfold format_3f. cbn [to_float bind]. unfold format_3f_float.
      rewrite Hf, Ef. reflexivity. }
    split; [apply string_of_nonneg_reads_back; assumption|].
    split.
    { cbn [map]. rewrite <- !digit_char_nth by assumption. reflexivity. }
    rewrite <- En. split; assumption.
  - intros f s Hf. unfold format_3f. cbn [to_float bind]. unfold format_3f_float.
    rewrite Hf. reflexivity.
  - intros f s Hf. unfold format_3f. cbn [to_float bind]. unfold format_3f_float.
    rewrite Hf. reflexivity.
  - intros f Hf. unfold format_3f. cbn [to_float bind]. unfold format_3f_float.
    rewrite Hf. reflexivity.
  - intros z f Hf. unfold format_3f. rewrite Hf. reflexivity.
  - vm_compute. reflexivity.
Qed.

Lemma get_message_template_witness :
  InfoMessage.get_message
    (InfoMessage.Build "Swimming" (PyInt 1) (PyFloat 0.9936) (PyFloat 1) (PyFloat 336))
  = Ok "Тип тренировки: Swimming; Длительность: 1.000 ч.; Дистанция: 0.994 км; Ср. скорость: 1.000 км/ч; Потрачено ккал: 336.000.".
Proof.
  apply (proj1 get_message_template
           (InfoMessage.Build "Swimming" (PyInt 1) (PyFloat 0.9936) (PyFloat 1) (PyFloat 336))
           "1.000" "0.994" "1.000" "336.000"); vm_compute; reflexivity.
Defined.

(** ** Monotonicity in the weight *)

Lemma bind_Ok {A B : Type} (m : result A) (k : A -> result B) r :
  bind m k = Ok r -> exists a, m = Ok a /\ k a = Ok r.
Proof. destruct m as [a|e]; simpl; [eauto|discriminate]. Qed.

Lemma num_mul_float_l_inv x b r :
  num_mul (PyFloat x) b = Ok r -> exists fb, to_float b = Ok fb /\ r = PyFloat (x * fb).
Proof.
  destruct b; unfold num_mul; cbn [to_float bind]; intros H.
  - destruct (float_of_int z) as [fb|] eqn:E; [|discriminate].
    injection H as <-. eauto.
  - injection H as <-. eauto.
Qed.

Lemma num_mul_float_r_inv a y r :
  num_mul a (PyFloat y) = Ok r -> exists fa, to_float a = Ok fa /\ r = PyFloat (fa * y).
Proof.
  destruct a; unfold num_mul; cbn [to_float bind]; intros H.
  - destruct (float_of_int z) as [fa|] eqn:E; [|discriminate].
    injection H as <-. eauto.
  - injection H as <-. eauto.
Qed.

Lemma num_truediv_float_l_inv x b r :
  num_truediv (PyFloat x) b = Ok r ->
  exists fb, to_float b = Ok fb /\ r = PyFloat (x / fb).
Proof.
  destruct b; unfold num_truediv; cbn [to_float bind]; intros H.
  - destruct (float_of_int z) as [fb|] eqn:E; [|discriminate]. cbn [bind] in H.
    destruct (fb =? 0)%float; [discriminate|]. injection H as <-. eauto.
  - destruct (f =? 0)%float; [discriminate|]. injection H as <-. eauto.
Qed.

Lemma num_truediv_is_float a b r :
  num_truediv a b = Ok r -> exists f, r = PyFloat f.
Proof.
  destruct a as [x|x], b as [y|y]; unfold num_truediv; intros H;
    repeat (apply bind_Ok in H; destruct H as (? & ? & H));
    try (destruct (_ =? 0)%float; [discriminate|]); injection H as <-; eauto.
Qed.

Lemma Z_compare_SF_pos z m e :
  z <= 0 -> Z_compare_SF z (S754_finite false m e) = Some Lt.
Proof.
  intros Hz.
  destruct (Z_compare_SF z (S754_finite false m e)) as [c|] eqn:Hc; [|discriminate].
  pose proof (Z_compare_SF_spec _ _ _ _ _ Hc) as H.
  rewrite SF2R_finite in H. pose proof (pos_value_gt_0 m e).
  assert (IZR z <= 0)%R by (apply IZR_le; lia).
  destruct c; simpl in H; try lra. reflexivity.
Qed.

Lemma f_nonneg_num_nonneg f : f_nonneg f -> num_nonneg (PyFloat f).
Proof.
  unfold f_nonneg, num_nonneg. cbn [num_lt]. unfold float_lt_Z. intros H.
  destruct (Prim2SF f) as [s|[|]| |[|] m e]; try reflexivity; try discriminate H.
  rewrite Z_compare_SF_pos by lia. reflexivity.
Qed.

Lemma num_mul_nonneg a b r :
  num_nonneg a -> num_nonneg b -> num_mul a b = Ok r -> num_nonneg r.
Proof.
  intros Ha Hb H.
  assert (Hf : forall fa fb, to_float a = Ok fa -> to_float b = Ok fb ->
                 num_nonneg (PyFloat (fa * fb))).
  { intros fa fb Ea Eb. apply f_nonneg_num_nonneg, f_mul_nonneg;
      eauto using to_float_nonneg. }
  destruct a as [x|x], b as [y|y]; unfold num_mul in H.
  - injection H as <-. unfold num_nonneg in *. cbn [num_lt] in *.
    apply Z.ltb_ge. apply Z.ltb_ge in Ha, Hb. nia.
  - apply bind_Ok in H. destruct H as (fa & Ea & H). injection H as <-. auto.
  - apply bind_Ok in H. destruct H as (fa & Ea & H).
    apply bind_Ok in H. destruct H as (fb & Eb & H). injection H as <-. auto.
  - injection H as <-. auto.
Qed.

Lemma num_truediv_nonneg a b r :
  num_nonneg a -> num_pos b -> num_truediv a b = Ok r ->
  exists f, r = PyFloat f /\ f_nonneg f.
Proof.
  intros Ha Hb H.
  assert (Hf : forall fa fb, to_float a = Ok fa -> to_float b = Ok fb ->
                 f_nonneg (fa / fb)).
  { intros fa fb Ea Eb. apply f_div_nonneg;
      eauto using to_float_nonneg, to_float_pos. }
  destruct a as [x|x], b as [y|y]; unfold num_truediv in H.
  - apply bind_Ok in H. destruct H as (f & Ef & H). injection H as <-.
    exists f. split; [reflexivity|].
    unfold num_nonneg, num_pos in *. cbn [num_lt] in Ha, Hb.
    apply (int_true_divide_nonneg x y f); [apply Z.ltb_ge in Ha; lia|lia|assumption].
  - apply bind_Ok in H. destruct H as (fa & Ea & H). cbn [to_float bind] in H.
    destruct (y =? 0)%float; [discriminate|]. injection H as <-. eauto.
  - cbn [to_float bind] in H.
    apply bind_Ok in H. destruct H as (fb & Eb & H).
    destruct (fb =? 0)%float; [discriminate|]. injection H as <-. eauto.
  - cbn [to_float bind] in H.
    destruct (y =? 0)%float; [discriminate|]. injection H as <-. eauto.
Qed.

Lemma f_add_posfin_nonneg x y :
  SFposfin (Prim2SF y) -> f_nonneg x -> f_nonneg (x + y).
Proof.
  intros Hy. destruct (Prim2SF y) as [s|s| |[|] m e] eqn:E; try contradiction.
  apply (f_add_nonneg x y m e E).
Qed.

Lemma f_div_posfin_mono k x y :
  SFposfin (Prim2SF k) -> f_not_gt x y -> f_not_gt (x / k) (y / k).
Proof.
  intros Hk. destruct (Prim2SF k) as [s|s| |[|] m e] eqn:E; try contradiction.
  apply (f_div_mono k m e x y E).
Qed.

Lemma running_inv libm_pow a d w c :
  get_spent_calories libm_pow (Running a d w) = Ok c ->
  exists fa fd fw, to_float a = Ok fa /\ to_float d = Ok fd /\ to_float w = Ok fw.
Proof.
  unfold get_spent_calories, get_mean_speed, get_distance.
  cbn [action LEN_STEP duration]. intros H.
  apply bind_Ok in H. destruct H as (speed & Hs & H).
  apply bind_Ok in Hs. destruct Hs as (dist & Hd & Hs).
  apply bind_Ok in Hd. destruct Hd as (x & Hx & Hd).
  apply num_mul_float_r_inv in Hx. destruct Hx as (fa & Ha & ->).
  apply num_truediv_float_l_inv in Hd. destruct Hd as (k & _ & ->).
  apply num_truediv_float_l_inv in Hs. destruct Hs as (fd & Hfd & ->).
  apply bind_Ok in H. destruct H as (x1 & H1 & H).
  apply num_mul_float_r_inv in H1. destruct H1 as (k1 & _ & ->).
  apply bind_Ok in H. destruct H as (x2 & H2 & H).
  unfold RunningConst.CALORIES_MEAN_SPEED_SHIFT in H2. cbn [num_add to_float bind] in H2.
  injection H2 as <-.
  apply bind_Ok in H. destruct H as (x3 & H3 & H).
  apply num_mul_float_l_inv in H3. destruct H3 as (fw & Hw & ->).
  eauto 6.
Qed.

Lemma swimming_inv libm_pow a d w L n c :
  num_pos d -> num_nonneg L -> num_nonneg n ->
  get_spent_calories libm_pow (Swimming a d w L n) = Ok c ->
  exists v fd fw,
    get_mean_speed (Swimming a d w L n) = Ok (PyFloat v) /\ f_nonneg v
    /\ to_float d = Ok fd /\ to_float w = Ok fw.
Proof.
  intros Hp HL Hn H. unfold get_spent_calories in H.
  apply bind_Ok in H. destruct H as (speed & Hs & H).
  assert (Hsp : exists v fd, speed = PyFloat v /\ f_nonneg v /\ to_float d = Ok fd).
  { unfold get_mean_speed in Hs.
    apply bind_Ok in Hs. destruct Hs as (x & Hx & Hs).
    apply bind_Ok in Hs. destruct Hs as (y & Hy & Hs).
    pose proof (num_mul_nonneg _ _ _ HL Hn Hx) as Nx.
    destruct (num_truediv_nonneg _ _ _ Nx num_pos_1000 Hy) as (q & -> & Nq).
    apply num_truediv_float_l_inv in Hs. destruct Hs as (fd & Hfd & ->).
    exists (q / fd)%float, fd. split; [reflexivity|]. split; [|assumption].
    apply f_div_nonneg; [assumption|]. eapply to_float_pos; eauto. }
  destruct Hsp as (v & fd & -> & Nv & Hfd).
  apply bind_Ok in H. destruct H as (x1 & H1 & H).
  unfold SwimmingConst.CALORIES_MEAN_SPEED_ADDITION in H1.
  cbn [num_add to_float bind] in H1. injection H1 as <-.
  apply bind_Ok in H. destruct H as (x2 & H2 & H).
  apply num_mul_float_l_inv in H2. destruct H2 as (k & _ & ->).
  apply bind_Ok in H. destruct H as (x3 & H3 & H).
  apply num_mul_float_l_inv in H3. destruct H3 as (fw & Hw & ->).
  exists v, fd, fw. auto.
Qed.

Lemma running_chain fa fd fw1 fw2 :
  f_nonneg fa -> SFpos (Prim2SF fd) -> f_not_gt fw1 fw2 ->
  f_not_gt ((18 * (fa * 0.65 / 1000 / fd) + 1.79) * fw1 / 1000 * fd * 60)
           ((18 * (fa * 0.65 / 1000 / fd) + 1.79) * fw2 / 1000 * fd * 60).
Proof.
  intros Na Pd H.
  assert (Nc : f_nonneg (18 * (fa * 0.65 / 1000 / fd) + 1.79)).
  { apply f_add_posfin_nonneg; [exact I|].
    apply f_mul_nonneg; [reflexivity|].
    apply f_div_nonneg; [|assumption].
    apply f_div_nonneg; [|exact I].
    apply f_mul_nonneg; [assumption|reflexivity]. }
  apply f_mul_mono_l; [reflexivity|].
  apply f_mul_mono_l; [apply SFpos_nonneg; assumption|].
  apply f_div_posfin_mono; [exact I|].
  apply f_mul_mono_r; assumption.
Qed.

Lemma swimming_chain v fd fw1 fw2 :
  f_nonneg v -> SFpos (Prim2SF fd) -> f_not_gt fw1 fw2 ->
  f_not_gt ((v + 1.1) * 2 * fw1 * fd) ((v + 1.1) * 2 * fw2 * fd).
Proof.
  intros Nv Pd H.
  apply f_mul_mono_l; [apply SFpos_nonneg; assumption|].
  apply f_mul_mono_r; [|assumption].
  apply f_mul_nonneg; [|reflexivity].
  apply f_add_posfin_nonneg; [exact I|assumption].
Qed.

(** C10, amended.  For a [Running] instance (non-negative action) and a
    [Swimming] instance (non-negative pool length and count), with a
    positive duration, the calories never decrease when the weight grows:
    if [w1 < w2] and both computations return, the calories for [w2] are
    not less than the calories for [w1]. *)
Theorem calories_monotone_in_weight :
  forall libm_pow t w1 w2 c1 c2,
    monotone_inputs t -> num_lt w1 w2 = true ->
    get_spent_calories libm_pow (set_weight t w1) = Ok c1 ->
    get_spent_calories libm_pow (set_weight t w2) = Ok c2 ->
    num_lt c2 c1 = false.
Proof.
  intros libm_pow t w1 w2 c1 c2 Hm Hw H1 H2.
  destruct t as [a d w|a d w|a d w h|a d w L n]; try contradiction;
    cbn [set_weight monotone_inputs] in *.
  - destruct Hm as [Hp Ha].
    destruct (running_inv _ _ _ _ _ H1) as (fa & fd & fw1 & Ea & Ed & Ew1).
    destruct (running_inv _ _ _ _ _ H2) as (fa' & fd' & fw2 & _ & _ & Ew2).
    rewrite (running_calories_value libm_pow a d w1 fa fd fw1 Hp Ea Ed Ew1) in H1.
    rewrite (running_calories_value libm_pow a d w2 fa fd fw2 Hp Ea Ed Ew2) in H2.
    injection H1 as <-. injection H2 as <-. cbn [num_lt].
    apply f_not_gt_ltb. apply running_chain.
    + eapply to_float_nonneg; eauto.
    + eapply to_float_pos; eauto.
    + eapply num_lt_f_not_gt; eauto.
  - destruct Hm as (Hp & HL & Hn).
    destruct (swimming_inv _ _ _ _ _ _ _ Hp HL Hn H1) as (v & fd & fw1 & Ev & Nv & Ed & Ew1).
    destruct (swimming_inv _ _ _ _ _ _ _ Hp HL Hn H2) as (v' & fd' & fw2 & _ & _ & _ & Ew2).
    rewrite (swimming_calories_value libm_pow a d w1 L n v fd fw1 Ev Ed Ew1) in H1.
    rewrite (swimming_calories_value libm_pow a d w2 L n v fd fw2 Ev Ed Ew2) in H2.
    injection H1 as <-. injection H2 as <-. cbn [num_lt].
    apply f_not_gt_ltb. apply swimming_chain.
    + assumption.
    + eapply to_float_pos; eauto.
    + eapply num_lt_f_not_gt; eauto.
Qed.

Lemma calories_monotone_in_weight_witness :
  num_lt (PyFloat ((18 * 9.75 + 1.79) * 75 / 1000 * 1 * 60))
         (PyFloat ((18 * 9.75 + 1.79) * 74 / 1000 * 1 * 60)) = false.
Proof.
  apply (calories_monotone_in_weight pow_rn
           (Running (PyInt 15000) (PyInt 1) (PyInt 75)) (PyInt 74) (PyInt 75));
    reflexivity || (split; reflexivity).
Defined.

(** C10, as stated, fails: for a run of 15000 steps in one hour, two
    adjacent floats just above 75 give the same calories. *)
Lemma calories_not_strictly_increasing : ~ strictly_increasing_in_weight.
Proof.
  intros H.
  specialize (H (Running (PyInt 15000) (PyInt 1) (PyInt 75))
                (PyFloat 0x1.2c00000000006p+6) (PyFloat 0x1.2c00000000007p+6)
                _ _ (conj eq_refl eq_refl) eq_refl eq_refl eq_refl).
  vm_compute in H. discriminate H.
Qed.

(** * The validator, the factory and the run

    What [check_data] lets through, what [read_package] builds from it,
    which exceptions the methods and [main] can raise, and how the loop
    of the script ends. *)

Lemma chain_lt_false lo hi x :
  chain_lt (PyInt lo) x (PyInt hi) = false <-> ~ in_open_interval lo hi x.
Proof.
  rewrite <- chain_lt_spec. destruct (chain_lt (PyInt lo) x (PyInt hi)); split;
    congruence.
Qed.

Lemma arity_None code :
  arity code = None <-> contains code workouts = false.
Proof.
  unfold arity, contains, workouts, lookup.
  destruct (code =? "SWM")%string; [split; discriminate|].
  destruct (code =? "RUN")%string; [split; discriminate|].
  destruct (code =? "WLK")%string; [split; discriminate|].
  split; reflexivity.
Qed.

Lemma check_data_known code n data :
  arity code = Some n -> List.length data = n ->
  exists w, nth_error data 2 = Some w
  /\ check_data code data
     = if negb (chain_lt (PyInt 35) w (PyInt 610)) then Ok (Some MSG_WEIGHT)
       else match nth_error data 3 with
            | Some x =>
                if (code =? "SWM")%string && negb (chain_lt (PyInt 1) x (PyInt 1013))
                then Ok (Some MSG_POOL)
                else if (code =? "WLK")%string && negb (chain_lt (PyInt 50) x (PyInt 251))
                then Ok (Some MSG_HEIGHT)
                else Ok None
            | None => Ok None
            end.
Proof.
  intros Ha Hl.
  destruct (arity_cases code n Ha) as [[-> ->]|[[-> ->]|[-> ->]]].
  - destruct data as [|a [|b [|c [|d [|e [|]]]]]]; try discriminate.
    exists c. split; [reflexivity|]. unfold check_data.
    cbn [String.eqb Ascii.eqb Bool.eqb andb List.length Nat.eqb negb index nth_error bind and_then].
    destruct (chain_lt (PyInt 35) c (PyInt 610)); cbn [negb]; [|reflexivity].
    destruct (chain_lt (PyInt 1) d (PyInt 1013)); reflexivity.
  - destruct data as [|a [|b [|c [|]]]]; try discriminate.
    exists c. split; [reflexivity|]. unfold check_data.
    cbn [String.eqb Ascii.eqb Bool.eqb andb List.length Nat.eqb negb index nth_error bind and_then].
    destruct (chain_lt (PyInt 35) c (PyInt 610)); reflexivity.
  - destruct data as [|a [|b [|c [|d [|]]]]]; try discriminate.
    exists c. split; [reflexivity|]. unfold check_data.
    cbn [String.eqb Ascii.eqb Bool.eqb andb List.length Nat.eqb negb index nth_error bind and_then].
    destruct (chain_lt (PyInt 35) c (PyInt 610)); cbn [negb]; [|reflexivity].
    destruct (chain_lt (PyInt 50) d (PyInt 251)); reflexivity.
Qed.

Lemma check_data_unknown code data :
  arity code = None ->
  check_data code data
  = (w <- index data 2 ;;
     Ok (Some (if chain_lt (PyInt 35) w (PyInt 610) then MSG_CODE else MSG_WEIGHT))).
Proof.
  intros Ha. pose proof (proj1 (arity_None code) Ha) as Hc.
  unfold arity in Ha. unfold check_data.
  destruct (code =? "SWM")%string; [discriminate|].
  destruct (code =? "RUN")%string; [discriminate|].
  destruct (code =? "WLK")%string; [discriminate|].
  rewrite Hc. cbn [andb and_then negb bind].
  destruct (index data 2) as [w|]; [|reflexivity]. cbn [bind].
  destruct (chain_lt (PyInt 35) w (PyInt 610)); reflexivity.
Qed.

Lemma message_truthy m :
  In m [MSG_ARGS; MSG_WEIGHT; MSG_POOL; MSG_HEIGHT; MSG_CODE] ->
  truthy (Some m) = true.
Proof.
  intros Hm. simpl in Hm.
  repeat (destruct Hm as [<-|Hm]; [reflexivity|]). contradiction.
Qed.

Lemma check_data_raise_inv code data e :
  check_data code data = Raise e ->
  e = IndexError /\ contains code workouts = false /\ (List.length data < 3)%nat.
Proof.
  destruct (arity code) as [n|] eqn:Ha.
  - destruct (Nat.eq_dec (List.length data) n) as [Hl|Hl].
    + destruct (check_data_known code n data Ha Hl) as (w & Hw & ->). intros H.
      destruct (negb _); [discriminate|].
      destruct (nth_error data 3); [|discriminate].
      destruct (_ && _); [discriminate|]. destruct (_ && _); discriminate.
    + rewrite (check_data_wrong_arity code n data Ha Hl). discriminate.
  - rewrite (check_data_unknown code data Ha). intros H. unfold index in H.
    destruct (nth_error data 2) eqn:E; [discriminate|].
    injection H as <-. apply nth_error_None in E.
    split; [reflexivity|]. split; [apply arity_None; assumption|lia].
Qed.

Lemma check_data_message_in code data m :
  check_data code data = Ok (Some m) ->
  In m [MSG_ARGS; MSG_WEIGHT; MSG_POOL; MSG_HEIGHT; MSG_CODE].
Proof.
  destruct (arity code) as [n|] eqn:Ha.
  - destruct (Nat.eq_dec (List.length data) n) as [Hl|Hl].
    + destruct (check_data_known code n data Ha Hl) as (w & Hw & ->). intros H.
      destruct (negb _); [injection H as <-; simpl; auto|].
      destruct (nth_error data 3); [|discriminate].
      destruct (_ && _); [injection H as <-; simpl; auto|].
      destruct (_ && _); [injection H as <-; simpl; auto 6|discriminate].
    + rewrite (check_data_wrong_arity code n data Ha Hl).
      intros [= <-]. simpl; auto.
  - rewrite (check_data_unknown code data Ha). intros H.
    destruct (index data 2) as [w|]; [|discriminate]. cbn [bind] in H.
    injection H as <-. destruct (chain_lt _ _ _); simpl; auto 6.
Qed.

Lemma check_data_message code data m :
  check_data code data = Ok (Some m) -> truthy (Some m) = true.
Proof. intros H. exact (message_truthy m (check_data_message_in code data m H)). Qed.

Lemma check_data_raise code data e :
  check_data code data = Raise e -> e = IndexError.
Proof. intros H. exact (proj1 (check_data_raise_inv code data e H)). Qed.

(** X1.  [check_data] raises nothing for a recognised code, whatever the
    list: the only exception it can raise is [IndexError], and only for an
    unknown code with fewer than three arguments.  A message it returns is
    one of its five messages, none of which is empty, so the caller's test
    [if check_data_result] holds for every message. *)
Theorem check_data_results :
  forall code data,
    (forall e, check_data code data = Raise e ->
       e = IndexError /\ contains code workouts = false
       /\ (List.length data < 3)%nat)
    /\ (forall m, check_data code data = Ok (Some m) ->
          In m [MSG_ARGS; MSG_WEIGHT; MSG_POOL; MSG_HEIGHT; MSG_CODE]
          /\ truthy (Some m) = true).
Proof.
  intros code data. split.
  - intros e H. exact (check_data_raise_inv code data e H).
  - intros m H. pose proof (check_data_message_in code data m H) as Hin.
    split; [exact Hin|]. exact (message_truthy m Hin).
Qed.

Lemma check_data_results_witness :
  In MSG_POOL [MSG_ARGS; MSG_WEIGHT; MSG_POOL; MSG_HEIGHT; MSG_CODE]
  /\ truthy (Some MSG_POOL) = true.
Proof.
  apply (proj2 (check_data_results "SWM"
                  [PyInt 340; PyInt 4; PyInt 60; PyInt 3000; PyInt 2]) MSG_POOL).
  reflexivity.
Defined.

Lemma accepted_arity code data t :
  accepted code data t -> arity code = Some (List.length data).
Proof. intros []; reflexivity. Qed.

Lemma accepted_check code data t :
  accepted code data t -> check_data code data = Ok None.
Proof.
  intros H.
  destruct (check_data_known code _ data (accepted_arity _ _ _ H) eq_refl)
    as (w & Hw & ->).
  destruct H as [a d w' Hi|a d w' h Hi Hh|a d w' l c Hi Hl];
    injection Hw as <-; apply chain_lt_spec in Hi; rewrite Hi; cbn [negb nth_error].
  - reflexivity.
  - apply chain_lt_spec in Hh. rewrite Hh. reflexivity.
  - apply chain_lt_spec in Hl. rewrite Hl. reflexivity.
Qed.

Lemma check_accepted code data :
  check_data code data = Ok None -> exists t, accepted code data t.
Proof.
  intros H.
  destruct (arity code) as [n|] eqn:Ha.
  - destruct (Nat.eq_dec (List.length data) n) as [Hl|Hl].
    + destruct (check_data_known code n data Ha Hl) as (w & Hw & E).
      rewrite E in H. clear E.
      destruct (chain_lt (PyInt 35) w (PyInt 610)) eqn:Ew; [|discriminate].
      apply chain_lt_spec in Ew. cbn [negb] in H.
      destruct (arity_cases code n Ha) as [[-> ->]|[[-> ->]|[-> ->]]].
      * destruct data as [|a [|b [|c [|d [|e [|]]]]]]; try discriminate.
        injection Hw as ->. cbn [nth_error] in H.
        destruct (chain_lt (PyInt 1) d (PyInt 1013)) eqn:Ed; [|discriminate].
        apply chain_lt_spec in Ed. eexists. constructor; assumption.
      * destruct data as [|a [|b [|c [|]]]]; try discriminate.
        injection Hw as ->. eexists. constructor; assumption.
      * destruct data as [|a [|b [|c [|d [|]]]]]; try discriminate.
        injection Hw as ->. cbn [nth_error] in H.
        destruct (chain_lt (PyInt 50) d (PyInt 251)) eqn:Ed; [|discriminate].
        apply chain_lt_spec in Ed. eexists. constructor; assumption.
    + rewrite (check_data_wrong_arity code n data Ha Hl) in H. discriminate.
  - rewrite (check_data_unknown code data Ha) in H.
    destruct (index data 2); discriminate.
Qed.

Lemma accepted_read code data t :
  accepted code data t -> read_package code data = Ok t.
Proof. intros []; reflexivity. Qed.

(** X2.  [check_data] returns [None] exactly for the packages of
    [accepted]: code ["RUN"] with three arguments, ["WLK"] with four,
    ["SWM"] with five, a finite weight strictly between 35 and 610, and
    for ["SWM"] a pool length strictly between 1 and 1013, for ["WLK"] a
    height strictly between 50 and 251. *)
Theorem check_data_accepts :
  forall code data,
    check_data code data = Ok None <-> exists t, accepted code data t.
Proof.
  intros code data. split.
  - apply check_accepted.
  - intros [t H]. exact (accepted_check _ _ _ H).
Qed.

Lemma check_data_accepts_witness :
  exists t, accepted "SWM" [PyInt 720; PyInt 1; PyInt 80; PyInt 25; PyInt 40] t.
Proof.
  apply (proj1 (check_data_accepts "SWM"
                  [PyInt 720; PyInt 1; PyInt 80; PyInt 25; PyInt 40])).
  reflexivity.
Defined.

(** X3.  A package that [check_data] accepts is read: [read_package]
    returns an instance, of the class that the code stands for, whose
    fields are the arguments in their order and whose weight, pool length
    and height are in their ranges.  Neither [KeyError] nor [TypeError]
    can follow a successful validation. *)
Theorem validated_package_is_read :
  forall code data,
    check_data code data = Ok None ->
    exists t, read_package code data = Ok t
      /\ accepted code data t
      /\ class_of_code code = Some (class_name t).
Proof.
  intros code data H. destruct (check_accepted code data H) as [t Ht].
  exists t. split; [exact (accepted_read _ _ _ Ht)|]. split; [assumption|].
  destruct Ht; reflexivity.
Qed.

Lemma validated_package_is_read_witness :
  exists t, read_package "WLK" [PyInt 9000; PyInt 1; PyInt 75; PyInt 180] = Ok t
    /\ accepted "WLK" [PyInt 9000; PyInt 1; PyInt 75; PyInt 180] t
    /\ class_of_code "WLK" = Some (class_name t).
Proof.
  apply (validated_package_is_read "WLK" [PyInt 9000; PyInt 1; PyInt 75; PyInt 180]).
  reflexivity.
Defined.

(** X4.  [read_package] on its own: an unknown code raises [KeyError]; a
    known code with a number of arguments other than the one of its class
    (five for ["SWM"], three for ["RUN"], four for ["WLK"]) raises
    [TypeError]; otherwise the instance of the class of that code is
    returned, with the arguments as its fields in their order.  The base
    class is never instantiated. *)
Theorem read_package_result :
  forall code data,
    match arity code with
    | None => read_package code data = Raise KeyError
    | Some n =>
        if (List.length data =? n)%nat then
          exists t, read_package code data = Ok t
            /\ class_of_code code = Some (class_name t)
            /\ index data 0 = Ok (action t)
            /\ index data 1 = Ok (duration t)
            /\ index data 2 = Ok (weight t)
            /\ match t with
               | Swimming _ _ _ l c => index data 3 = Ok l /\ index data 4 = Ok c
               | SportsWalking _ _ _ h => index data 3 = Ok h
               | Running _ _ _ => True
               | Training _ _ _ => False
               end
        else read_package code data = Raise TypeError
    end.
Proof.
  intros code data. unfold arity, class_of_code, read_package, workouts, lookup.
  destruct (code =? "SWM")%string.
  { destruct data as [|a [|b [|c [|d [|e [|]]]]]]; try reflexivity.
    eexists. repeat split. }
  destruct (code =? "RUN")%string.
  { destruct data as [|a [|b [|c [|]]]]; try reflexivity.
    eexists. repeat split. }
  destruct (code =? "WLK")%string.
  { destruct data as [|a [|b [|c [|d [|]]]]]; try reflexivity.
    eexists. repeat split. }
  reflexivity.
Qed.

(** X5.  [check_data] looks only at the code, the number of arguments,
    [data[2]] and [data[3]]: two lists of the same length that agree on
    these two positions get the same answer.  The action, the duration
    and the pool count are not validated. *)
Theorem check_data_reads_weight_and_fourth :
  forall code data data',
    List.length data = List.length data' ->
    nth_error data 2 = nth_error data' 2 ->
    nth_error data 3 = nth_error data' 3 ->
    check_data code data = check_data code data'.
Proof.
  intros code data data' Hl H2 H3. unfold check_data, index.
  rewrite Hl, H2, H3. reflexivity.
Qed.

Lemma check_data_reads_weight_and_fourth_witness :
  check_data "RUN" [PyInt 15000; PyInt 1; PyInt 75]
  = check_data "RUN" [PyInt (-3); PyInt 0; PyInt 75].
Proof.
  apply check_data_reads_weight_and_fourth; reflexivity.
Defined.

Lemma bind_arith {A B : Type} (m : result A) (k : A -> result B) :
  arithmetic_only m -> (forall a, m = Ok a -> arithmetic_only (k a)) ->
  arithmetic_only (bind m k).
Proof. destruct m as [a|e]; simpl; intros Hm Hk; [apply Hk; reflexivity|exact Hm]. Qed.

Lemma float_of_int_arith z : arithmetic_only (float_of_int z).
Proof. unfold float_of_int. destruct (binary_normalize _ _ _ _ _); exact I. Qed.

Lemma to_float_arith x : arithmetic_only (to_float x).
Proof. destruct x; simpl; [apply float_of_int_arith|exact I]. Qed.

Lemma int_true_divide_arith a b : arithmetic_only (int_true_divide a b).
Proof.
  unfold int_true_divide. destruct (b =? 0); [exact I|].
  destruct (a =? 0); [exact I|].
  destruct (SFdiv_core_binary _ _ _ _ _ _) as [[q e] l].
  destruct (binary_round_aux _ _ _ _ _ _); exact I.
Qed.

Lemma float_binop_arith a b (op : float -> float -> float) :
  arithmetic_only (x <- to_float a ;; y <- to_float b ;; Ok (PyFloat (op x y))).
Proof.
  apply bind_arith; [apply to_float_arith|intros x _].
  apply bind_arith; [apply to_float_arith|intros y _]. exact I.
Qed.

Lemma num_mul_arith a b : arithmetic_only (num_mul a b).
Proof.
  destruct a, b; unfold num_mul; try exact I;
    apply (float_binop_arith _ _ PrimFloat.mul).
Qed.

Lemma num_add_arith a b : arithmetic_only (num_add a b).
Proof.
  destruct a, b; unfold num_add; try exact I;
    apply (float_binop_arith _ _ PrimFloat.add).
Qed.

Lemma num_truediv_arith a b : arithmetic_only (num_truediv a b).
Proof.
  assert (H : arithmetic_only
                (x <- to_float a ;; y <- to_float b ;;
                 if (y =? 0)%float then Raise ZeroDivisionError
                 else Ok (PyFloat (x / y)%float))).
  { apply bind_arith; [apply to_float_arith|intros x _].
    apply bind_arith; [apply to_float_arith|intros y _].
    destruct (y =? 0)%float; exact I. }
  destruct a, b; unfold num_truediv; try exact H.
  apply bind_arith; [apply int_true_divide_arith|intros; exact I].
Qed.

Lemma num_pow_two_arith libm_pow x : arithmetic_only (num_pow_two libm_pow x).
Proof.
  destruct x; unfold num_pow_two; [exact I|].
  apply bind_arith; [|intros; exact I]. unfold float_pow_two.
  repeat match goal with |- context [if ?b then _ else _] => destruct b end; exact I.
Qed.

Lemma get_distance_arith self : arithmetic_only (get_distance self).
Proof.
  unfold get_distance. apply bind_arith; [apply num_mul_arith|intros x _].
  apply num_truediv_arith.
Qed.

Lemma get_mean_speed_arith self : arithmetic_only (get_mean_speed self).
Proof.
  destruct self; unfold get_mean_speed.
  1-3: apply bind_arith; [apply get_distance_arith|intros x _; apply num_truediv_arith].
  apply bind_arith; [apply num_mul_arith|intros x _].
  apply bind_arith; [apply num_truediv_arith|intros y _].
  apply num_truediv_arith.
Qed.

Ltac arith_step :=
  first [ apply num_mul_arith | apply num_add_arith | apply num_truediv_arith
        | apply num_pow_two_arith | apply get_mean_speed_arith
        | apply get_distance_arith
        | apply bind_arith; [|intros ? _] ].

Lemma get_spent_calories_arith libm_pow self :
  class_name self <> "Training" ->
  arithmetic_only (get_spent_calories libm_pow self).
Proof.
  intros Hc. destruct self; unfold get_spent_calories.
  - exfalso. apply Hc. reflexivity.
  - repeat arith_step.
  - repeat arith_step.
  - repeat arith_step.
Qed.

Lemma format_3f_arith x : arithmetic_only (format_3f x).
Proof.
  unfold format_3f. apply bind_arith; [apply to_float_arith|intros; exact I].
Qed.

Lemma format_3f_no_zd x : no_zero_division (format_3f x).
Proof.
  unfold format_3f. apply bind_no_zd; [apply to_float_no_zd|intros; apply Ok_no_zd].
Qed.

Lemma get_message_arith info : arithmetic_only (InfoMessage.get_message info).
Proof.
  unfold InfoMessage.get_message.
  repeat (apply bind_arith; [apply format_3f_arith|intros ? _]). exact I.
Qed.

Lemma get_message_no_zd info : no_zero_division (InfoMessage.get_message info).
Proof.
  unfold InfoMessage.get_message.
  repeat (apply bind_no_zd; [apply format_3f_no_zd|intros ? _]). apply Ok_no_zd.
Qed.

Lemma main_arith libm_pow self :
  class_name self <> "Training" -> arithmetic_only (main libm_pow self).
Proof.
  intros Hc. unfold main, show_training_info.
  apply bind_arith; [|intros; apply get_message_arith].
  apply bind_arith; [apply get_distance_arith|intros dist _].
  apply bind_arith; [apply get_mean_speed_arith|intros speed _].
  apply bind_arith; [apply get_spent_calories_arith; assumption|intros; exact I].
Qed.

Lemma overflow_only_intro {A : Type} (r : result A) :
  arithmetic_only r -> no_zero_division r -> overflow_only r.
Proof.
  unfold no_zero_division. destruct r as [a|[]]; simpl; auto; congruence.
Qed.

Lemma read_package_class code data t :
  read_package code data = Ok t -> class_name t <> "Training".
Proof.
  unfold read_package, workouts, lookup.
  destruct (code =? "SWM")%string.
  { destruct data as [|a [|b [|c [|d [|e [|]]]]]]; try discriminate.
    intros [= <-]. discriminate. }
  destruct (code =? "RUN")%string.
  { destruct data as [|a [|b [|c [|]]]]; try discriminate.
    intros [= <-]. discriminate. }
  destruct (code =? "WLK")%string.
  { destruct data as [|a [|b [|c [|d [|]]]]]; try discriminate.
    intros [= <-]. discriminate. }
  discriminate.
Qed.

(** X6.  On an instance that [read_package] returned, [get_distance],
    [get_mean_speed], [get_spent_calories] and [main] return or raise
    [ZeroDivisionError] or [OverflowError], nothing else; the
    [NotImplementedError] of the base class cannot occur. *)
Theorem read_instance_errors :
  forall libm_pow code data t,
    read_package code data = Ok t ->
    arithmetic_only (get_distance t)
    /\ arithmetic_only (get_mean_speed t)
    /\ arithmetic_only (get_spent_calories libm_pow t)
    /\ arithmetic_only (main libm_pow t).
Proof.
  intros libm_pow code data t H. pose proof (read_package_class _ _ _ H) as Hc.
  repeat split.
  - apply get_distance_arith.
  - apply get_mean_speed_arith.
  - apply get_spent_calories_arith; assumption.
  - apply main_arith; assumption.
Qed.

Lemma read_instance_errors_witness :
  arithmetic_only (get_distance (Running (PyInt 15000) (PyInt 0) (PyInt 75)))
  /\ arithmetic_only (get_mean_speed (Running (PyInt 15000) (PyInt 0) (PyInt 75)))
  /\ arithmetic_only
       (get_spent_calories pow_rn (Running (PyInt 15000) (PyInt 0) (PyInt 75)))
  /\ arithmetic_only (main pow_rn (Running (PyInt 15000) (PyInt 0) (PyInt 75))).
Proof.
  apply (read_instance_errors pow_rn "RUN" [PyInt 15000; PyInt 0; PyInt 75]).
  reflexivity.
Defined.

(** X7.  On an instance of the base class [Training],
    [get_spent_calories], [show_training_info] and [main] never return;
    when the distance and the mean speed can be computed, [main] raises
    [NotImplementedError] with the text
    ["Define get_spent_calories() in Training"]. *)
Theorem base_class_cannot_report :
  forall libm_pow a d w,
    fails (get_spent_calories libm_pow (Training a d w))
    /\ fails (show_training_info libm_pow (Training a d w))
    /\ fails (main libm_pow (Training a d w))
    /\ (forall dist speed,
          get_distance (Training a d w) = Ok dist ->
          get_mean_speed (Training a d w) = Ok speed ->
          main libm_pow (Training a d w)
          = Raise (NotImplementedError "Define get_spent_calories() in Training")).
Proof.
  intros libm_pow a d w.
  assert (Hs : fails (show_training_info libm_pow (Training a d w))).
  { unfold show_training_info.
    destruct (get_distance (Training a d w)); [|exact I]. cbn [bind].
    destruct (get_mean_speed (Training a d w)); exact I. }
  repeat split.
  - assumption.
  - unfold main. destruct (show_training_info libm_pow (Training a d w));
      [contradiction|exact I].
  - intros dist speed Hd Hv. unfold main, show_training_info.
    rewrite Hd, Hv. reflexivity.
Qed.

Lemma base_class_cannot_report_witness :
  main pow_rn (Training (PyInt 9000) (PyInt 1) (PyInt 75))
  = Raise (NotImplementedError "Define get_spent_calories() in Training").
Proof.
  destruct (base_class_cannot_report pow_rn (PyInt 9000) (PyInt 1) (PyInt 75))
    as (_ & _ & _ & H).
  apply (H (PyFloat (9000 * 0.65 / 1000)) (PyFloat (9000 * 0.65 / 1000 / 1)));
    reflexivity.
Defined.

Lemma float_of_int_error z e : float_of_int z = Raise e -> e = OverflowError.
Proof.
  unfold float_of_int. destruct (binary_normalize _ _ _ _ _); congruence.
Qed.

Lemma to_float_error x e : to_float x = Raise e -> e = OverflowError.
Proof. destruct x; simpl; [apply float_of_int_error|discriminate]. Qed.

Lemma to_float_zero d :
  num_is_zero d = true -> exists f, to_float d = Ok f /\ (f =? 0)%float = true.
Proof.
  destruct d as [z|f]; simpl; intros H.
  - apply Z.eqb_eq in H. subst z. exists 0%float. split; reflexivity.
  - eauto.
Qed.

Lemma num_truediv_zero a d :
  num_is_zero d = true ->
  num_truediv a d = Raise ZeroDivisionError
  \/ num_truediv a d = Raise OverflowError.
Proof.
  intros Hz.
  assert (H : (x <- to_float a ;; y <- to_float d ;;
               if (y =? 0)%float then Raise ZeroDivisionError
               else Ok (PyFloat (x / y)%float))
              = Raise ZeroDivisionError
              \/ (x <- to_float a ;; y <- to_float d ;;
                  if (y =? 0)%float then Raise ZeroDivisionError
                  else Ok (PyFloat (x / y)%float))
                 = Raise OverflowError).
  { destruct (to_float_zero d Hz) as (f & -> & Hf).
    destruct (to_float a) as [x|e] eqn:Ea; cbn [bind].
    - rewrite Hf. left; reflexivity.
    - right. rewrite (to_float_error _ _ Ea). reflexivity. }
  destruct a as [x|x], d as [y|y]; unfold num_truediv; try exact H.
  simpl in Hz. apply Z.eqb_eq in Hz. subst y. left. reflexivity.
Qed.

Lemma num_truediv_float_zero x d :
  num_is_zero d = true -> num_truediv (PyFloat x) d = Raise ZeroDivisionError.
Proof.
  intros Hz. destruct (to_float_zero d Hz) as (f & Hf & H0).
  destruct d; unfold num_truediv; cbv beta iota; rewrite Hf; cbn [to_float bind];
    rewrite H0; reflexivity.
Qed.

Lemma fails_bind {A B : Type} (m : result A) (k : A -> result B) :
  (forall a, m = Ok a -> fails (k a)) -> fails (bind m k).
Proof. destruct m as [a|e]; simpl; intros H; [apply H; reflexivity|exact I]. Qed.

Lemma zero_duration_speed self :
  num_is_zero (duration self) = true -> fails (get_mean_speed self).
Proof.
  intros Hz.
  assert (Hd : forall x, fails (num_truediv x (duration self))).
  { intros x. destruct (num_truediv_zero x _ Hz) as [-> | ->]; exact I. }
  destruct self as [a d w|a d w|a d w h|a d w l c]; unfold get_mean_speed; cbn [duration] in Hd.
  1-3: apply fails_bind; intros; apply Hd.
  apply fails_bind; intros x _. apply fails_bind; intros y _. apply Hd.
Qed.

Lemma get_distance_is_float self dist :
  get_distance self = Ok dist -> exists f, dist = PyFloat f.
Proof.
  unfold get_distance. intros H. apply bind_Ok in H. destruct H as (x & _ & H).
  exact (num_truediv_is_float _ _ _ H).
Qed.

Lemma zero_duration_step_speed self dist :
  num_is_zero (duration self) = true -> step_based self = true ->
  get_distance self = Ok dist ->
  get_mean_speed self = Raise ZeroDivisionError.
Proof.
  intros Hz Hb Hd. destruct (get_distance_is_float _ _ Hd) as [f ->].
  destruct self as [a d w|a d w|a d w h|a d w l c]; try discriminate;
    unfold get_mean_speed; rewrite Hd; cbn [bind];
    apply num_truediv_float_zero; assumption.
Qed.

(** X8.  With a duration equal to zero (the int [0], or the float [0.0]
    or [-0.0]) [get_mean_speed] and [main] never return, for every class;
    for [Running] and [SportsWalking], when the distance can be computed,
    they raise [ZeroDivisionError].  Such a package passes [check_data],
    which does not look at the duration. *)
Theorem zero_duration_fails :
  forall libm_pow self,
    num_is_zero (duration self) = true ->
    fails (get_mean_speed self)
    /\ fails (main libm_pow self)
    /\ (forall dist, get_distance self = Ok dist ->
        step_based self = true ->
        get_mean_speed self = Raise ZeroDivisionError
        /\ main libm_pow self = Raise ZeroDivisionError).
Proof.
  intros libm_pow self Hz. pose proof (zero_duration_speed self Hz) as Hs.
  split; [assumption|]. split.
  - unfold main, show_training_info.
    apply fails_bind; intros info Hi. exfalso.
    apply bind_Ok in Hi. destruct Hi as (dist & _ & Hi).
    apply bind_Ok in Hi. destruct Hi as (speed & Hv & _).
    rewrite Hv in Hs. exact Hs.
  - intros dist Hd Hb.
    pose proof (zero_duration_step_speed self dist Hz Hb Hd) as Hv.
    split; [assumption|].
    unfold main, show_training_info. rewrite Hd, Hv. reflexivity.
Qed.

Lemma zero_duration_fails_witness :
  check_data "RUN" [PyInt 15000; PyInt 0; PyInt 75] = Ok None
  /\ read_package "RUN" [PyInt 15000; PyInt 0; PyInt 75]
     = Ok (Running (PyInt 15000) (PyInt 0) (PyInt 75))
  /\ main pow_rn (Running (PyInt 15000) (PyInt 0) (PyInt 75))
     = Raise ZeroDivisionError.
Proof.
  split; [reflexivity|]. split; [reflexivity|].
  destruct (zero_duration_fails pow_rn (Running (PyInt 15000) (PyInt 0) (PyInt 75))
              eq_refl) as (_ & _ & H).
  apply (H (PyFloat (15000 * 0.65 / 1000))); reflexivity.
Defined.

Lemma Prim2SF_100 : Prim2SF 100 = S754_finite false 7036874417766400 (-46).
Proof. reflexivity. Qed.

Lemma SF2R_100 : SF2R (Prim2SF 100) = 100%R.
Proof.
  rewrite Prim2SF_100. cbn [SF2R cond_Zopp].
  change 7036874417766400 with (100 * 2 ^ 46). rewrite mult_IZR.
  rewrite (bpow_IZR 46) by lia. rewrite Rmult_assoc, <- bpow_add.
  change (46 + -46) with 0. rewrite bpow_0. ring.
Qed.

Lemma float_div_100_pos f :
  SFfinite (Prim2SF f) = true -> (50 < SF2R (Prim2SF f))%R ->
  SFpos (Prim2SF (f / 100)).
Proof.
  intros Hf Hv. rewrite div_spec. unfold SF64div.
  pose proof (rounds_div (Prim2SF f) (Prim2SF 100) Hf) as R.
  rewrite SF2R_100 in R. rewrite Prim2SF_100 in *. specialize (R I).
  assert (Hb : (bpow (-1074) <= SF2R (Prim2SF f) / 100)%R).
  { pose proof (bpow_le (-1074) (-1) ltac:(lia)) as Hb.
    assert (bpow (-1) = / 2)%R as E1 by (unfold bpow; simpl; f_equal; lra).
    lra. }
  pose proof (bpow_gt_0 (-1074)).
  destruct R as [[E _]|[[_ (rho & S & P)]|[E _]]]; try lra.
  pose proof (rnd_spec_pos _ _ S Hb) as Hrho.
  destruct P as [[E0 _]|[[_ ->]|(p & e & -> & _)]]; try lra; exact I.
Qed.

Lemma walking_calories_no_zd_float libm_pow a d w f :
  num_pos d -> in_open_interval 50 251 (PyFloat f) ->
  no_zero_division (get_spent_calories libm_pow (SportsWalking a d w (PyFloat f))).
Proof.
  intros Hp [Hf [Hlo _]]. unfold get_spent_calories.
  apply bind_no_zd; [apply num_mul_no_zd|intros l _].
  apply bind_no_zd; [apply get_mean_speed_no_zd; exact Hp|intros speed _].
  apply bind_no_zd; [apply num_mul_no_zd|intros v _].
  apply bind_no_zd; [apply num_pow_two_no_zd|intros v2 _].
  apply bind_no_zd.
  { apply num_truediv_no_zd. reflexivity. }
  intros hm Hhm.
  unfold SportsWalkingConst.CM_IN_M in Hhm.
  rewrite (num_truediv_float_l f (PyInt 100) 100%float eq_refl eq_refl) in Hhm.
  injection Hhm as <-.
  apply bind_no_zd; [apply num_truediv_SFpos_no_zd, float_div_100_pos; assumption
                    |intros r _].
  apply bind_no_zd; [apply num_mul_no_zd|intros r1 _].
  apply bind_no_zd; [apply num_mul_no_zd|intros r2 _].
  apply bind_no_zd; [apply num_add_no_zd|intros r3 _].
  apply bind_no_zd; [apply num_mul_no_zd|intros r4 _].
  apply num_mul_no_zd.
Qed.

Lemma accepted_calories_no_zd libm_pow code data t :
  accepted code data t -> num_pos (duration t) ->
  no_zero_division (get_spent_calories libm_pow t).
Proof.
  intros [a d w Hw|a d w h Hw Hh|a d w l c Hw Hl] Hp; cbn [duration] in Hp.
  - apply running_calories_no_zd; assumption.
  - destruct h as [z|f].
    + apply walking_calories_no_zd; [assumption|]. simpl in Hh. lia.
    + apply walking_calories_no_zd_float; assumption.
  - apply swimming_calories_no_zd; assumption.
Qed.

Lemma accepted_class code data t : accepted code data t -> class_name t <> "Training".
Proof. intros []; discriminate. Qed.

(** X9.  For a package that [check_data] accepts and whose duration is
    positive, [get_distance], [get_mean_speed], [get_spent_calories] and
    [main] on the instance that [read_package] returns can raise
    [OverflowError] only: the validated height, int or float, divided by
    100 is never zero, so the division by it in the walking formula never
    raises [ZeroDivisionError]. *)
Theorem validated_report_errors :
  forall libm_pow code data t,
    check_data code data = Ok None ->
    read_package code data = Ok t ->
    num_pos (duration t) ->
    overflow_only (get_distance t)
    /\ overflow_only (get_mean_speed t)
    /\ overflow_only (get_spent_calories libm_pow t)
    /\ overflow_only (main libm_pow t).
Proof.
  intros libm_pow code data t Hc Hr Hp.
  destruct (check_accepted code data Hc) as [t' Ha].
  rewrite (accepted_read _ _ _ Ha) in Hr. injection Hr as ->.
  pose proof (accepted_calories_no_zd libm_pow _ _ _ Ha Hp) as Hz.
  pose proof (accepted_class _ _ _ Ha) as Hn.
  repeat split; apply overflow_only_intro.
  - apply get_distance_arith.
  - apply get_distance_no_zd.
  - apply get_mean_speed_arith.
  - apply get_mean_speed_no_zd; assumption.
  - apply get_spent_calories_arith; assumption.
  - assumption.
  - apply main_arith; assumption.
  - unfold main, show_training_info.
    apply bind_no_zd; [|intros; apply get_message_no_zd].
    apply bind_no_zd; [apply get_distance_no_zd|intros dist _].
    apply bind_no_zd; [apply get_mean_speed_no_zd; assumption|intros speed _].
    apply bind_no_zd; [assumption|intros; apply Ok_no_zd].
Qed.

Lemma validated_report_errors_witness :
  overflow_only
    (main pow_rn (SportsWalking (PyInt 4000) (PyInt 2) (PyInt 60) (PyFloat 165.5))).
Proof.
  apply (validated_report_errors pow_rn "WLK"
           [PyInt 4000; PyInt 2; PyInt 60; PyFloat 165.5]);
    reflexivity.
Defined.

Lemma run_cons libm_pow code data ps t line :
  check_data code data = Ok None ->
  read_package code data = Ok t ->
  main libm_pow t = Ok line ->
  run libm_pow ((code, data) :: ps)
  = (line :: fst (run libm_pow ps), snd (run libm_pow ps)).
Proof.
  intros Hc Hr Hm. cbn [run]. rewrite Hc. cbn [truthy]. rewrite Hr, Hm.
  destruct (run libm_pow ps); reflexivity.
Qed.

Lemma run_head libm_pow code data ps lines o :
  run libm_pow ((code, data) :: ps) = (lines, o) ->
  (exists t line,
     check_data code data = Ok None /\ read_package code data = Ok t
     /\ main libm_pow t = Ok line
     /\ lines = line :: fst (run libm_pow ps) /\ o = snd (run libm_pow ps))
  \/ (lines = []
      /\ ((exists m, check_data code data = Ok (Some m) /\ o = ValueError (Some m))
          \/ (check_data code data = Raise IndexError /\ o = Uncaught IndexError)
          \/ (exists t e, check_data code data = Ok None
                /\ read_package code data = Ok t
                /\ main libm_pow t = Raise e /\ o = Uncaught e))).
Proof.
  cbn [run]. destruct (check_data code data) as [[m|]|e] eqn:Hc.
  - rewrite (check_data_message _ _ _ Hc). intros [= <- <-].
    right. split; [reflexivity|]. left. eauto.
  - cbn [truthy]. destruct (check_accepted _ _ Hc) as [t Ha].
    rewrite (accepted_read _ _ _ Ha).
    destruct (main libm_pow t) as [line|e] eqn:Hm.
    + destruct (run libm_pow ps) as [ls o']. intros [= <- <-].
      left. exists t, line. auto.
    + intros [= <- <-]. right. split; [reflexivity|]. right. right. eauto 6.
  - rewrite (check_data_raise _ _ _ Hc) in *. intros [= <- <-].
    right. split; [reflexivity|]. right. left. auto.
Qed.

(** X10.  The loop of the script stops at the first package that
    [check_data] rejects: when the packages before it are all processed,
    the lines printed are theirs, the loop ends with
    [ValueError(message)] where the message is the one of [check_data],
    and the packages after it are not looked at.  For the packages of the
    script this happens at the fourth one, [("PLT", ...)]. *)
Theorem run_stops_at_first_rejection :
  forall libm_pow ps code data rest lines m,
    run libm_pow ps = (lines, Finished) ->
    check_data code data = Ok (Some m) ->
    run libm_pow (ps ++ (code, data) :: rest) = (lines, ValueError (Some m)).
Proof.
  intros libm_pow ps code data rest lines m Hr Hc. revert lines Hr.
  induction ps as [|[c d] ps IH]; intros lines Hr.
  - cbn [run] in Hr. injection Hr as <-. cbn [app run]. rewrite Hc.
    rewrite (check_data_message _ _ _ Hc). reflexivity.
  - destruct (run_head _ _ _ _ _ _ Hr) as [(t & line & H1 & H2 & H3 & -> & Ho)|(_ & H)].
    + cbn [app]. rewrite (run_cons _ _ _ _ _ _ H1 H2 H3).
      rewrite (IH (fst (run libm_pow ps))).
      * reflexivity.
      * destruct (run libm_pow ps) as [ls o]. cbn [fst snd] in *. congruence.
    + destruct H as [(m' & _ & H)|[(_ & H)|(t & e & _ & _ & _ & H)]]; discriminate.
Qed.

Lemma run_stops_at_first_rejection_witness :
  run pow_rn packages
  = (fst (run pow_rn (firstn 3 packages)), ValueError (Some MSG_CODE)).
Proof.
  apply (run_stops_at_first_rejection pow_rn (firstn 3 packages) "PLT"
           [PyInt 12000; PyInt 1; PyInt 60] (skipn 4 packages)).
  - vm_compute. reflexivity.
  - reflexivity.
Defined.

(** X11.  When the loop of the script finishes, it has printed one line
    for each package, in order: each package was accepted by
    [check_data], read by [read_package], and its line is the one [main]
    prints for that instance. *)
Theorem run_finished :
  forall libm_pow ps lines,
    run libm_pow ps = (lines, Finished) ->
    Forall2 (fun p line =>
               check_data (fst p) (snd p) = Ok None
               /\ exists t, read_package (fst p) (snd p) = Ok t
                            /\ main libm_pow t = Ok line)
            ps lines.
Proof.
  intros libm_pow ps. induction ps as [|[c d] ps IH]; intros lines Hr.
  - cbn [run] in Hr. injection Hr as <-. constructor.
  - destruct (run_head _ _ _ _ _ _ Hr) as [(t & line & H1 & H2 & H3 & -> & Ho)|(_ & H)].
    + constructor; [cbn [fst snd]; eauto|].
      apply IH. destruct (run libm_pow ps) as [ls o]. cbn [fst snd] in *. congruence.
    + destruct H as [(m' & _ & H)|[(_ & H)|(t & e & _ & _ & _ & H)]]; discriminate.
Qed.

Lemma run_finished_witness :
  Forall2 (fun p line =>
             check_data (fst p) (snd p) = Ok None
             /\ exists t, read_package (fst p) (snd p) = Ok t
                          /\ main pow_rn t = Ok line)
          (firstn 3 packages) (fst (run pow_rn (firstn 3 packages))).
Proof.
  apply (run_finished pow_rn (firstn 3 packages)). vm_compute. reflexivity.
Defined.

(** X12.  The loop of the script prints at most one line for each
    package.  When it ends with [ValueError], the argument is one of the
    five messages of [check_data]; when an exception of a callee goes
    through, it is [IndexError] (from [check_data]), [ZeroDivisionError]
    or [OverflowError]: never [KeyError], [TypeError] or
    [NotImplementedError]. *)
Theorem run_outcome :
  forall libm_pow ps lines,
    (List.length (fst (run libm_pow ps)) <= List.length ps)%nat
    /\ (forall arg, run libm_pow ps = (lines, ValueError arg) ->
          exists m, arg = Some m
            /\ In m [MSG_ARGS; MSG_WEIGHT; MSG_POOL; MSG_HEIGHT; MSG_CODE])
    /\ (forall e, run libm_pow ps = (lines, Uncaught e) ->
          e = IndexError \/ e = ZeroDivisionError \/ e = OverflowError).
Proof.
  intros libm_pow ps. induction ps as [|[c d] ps IH]; intros lines.
  - cbn [run fst List.length]. split; [lia|]. split; intros ? [=].
  - split; [|split].
    + destruct (run libm_pow ((c, d) :: ps)) as [ls o] eqn:Hr.
      destruct (run_head _ _ _ _ _ _ Hr) as [(t & line & _ & _ & _ & -> & _)|(-> & _)].
      * pose proof (proj1 (IH [])). cbn [fst List.length]. lia.
      * cbn [fst List.length]. lia.
    + intros arg Hr.
      destruct (run_head _ _ _ _ _ _ Hr) as [(t & line & _ & _ & _ & -> & Ho)|(_ & H)].
      * apply (proj1 (proj2 (IH (fst (run libm_pow ps))))).
        destruct (run libm_pow ps) as [ls o]. cbn [fst snd] in *. congruence.
      * destruct H as [(m & Hc & [= ->])|[(_ & [=])|(t & e & _ & _ & _ & [=])]].
        exists m. split; [reflexivity|].
        exact (check_data_message_in c d m Hc).
    + intros e Hr.
      destruct (run_head _ _ _ _ _ _ Hr) as [(t & line & _ & _ & _ & -> & Ho)|(_ & H)].
      * apply (proj2 (proj2 (IH (fst (run libm_pow ps))))).
        destruct (run libm_pow ps) as [ls o]. cbn [fst snd] in *. congruence.
      * destruct H as [(m & Hc & [=])|[(_ & [= ->])|(t & e' & _ & Hrd & Hm & [= ->])]].
        -- left; reflexivity.
        -- pose proof (main_arith libm_pow t (read_package_class _ _ _ Hrd)) as Ha.
           rewrite Hm in Ha. destruct e'; try contradiction; auto.
Qed.

Lemma run_outcome_witness :
  exists m, Some MSG_CODE = Some m
    /\ In m [MSG_ARGS; MSG_WEIGHT; MSG_POOL; MSG_HEIGHT; MSG_CODE].
Proof.
  apply (proj1 (proj2 (run_outcome pow_rn packages
                         (fst (run pow_rn (firstn 3 packages)))))).
  vm_compute. reflexivity.
Defined.

(** ** Numbers that binary64 holds exactly *)

Lemma rnd_spec_exact z s :
  0 < z -> Zdigits2 z <= 53 -> -1074 <= Zdigits2 z - 53 + s ->
  rnd_spec (IZR z * bpow s) (IZR z * bpow s).
Proof.
  intros Hz Hd Hs. pose proof (Zdigits2_bounds z Hz) as [Hlo Hhi].
  pose proof (Zdigits2_pos z Hz) as Hdp.
  set (d := Zdigits2 z) in *.
  assert (Hp : 0 < 2 ^ (53 - d)) by (apply Z.pow_pos_nonneg; lia).
  assert (H52 : 2 ^ 52 = 2 ^ (d - 1) * 2 ^ (53 - d)).
  { rewrite <- Z.pow_add_r by lia. f_equal. lia. }
  assert (H53 : 2 ^ 53 = 2 ^ d * 2 ^ (53 - d)).
  { rewrite <- Z.pow_add_r by lia. f_equal. lia. }
  assert (Hm : Zdigits2 (z * 2 ^ (53 - d)) = 53).
  { apply Zdigits2_unique; [|nia]. change (53 - 1) with 52. nia. }
  assert (Hv : (IZR (z * 2 ^ (53 - d)) * bpow (d - 53 + s) = IZR z * bpow s)%R).
  { rewrite mult_IZR, bpow_IZR by lia. rewrite Rmult_assoc, <- bpow_add.
    f_equal. f_equal. lia. }
  exists (z * 2 ^ (53 - d)), loc_Exact, (d - 53 + s). split; [nia|]. split.
  { rewrite Hm. xf. lia. }
  split.
  - rewrite <- Hv. apply located_exact.
  - cbn [round_nearest_even]. symmetry. exact Hv.
Qed.

Lemma rnd_spec_unique v r1 r2 : rnd_spec v r1 -> rnd_spec v r2 -> r1 = r2.
Proof.
  intros H1 H2. apply Rle_antisym.
  - apply (rnd_spec_mono v r1 v r2); auto. lra.
  - apply (rnd_spec_mono v r2 v r1); auto. lra.
Qed.

Lemma Zdigits2_small z : 0 < z < 2 ^ 53 -> Zdigits2 z <= 53.
Proof.
  intros [Hz Hlt]. pose proof (Zdigits2_bounds z Hz) as [Hlo _].
  destruct (Z_lt_le_dec 53 (Zdigits2 z)) as [H|H]; [|assumption].
  assert (2 ^ 53 <= 2 ^ (Zdigits2 z - 1)) by (apply Z.pow_le_mono_r; lia). lia.
Qed.

Lemma repr_exact_int s z r :
  0 < z < 2 ^ 53 -> rnd_spec (IZR z) (IZR z) -> 
  (exists rho, rnd_spec (IZR z) rho /\ repr s rho r) ->
  exists p e, r = S754_finite s p e /\ (IZR (Zpos p) * bpow e = IZR z)%R.
Proof.
  intros Hz He (rho & Hs & P). rewrite (rnd_spec_unique _ _ _ Hs He) in P.
  assert (H1 : (1 <= IZR z)%R) by (apply IZR_le; lia).
  assert (H2 : (IZR z < bpow emax)%R).
  { pose proof (IZR_bpow_lt z 53 0 (proj2 Hz) ltac:(lia)) as H.
    rewrite bpow_0, Rmult_1_r in H.
    pose proof (bpow_le (53 + 0) emax ltac:(xf; lia)). lra. }
  destruct P as [[E0 _]|[[E1 _]|(p & e & -> & _ & E & _)]]; try lra.
  exists p, e. split; [reflexivity|]. symmetry. exact E.
Qed.

Lemma float_of_int_exact z :
  - 2 ^ 53 < z < 2 ^ 53 -> z <> 0 ->
  exists f p e,
    float_of_int z = Ok f /\ Prim2SF f = S754_finite (z <? 0) p e
    /\ (IZR (Zpos p) * bpow e = IZR (Z.abs z))%R.
Proof.
  intros Hz Hn.
  pose proof (rounds_binary_normalize z 0) as R.
  rewrite bpow_0, Rmult_1_r in R.
  pose proof (rounds_valid _ _ R) as V.
  assert (Ha : 0 < Z.abs z < 2 ^ 53) by lia.
  pose proof (rnd_spec_exact (Z.abs z) 0 (proj1 Ha) (Zdigits2_small _ Ha)) as He.
  rewrite bpow_0, Rmult_1_r in He.
  pose proof (Zdigits2_pos (Z.abs z) (proj1 Ha)) as Hd.
  specialize (He ltac:(lia)).
  assert (Hr : exists p e,
             binary_normalize prec emax z 0 false = S754_finite (z <? 0) p e
             /\ (IZR (Zpos p) * bpow e = IZR (Z.abs z))%R).
  { destruct (Z.ltb_spec z 0) as [Hneg|Hpos].
    - assert (Hv : (IZR z < 0)%R) by (apply IZR_lt; assumption).
      destruct R as [[E _]|[[E _]|[_ P]]]; try lra.
      rewrite <- opp_IZR in P. replace (- z) with (Z.abs z) in P by lia.
      exact (repr_exact_int true (Z.abs z) _ Ha He P).
    - assert (Hv : (0 < IZR z)%R) by (apply IZR_lt; lia).
      destruct R as [[E _]|[[_ P]|[E _]]]; try lra.
      replace (IZR z) with (IZR (Z.abs z)) in P by (f_equal; lia).
      exact (repr_exact_int false (Z.abs z) _ Ha He P). }
  destruct Hr as (p & e & Hr & Hv).
  exists (SF2Prim (S754_finite (z <? 0) p e)), p, e. split; [|split].
  - unfold float_of_int. rewrite Hr. reflexivity.
  - rewrite Hr in V. apply Prim2SF_SF2Prim. exact V.
  - exact Hv.
Qed.

Lemma thousandths_exact p e z :
  (IZR (Zpos p) * bpow e = IZR z)%R -> thousandths p e = 1000 * z.
Proof.
  intros H. destruct (thousandths_spec p e) as [_ [H1 H2]]. rewrite H in H1, H2.
  assert (Hlo : (IZR (-1) < IZR (thousandths p e - 1000 * z))%R).
  { rewrite minus_IZR, mult_IZR. lra. }
  assert (Hhi : (IZR (thousandths p e - 1000 * z) < IZR 1)%R).
  { rewrite minus_IZR, mult_IZR. lra. }
  apply lt_IZR in Hlo, Hhi. lia.
Qed.

Lemma fixed3_thousand z :
  0 <= z -> fixed3 (1000 * z) = string_of_nonneg z ++ ".000".
Proof.
  intros Hz. unfold fixed3, digit.
  replace (1000 * z / 1000) with z by (Z.div_mod_to_equations; lia).
  replace ((1000 * z / 100) mod 10) with 0 by (Z.div_mod_to_equations; lia).
  replace ((1000 * z / 10) mod 10) with 0 by (Z.div_mod_to_equations; lia).
  replace ((1000 * z) mod 10) with 0 by (Z.div_mod_to_equations; lia).
  reflexivity.
Qed.

(** X13.  An int field of magnitude below [2 ^ 53] is rendered by the
    format [.3f] as its decimal digits followed by [.000], with a minus
    sign when it is negative: the conversion to a float is exact there. *)
Theorem format_3f_int :
  forall z, - 2 ^ 53 < z < 2 ^ 53 ->
    format_3f (PyInt z)
    = Ok (sign_string (z <? 0) ++ string_of_nonneg (Z.abs z) ++ ".000").
Proof.
  intros z Hz. destruct (Z.eq_dec z 0) as [->|Hn]; [reflexivity|].
  destruct (float_of_int_exact z Hz Hn) as (f & p & e & Hf & Hp & Hv).
  unfold format_3f. cbn [to_float]. rewrite Hf. cbn [bind].
  unfold format_3f_float. rewrite Hp.
  rewrite (thousandths_exact p e _ Hv), fixed3_thousand by lia. reflexivity.
Qed.

Lemma format_3f_int_witness : format_3f (PyInt (-12)) = Ok "-12.000".
Proof. apply (format_3f_int (-12)). lia. Defined.

Lemma main_inv libm_pow t line :
  main libm_pow t = Ok line ->
  exists dist speed cal sd sx ss sc,
    get_distance t = Ok dist /\ get_mean_speed t = Ok speed
    /\ get_spent_calories libm_pow t = Ok cal
    /\ format_3f (duration t) = Ok sd /\ format_3f dist = Ok sx
    /\ format_3f speed = Ok ss /\ format_3f cal = Ok sc
    /\ line = "Тип тренировки: " ++ class_name t ++ "; "
              ++ "Длительность: " ++ sd ++ " ч.; "
              ++ "Дистанция: " ++ sx ++ " км; "
              ++ "Ср. скорость: " ++ ss ++ " км/ч; "
              ++ "Потрачено ккал: " ++ sc ++ ".".
Proof.
  unfold main, show_training_info, InfoMessage.get_message. intros H.
  apply bind_Ok in H. destruct H as (info & Hi & H).
  apply bind_Ok in Hi. destruct Hi as (dist & Hd & Hi).
  apply bind_Ok in Hi. destruct Hi as (speed & Hv & Hi).
  apply bind_Ok in Hi. destruct Hi as (cal & Hc & Hi).
  injection Hi as <-. cbn [InfoMessage.duration InfoMessage.distance
    InfoMessage.speed InfoMessage.calories InfoMessage.training_type] in H.
  apply bind_Ok in H. destruct H as (sd & Hsd & H).
  apply bind_Ok in H. destruct H as (sx & Hsx & H).
  apply bind_Ok in H. destruct H as (ss & Hss & H).
  apply bind_Ok in H. destruct H as (sc & Hsc & H).
  injection H as <-. exists dist, speed, cal, sd, sx, ss, sc. repeat split; auto.
Qed.

Lemma main_intro libm_pow t dist speed cal sd sx ss sc :
  get_distance t = Ok dist -> get_mean_speed t = Ok speed ->
  get_spent_calories libm_pow t = Ok cal ->
  format_3f (duration t) = Ok sd -> format_3f dist = Ok sx ->
  format_3f speed = Ok ss -> format_3f cal = Ok sc ->
  main libm_pow t
  = Ok ("Тип тренировки: " ++ class_name t ++ "; "
        ++ "Длительность: " ++ sd ++ " ч.; "
        ++ "Дистанция: " ++ sx ++ " км; "
        ++ "Ср. скорость: " ++ ss ++ " км/ч; "
        ++ "Потрачено ккал: " ++ sc ++ ".").
Proof.
  intros Hd Hv Hc Hsd Hsx Hss Hsc.
  unfold main, show_training_info, InfoMessage.get_message.
  rewrite Hd, Hv, Hc. cbn [bind InfoMessage.duration InfoMessage.distance
    InfoMessage.speed InfoMessage.calories InfoMessage.training_type].
  rewrite Hsd, Hsx, Hss, Hsc. reflexivity.
Qed.

(** X14.  [main] prints a line exactly when the distance, the mean speed
    and the calories are computed and the four numbers are rendered, and
    the line is then the template filled with the name of the class, the
    duration of the instance and these three results. *)
Theorem main_line :
  forall libm_pow t line,
    main libm_pow t = Ok line <->
    exists dist speed cal sd sx ss sc,
      get_distance t = Ok dist /\ get_mean_speed t = Ok speed
      /\ get_spent_calories libm_pow t = Ok cal
      /\ format_3f (duration t) = Ok sd /\ format_3f dist = Ok sx
      /\ format_3f speed = Ok ss /\ format_3f cal = Ok sc
      /\ line = "Тип тренировки: " ++ class_name t ++ "; "
                ++ "Длительность: " ++ sd ++ " ч.; "
                ++ "Дистанция: " ++ sx ++ " км; "
                ++ "Ср. скорость: " ++ ss ++ " км/ч; "
                ++ "Потрачено ккал: " ++ sc ++ ".".
Proof.
  intros libm_pow t line. split.
  - apply main_inv.
  - intros (dist & speed & cal & sd & sx & ss & sc & Hd & Hv & Hc & Hsd & Hsx & Hss
            & Hsc & ->).
    apply (main_intro libm_pow t dist speed cal); assumption.
Qed.

Lemma main_line_witness :
  main pow_rn (Running (PyInt 15000) (PyInt 1) (PyInt 75))
  = Ok ("Тип тренировки: Running; Длительность: 1.000 ч.; Дистанция: 9.750 км; "
        ++ "Ср. скорость: 9.750 км/ч; Потрачено ккал: 797.805.").
Proof.
  apply (proj2 (main_line pow_rn (Running (PyInt 15000) (PyInt 1) (PyInt 75)) _)).
  exists (PyFloat (15000 * 0.65 / 1000)), (PyFloat (15000 * 0.65 / 1000 / 1)),
    (PyFloat ((18 * (15000 * 0.65 / 1000 / 1) + 1.79) * 75 / 1000 * 1 * 60)),
    "1.000", "9.750", "9.750", "797.805".
  repeat split; reflexivity.
Defined.

(** ** Signs *)

Lemma SFadd_nonneg_both x y :
  SFnonneg x -> SFnonneg y -> SFnonneg (SFadd prec emax x y).
Proof.
  destruct y as [sy|sy| |sy my ey].
  - destruct x as [[|]|sx| |sx mx ex], sy; simpl; auto.
  - destruct x as [sx|sx| |sx mx ex]; simpl; intros; subst; auto; reflexivity.
  - destruct x as [sx|sx| |sx mx ex]; simpl; auto.
  - simpl. intros Hx ->. apply SFadd_nonneg. exact Hx.
Qed.

Lemma f_add_nonneg_both x y : f_nonneg x -> f_nonneg y -> f_nonneg (x + y).
Proof. unfold f_nonneg. rewrite add_spec. apply SFadd_nonneg_both. Qed.

Lemma f_div_nonneg_nonzero x y :
  f_nonneg x -> f_nonneg y -> (y =? 0)%float = false -> f_nonneg (x / y).
Proof.
  unfold f_nonneg. rewrite div_spec, eqb_spec.
  change (Prim2SF 0) with (S754_zero false). intros Hx Hy Hz.
  apply SFdiv_nonneg; auto.
  destruct (Prim2SF y) as [[|]| | |]; try exact I; discriminate Hz.
Qed.

Lemma num_add_nonneg a b r :
  num_nonneg a -> num_nonneg b -> num_add a b = Ok r -> num_nonneg r.
Proof.
  intros Ha Hb H.
  assert (Hf : forall fa fb, to_float a = Ok fa -> to_float b = Ok fb ->
                 num_nonneg (PyFloat (fa + fb))).
  { intros fa fb Ea Eb. apply f_nonneg_num_nonneg, f_add_nonneg_both;
      eauto using to_float_nonneg. }
  destruct a as [x|x], b as [y|y]; unfold num_add in H.
  - injection H as <-. unfold num_nonneg in *. cbn [num_lt] in *.
    apply Z.ltb_ge. apply Z.ltb_ge in Ha, Hb. lia.
  - apply bind_Ok in H. destruct H as (fa & Ea & H). injection H as <-. auto.
  - apply bind_Ok in H. destruct H as (fa & Ea & H).
    apply bind_Ok in H. destruct H as (fb & Eb & H). injection H as <-. auto.
  - injection H as <-. auto.
Qed.

Lemma num_truediv_nonneg_both a b r :
  num_nonneg a -> num_nonneg b -> num_truediv a b = Ok r -> num_nonneg r.
Proof.
  intros Ha Hb H.
  assert (Hf : forall fa fb, to_float a = Ok fa -> to_float b = Ok fb ->
                 (fb =? 0)%float = false -> num_nonneg (PyFloat (fa / fb))).
  { intros fa fb Ea Eb Hz. apply f_nonneg_num_nonneg, f_div_nonneg_nonzero;
      eauto using to_float_nonneg. }
  destruct a as [x|x], b as [y|y]; unfold num_truediv in H.
  - apply bind_Ok in H. destruct H as (f & Ef & H). injection H as <-.
    apply f_nonneg_num_nonneg.
    unfold num_nonneg in *. cbn [num_lt] in Ha, Hb.
    apply Z.ltb_ge in Ha, Hb.
    apply (int_true_divide_nonneg x y f); [lia| |assumption].
    destruct (Z.eq_dec y 0) as [->|]; [|lia].
    unfold int_true_divide in Ef. discriminate Ef.
  - apply bind_Ok in H. destruct H as (fa & Ea & H). cbn [to_float bind] in H.
    destruct (y =? 0)%float eqn:Hz; [discriminate|]. injection H as <-. auto.
  - cbn [to_float bind] in H.
    apply bind_Ok in H. destruct H as (fb & Eb & H).
    destruct (fb =? 0)%float eqn:Hz; [discriminate|]. injection H as <-. auto.
  - cbn [to_float bind] in H.
    destruct (y =? 0)%float eqn:Hz; [discriminate|]. injection H as <-. auto.
Qed.

Lemma num_pow_two_nonneg libm_pow x r :
  (forall y, f_nonneg (libm_pow y 2%float)) ->
  num_pow_two libm_pow x = Ok r -> num_nonneg r.
Proof.
  intros Hpow H. destruct x as [z|f]; unfold num_pow_two in H.
  - injection H as <-. unfold num_nonneg. cbn [num_lt]. apply Z.ltb_ge. nia.
  - apply bind_Ok in H. destruct H as (v & Hv & H). injection H as <-.
    apply f_nonneg_num_nonneg. unfold float_pow_two in Hv.
    destruct (is_nan f) eqn:En.
    { injection Hv as <-. unfold f_nonneg. rewrite (is_nan_spec f En). exact I. }
    destruct (is_infinity f).
    { injection Hv as <-. unfold f_nonneg. rewrite abs_spec.
      destruct (Prim2SF f); simpl; auto. }
    destruct (f =? 0)%float; [injection Hv as <-; exact I|].
    destruct ((if (f <? 0)%float then (- f)%float else f) =? 1)%float;
      [injection Hv as <-; reflexivity|].
    destruct (is_infinity _); [discriminate|]. injection Hv as <-. apply Hpow.
Qed.

Tactic Notation "bind_inv" hyp(H) ident(x) ident(Hx) :=
  apply bind_Ok in H; destruct H as (x & Hx & H).

Ltac nonneg_arg := first [assumption | reflexivity].

(** The result of the operation in [H] is zero or more, as its operands are. *)
Ltac nonneg_of H :=
  match type of H with
  | num_mul ?a ?b = Ok ?r =>
      assert (num_nonneg r)
        by (apply (num_mul_nonneg a b r); [nonneg_arg|nonneg_arg|exact H])
  | num_add ?a ?b = Ok ?r =>
      assert (num_nonneg r)
        by (apply (num_add_nonneg a b r); [nonneg_arg|nonneg_arg|exact H])
  | num_truediv ?a ?b = Ok ?r =>
      assert (num_nonneg r)
        by (apply (num_truediv_nonneg_both a b r); [nonneg_arg|nonneg_arg|exact H])
  end.

Lemma get_distance_nonneg t v :
  num_nonneg (action t) -> get_distance t = Ok v -> num_nonneg v.
Proof.
  intros Ha H. unfold get_distance in H. bind_inv H x Hx.
  assert (Hl : num_nonneg (LEN_STEP t)) by (destruct t; reflexivity).
  nonneg_of Hx. nonneg_of H. assumption.
Qed.

Lemma get_mean_speed_nonneg t v :
  fields_nonneg t -> get_mean_speed t = Ok v -> num_nonneg v.
Proof.
  intros (Ha & Hd & Hw & Ht) H.
  assert (Hb : (dist <- get_distance t ;; num_truediv dist (duration t)) = Ok v ->
               num_nonneg v).
  { intros Hg. bind_inv Hg dist Hdist.
    pose proof (get_distance_nonneg _ _ Ha Hdist) as Nd.
    nonneg_of Hg. assumption. }
  destruct t as [a d w|a d w|a d w h|a d w l c]; unfold get_mean_speed in H;
    try (apply Hb; exact H).
  destruct Ht as [Hl Hc]. cbn [duration] in Hd.
  bind_inv H x Hx. bind_inv H y Hy.
  nonneg_of Hx. nonneg_of Hy. nonneg_of H. assumption.
Qed.

Lemma get_spent_calories_nonneg libm_pow t c :
  (forall y, f_nonneg (libm_pow y 2%float)) ->
  fields_nonneg t -> get_spent_calories libm_pow t = Ok c -> num_nonneg c.
Proof.
  intros Hpow Hf H.
  assert (Hs : forall v, get_mean_speed t = Ok v -> num_nonneg v).
  { intros v. apply get_mean_speed_nonneg. exact Hf. }
  destruct Hf as (Ha & Hd & Hw & Ht).
  destruct t as [a d w|a d w|a d w h|a d w l n]; unfold get_spent_calories in H;
    cbn [duration weight action] in *.
  - discriminate.
  - bind_inv H speed Hv. bind_inv H x1 H1. bind_inv H x2 H2. bind_inv H x3 H3.
    bind_inv H x4 H4. bind_inv H x5 H5.
    pose proof (Hs _ Hv) as Nv.
    nonneg_of H1. nonneg_of H2. nonneg_of H3. nonneg_of H4. nonneg_of H5.
    nonneg_of H. assumption.
  - bind_inv H l Hl. bind_inv H speed Hv. bind_inv H v H1. bind_inv H v2 H2.
    bind_inv H hm H3. bind_inv H r H4. bind_inv H r1 H5. bind_inv H r2 H6.
    bind_inv H x H7. bind_inv H x1 H8.
    pose proof (num_pow_two_nonneg _ _ _ Hpow H2) as N2.
    nonneg_of Hl. nonneg_of H3. nonneg_of H4. nonneg_of H5. nonneg_of H6.
    nonneg_of H7. nonneg_of H8. nonneg_of H. assumption.
  - bind_inv H speed Hv. bind_inv H x1 H1. bind_inv H x2 H2. bind_inv H x3 H3.
    pose proof (Hs _ Hv) as Nv.
    nonneg_of H1. nonneg_of H2. nonneg_of H3. nonneg_of H. assumption.
Qed.

Lemma pow_rn_nonneg y : f_nonneg (pow_rn y 2%float).
Proof.
  unfold pow_rn, f_nonneg. rewrite mul_spec.
  destruct (Prim2SF y) as [s|s| |s m e]; simpl; try exact I.
  - destruct s; reflexivity.
  - replace (xorb s s) with false by (destruct s; reflexivity). apply BR_nonneg.
Qed.

(** X15.  When every field of the instance is zero or more, no result is
    negative: the distance, the mean speed and the calories that are
    returned are never below zero, for every class, provided the square
    computed by the C library is not negative. *)
Theorem results_never_negative :
  forall libm_pow t,
    (forall y, f_nonneg (libm_pow y 2%float)) ->
    fields_nonneg t ->
    (forall v, get_distance t = Ok v -> num_nonneg v)
    /\ (forall v, get_mean_speed t = Ok v -> num_nonneg v)
    /\ (forall c, get_spent_calories libm_pow t = Ok c -> num_nonneg c).
Proof.
  intros libm_pow t Hpow Hf. split; [|split].
  - intros v. apply get_distance_nonneg. exact (proj1 Hf).
  - intros v. apply get_mean_speed_nonneg. exact Hf.
  - intros c. apply get_spent_calories_nonneg; assumption.
Qed.

Lemma results_never_negative_witness :
  num_nonneg (PyFloat ((0.035 * 75 + (9000 * 0.65 / 1000 / 1 * 0.278)
                          * (9000 * 0.65 / 1000 / 1 * 0.278) / (180 / 100)
                        * 0.029 * 75) * 1 * 60)).
Proof.
  apply (proj2 (proj2 (results_never_negative pow_rn
           (SportsWalking (PyInt 9000) (PyInt 1) (PyInt 75) (PyInt 180))
           pow_rn_nonneg
           (conj eq_refl (conj eq_refl (conj eq_refl eq_refl)))))).
  reflexivity.
Defined.

(** X16.  [Swimming] inherits [get_distance] with its own stroke length:
    the distance is [action * 1.38 / 1000], and it is the distance that
    [show_training_info] reports for a swim, under the name
    ["Swimming"]. *)
Theorem swimming_distance :
  forall libm_pow a d w l c fa,
    to_float a = Ok fa ->
    get_distance (Swimming a d w l c) = Ok (PyFloat (fa * 1.38 / 1000))
    /\ forall info,
         show_training_info libm_pow (Swimming a d w l c) = Ok info ->
         InfoMessage.training_type info = "Swimming"
         /\ InfoMessage.distance info = PyFloat (fa * 1.38 / 1000).
Proof.
  intros libm_pow a d w l c fa Ha.
  pose proof (get_distance_value (Swimming a d w l c) fa 1.38 eq_refl Ha) as Hd.
  split; [exact Hd|]. intros info H. unfold show_training_info in H.
  rewrite Hd in H. cbn [bind] in H.
  apply bind_Ok in H. destruct H as (speed & _ & H).
  apply bind_Ok in H. destruct H as (cal & _ & H).
  injection H as <-. split; reflexivity.
Qed.

Lemma swimming_distance_witness :
  get_distance (Swimming (PyInt 720) (PyInt 1) (PyInt 80) (PyInt 25) (PyInt 40))
  = Ok (PyFloat (720 * 1.38 / 1000)).
Proof.
  apply (proj1 (swimming_distance pow_rn (PyInt 720) (PyInt 1) (PyInt 80) (PyInt 25)
                  (PyInt 40) 720 eq_refl)).
Defined.

(** ** Conversions and divisions that cannot overflow *)

Lemma rounds_not_inf v r k :
  rounds v r -> (Rabs v <= bpow k)%R -> -1022 <= k < 1024 ->
  forall s, r <> S754_infinity s.
Proof.
  intros R Hv Hk s Hr. subst r.
  assert (Hb : rnd_spec (bpow k) (bpow k)).
  { assert (Hd : Zdigits2 1 = 1) by reflexivity.
    assert (H : rnd_spec (IZR 1 * bpow k) (IZR 1 * bpow k))
      by (apply rnd_spec_exact; rewrite ?Hd; lia).
    rewrite Rmult_1_l in H. exact H. }
  assert (Hlt : (bpow k < bpow emax)%R) by (apply bpow_lt; xf; lia).
  assert (Hrho : forall w rho s', (0 < w)%R -> (w <= bpow k)%R -> rnd_spec w rho ->
                   repr s' rho (S754_infinity s) -> False).
  { intros w rho s' Hw Hwk Hs P.
    pose proof (rnd_spec_mono _ _ _ _ Hs Hb Hwk) as Hle.
    destruct P as [[_ E]|[[Hge _]|(p & e & E & _)]]; try discriminate. lra. }
  unfold Rabs in Hv. destruct (Rcase_abs v) as [Hn|Hp].
  - destruct R as [[E _]|[[E _]|[_ (rho & Hs & P)]]]; try lra.
    apply (Hrho (- v)%R rho true); auto. lra.
  - destruct R as [[_ [s' E]]|[[Hpos (rho & Hs & P)]|[E _]]]; try lra.
    + discriminate.
    + apply (Hrho v rho false); auto.
Qed.

Lemma IZR_abs_bound z k :
  Z.abs z <= 2 ^ k -> 0 <= k -> (Rabs (IZR z) <= bpow k)%R.
Proof.
  intros H Hk. rewrite <- abs_IZR, <- bpow_IZR by assumption.
  apply IZR_le. exact H.
Qed.

Lemma float_of_int_ok z :
  Z.abs z <= 2 ^ 1023 -> exists f, float_of_int z = Ok f.
Proof.
  intros Hz. pose proof (rounds_binary_normalize z 0) as R.
  rewrite bpow_0, Rmult_1_r in R.
  pose proof (rounds_not_inf _ _ 1023 R (IZR_abs_bound z 1023 Hz ltac:(lia))
                ltac:(lia)) as Hni.
  unfold float_of_int.
  destruct (binary_normalize prec emax z 0 false) as [s|s| |s m e]; eauto.
  exfalso. exact (Hni s eq_refl).
Qed.

Lemma int_true_divide_ok a b :
  Z.abs a <= 2 ^ 1023 -> 0 < b -> exists f, int_true_divide a b = Ok f.
Proof.
  intros Ha Hb. unfold int_true_divide.
  destruct (Z.eqb_spec b 0); [lia|]. destruct (Z.eqb_spec a 0); [eauto|].
  destruct b as [|pb|pb]; try lia.
  assert (Hq : exists pa, Z.abs a = Zpos pa).
  { destruct a as [|pa|pa]; [lia|exists pa; reflexivity|exists pa; reflexivity]. }
  destruct Hq as [pa Hpa]. rewrite Hpa in *. cbn [Z.abs].
  set (s := xorb (a <? 0) (Zpos pb <? 0)).
  pose proof (rounds_div_core s pa 0 pb 0) as R.
  destruct (SFdiv_core_binary prec emax (Zpos pa) 0 (Zpos pb) 0) as [[q e] l].
  rewrite bpow_0, !Rmult_1_r in R.
  assert (Hv : (Rabs (cond_Ropp s (IZR (Zpos pa) / IZR (Zpos pb))) <= bpow 1023)%R).
  { assert (H1 : (1 <= IZR (Zpos pb))%R) by (apply IZR_le; lia).
    assert (H2 : (0 < IZR (Zpos pa))%R) by (apply IZR_lt; lia).
    assert (H3 : (IZR (Zpos pa) <= bpow 1023)%R).
    { rewrite <- bpow_IZR by lia. apply IZR_le. exact Ha. }
    assert (H4 : (0 < IZR (Zpos pa) / IZR (Zpos pb) <= IZR (Zpos pa))%R).
    { split.
      - apply Rdiv_lt_0_compat; lra.
      - apply Rmult_le_reg_r with (IZR (Zpos pb)); [lra|].
        unfold Rdiv. rewrite Rmult_assoc, Rinv_l by lra. nra. }
    destruct s; cbn [cond_Ropp]; unfold Rabs; destruct (Rcase_abs _); lra. }
  pose proof (rounds_not_inf _ _ 1023 R Hv ltac:(lia)) as Hni.
  destruct (binary_round_aux prec emax s q e l) as [s'|s'| |s' m' e']; eauto.
  exfalso. exact (Hni s' eq_refl).
Qed.

Lemma pow_1000_1023 : 2 ^ 1023 = 2 ^ 23 * 2 ^ 1000.
Proof. rewrite <- Z.pow_add_r by lia. reflexivity. Qed.

Lemma to_float_ok x : int_bounded x -> exists f, to_float x = Ok f.
Proof.
  destruct x as [z|f]; cbn [int_bounded to_float]; [|eauto].
  intros H. apply float_of_int_ok. rewrite pow_1000_1023.
  assert (0 < 2 ^ 1000) by (apply Z.pow_pos_nonneg; lia).
  generalize dependent (2 ^ 1000). intros; nia.
Qed.

Lemma swimming_mean_speed_ok a d w l c :
  in_open_interval 1 1013 l -> int_bounded c -> int_bounded d -> num_pos d ->
  exists v, get_mean_speed (Swimming a d w l c) = Ok (PyFloat v).
Proof.
  intros Hl Hc Hd Hp. destruct (to_float_ok d Hd) as [fd Hfd].
  destruct (to_float_ok c Hc) as [fc Hfc].
  assert (Hy : exists y, (x <- num_mul l c ;; num_truediv x M_IN_KM) = Ok (PyFloat y)).
  { destruct l as [zl|fl].
    - destruct c as [zc|fc'].
      + cbn [num_mul bind]. unfold M_IN_KM. cbn [num_truediv].
        cbn [in_open_interval int_bounded] in Hl, Hc.
        destruct (int_true_divide_ok (zl * zc) 1000) as [f Hf]; [|lia|].
        * rewrite pow_1000_1023.
          assert (0 < 2 ^ 1000) by (apply Z.pow_pos_nonneg; lia).
          change (2 ^ 23) with 8388608.
          generalize dependent (2 ^ 1000). intros; nia.
        * rewrite Hf. cbn [bind]. eauto.
      + cbn [in_open_interval] in Hl.
        destruct (to_float_ok (PyInt zl)) as [fl Hfl].
        { cbn [int_bounded]. assert (2 ^ 10 <= 2 ^ 1000)
            by (apply Z.pow_le_mono_r; lia). change (2 ^ 10) with 1024 in *. lia. }
        rewrite (num_mul_float_r _ _ _ Hfl). cbn [bind].
        rewrite (num_truediv_float_l _ _ 1000%float to_float_1000 eq_refl). eauto.
    - rewrite (num_mul_float_l _ _ _ Hfc). cbn [bind].
      rewrite (num_truediv_float_l _ _ 1000%float to_float_1000 eq_refl). eauto. }
  destruct Hy as [y Hy]. exists (y / fd)%float.
  unfold get_mean_speed.
  destruct (num_mul l c) as [x|e]; [|discriminate]. cbn [bind] in Hy |- *.
  rewrite Hy. cbn [bind]. apply truediv_pos_value; assumption.
Qed.

Lemma format_3f_ok x f :
  to_float x = Ok f -> format_3f x = Ok (format_3f_float f).
Proof. intros H. unfold format_3f. rewrite H. reflexivity. Qed.

(** X17.  For a run or a swim that [check_data] accepts, with a positive
    duration and ints of at most a thousand bits, [main] prints a line:
    no conversion and no division overflows, and no division is by
    zero. *)
Theorem validated_report_returns :
  forall libm_pow code data t,
    check_data code data = Ok None ->
    read_package code data = Ok t ->
    code <> "WLK" ->
    num_pos (duration t) ->
    Forall int_bounded data ->
    exists line, main libm_pow t = Ok line.
Proof.
  intros libm_pow code data t Hc Hr Hw Hp Hb.
  destruct (check_accepted code data Hc) as [t' Ha].
  rewrite (accepted_read _ _ _ Ha) in Hr. injection Hr as ->.
  destruct Ha as [a d w Hi|a d w h Hi Hh|a d w l c Hi Hl]; [|congruence|];
    cbn [duration] in Hp.
  - inversion Hb as [|? ? Ba Hb1]; subst. inversion Hb1 as [|? ? Bd Hb2]; subst.
    inversion Hb2 as [|? ? Bw _]; subst.
    destruct (to_float_ok a Ba) as [fa Hfa]. destruct (to_float_ok d Bd) as [fd Hfd].
    destruct (to_float_ok w Bw) as [fw Hfw].
    eexists. eapply main_intro.
    + apply (get_distance_value (Running a d w) fa 0.65 eq_refl Hfa).
    + apply (base_mean_speed_value (Running a d w) fa fd eq_refl Hfa Hfd Hp).
    + apply (running_calories_value libm_pow a d w fa fd fw Hp Hfa Hfd Hfw).
    + apply (format_3f_ok _ _ Hfd).
    + reflexivity.
    + reflexivity.
    + reflexivity.
  - inversion Hb as [|? ? Ba Hb1]; subst. inversion Hb1 as [|? ? Bd Hb2]; subst.
    inversion Hb2 as [|? ? Bw Hb3]; subst. inversion Hb3 as [|? ? Bl Hb4]; subst.
    inversion Hb4 as [|? ? Bc _]; subst.
    destruct (to_float_ok a Ba) as [fa Hfa]. destruct (to_float_ok d Bd) as [fd Hfd].
    destruct (to_float_ok w Bw) as [fw Hfw].
    destruct (swimming_mean_speed_ok a d w l c Hl Bc Bd Hp) as [v Hv].
    eexists. eapply main_intro.
    + apply (get_distance_value (Swimming a d w l c) fa 1.38 eq_refl Hfa).
    + exact Hv.
    + apply (swimming_calories_value libm_pow a d w l c v fd fw Hv Hfd Hfw).
    + apply (format_3f_ok _ _ Hfd).
    + reflexivity.
    + reflexivity.
    + reflexivity.
Qed.

Lemma validated_report_returns_witness :
  exists line,
    main pow_rn (Swimming (PyInt 720) (PyInt 1) (PyInt 80) (PyInt 25) (PyInt 40))
    = Ok line.
Proof.
  apply (validated_report_returns pow_rn "SWM"
           [PyInt 720; PyInt 1; PyInt 80; PyInt 25; PyInt 40]).
  - reflexivity.
  - reflexivity.
  - discriminate.
  - reflexivity.
  - repeat constructor; vm_compute; discriminate.
Defined.

Lemma get_distance_inv t v :
  get_distance t = Ok v ->
  exists fa ls, LEN_STEP t = PyFloat ls /\ SFposfin (Prim2SF ls)
    /\ to_float (action t) = Ok fa /\ v = PyFloat (fa * ls / 1000).
Proof.
  intros H. unfold get_distance in H.
  apply bind_Ok in H. destruct H as (x & Hx & H).
  assert (Hl : exists ls, LEN_STEP t = PyFloat ls /\ SFposfin (Prim2SF ls)).
  { destruct t; eexists; split; try reflexivity; exact I. }
  destruct Hl as (ls & Hl & Hp). rewrite Hl in Hx.
  apply num_mul_float_r_inv in Hx. destruct Hx as (fa & Ha & ->).
  apply num_truediv_float_l_inv in H. destruct H as (k & Hk & ->).
  unfold M_IN_KM in Hk. rewrite to_float_1000 in Hk. injection Hk as <-. eauto 6.
Qed.

(** X18.  The distance never decreases when the action grows, the other
    fields being the same: if [a1 < a2] and both distances are computed,
    the distance for [a2] is not less than the distance for [a1]. *)
Theorem distance_monotone_in_action :
  forall t a1 a2 d1 d2,
    num_lt a1 a2 = true ->
    get_distance (set_action t a1) = Ok d1 ->
    get_distance (set_action t a2) = Ok d2 ->
    num_lt d2 d1 = false.
Proof.
  intros t a1 a2 d1 d2 Ha H1 H2.
  destruct (get_distance_inv _ _ H1) as (f1 & ls & Hl1 & Hp & E1 & ->).
  destruct (get_distance_inv _ _ H2) as (f2 & ls' & Hl2 & _ & E2 & ->).
  assert (ls' = ls) as ->.
  { destruct t; cbn [set_action LEN_STEP] in Hl1, Hl2; congruence. }
  assert (Ea1 : action (set_action t a1) = a1) by (destruct t; reflexivity).
  assert (Ea2 : action (set_action t a2) = a2) by (destruct t; reflexivity).
  rewrite Ea1 in E1. rewrite Ea2 in E2.
  cbn [num_lt]. apply f_not_gt_ltb.
  apply f_div_posfin_mono; [exact I|].
  apply f_mul_mono_l.
  - unfold f_nonneg. destruct (Prim2SF ls) as [s|s| |[|] m e]; try contradiction.
    reflexivity.
  - exact (num_lt_f_not_gt a1 a2 f1 f2 Ha E1 E2).
Qed.

Lemma distance_monotone_in_action_witness :
  num_lt (PyFloat (15000 * 0.65 / 1000)) (PyFloat (9000 * 0.65 / 1000)) = false.
Proof.
  apply (distance_monotone_in_action
           (Running (PyInt 0) (PyInt 1) (PyInt 75)) (PyInt 9000) (PyInt 15000));
    reflexivity.
Defined.
